(** * MCP bridge tool: a shallow embedding of
      [agentflow/tools/mcp_bridge/tool.py] and the properties of its
      dispatcher, connection manager, validation and shutdown path.

    The bridge is a Python object with mutable fields that talks to an MCP
    server through two library transports.  The embedding keeps the object
    as a record, the transports as an environment of scripted outcomes, and
    the methods as computations in a small state-and-exception monad whose
    state survives a raised exception, as Python's does.

    Conventions of the model
    - A Python [str] is a [string]; every [ascii] stands for the code point
      of the same number (code points below 256).
    - A Python [int] is a [Z].  JSON numbers with a fraction are outside the
      model.
    - A [dict] whose order is observable (the tool catalogue is printed with
      [list(keys)]) is an association list in insertion order.
    - Time is logical: every awaited transport operation has a duration
      given by the environment, and [asyncio.wait_for] cancels the awaiting
      coroutine when the deadline is reached.
    - [print] output is not modelled.
    - [asyncio.run] is entered from synchronous code (no running loop). *)

From Stdlib Require Import String Ascii List ZArith Lia Bool Arith DecimalString.
Import ListNotations.
Open Scope string_scope.
#[local] Set Warnings "-register-all".

(* ===================================================================== *)
(** * Python values *)
(* ===================================================================== *)

Module Py.

(** Values that [json.loads] can produce (and the argument mappings a caller
    passes).  Object keys are strings. *)
Inductive pyval :=
| PNone
| PBool (b : bool)
| PInt (z : Z)
| PStr (s : string)
| PList (l : list pyval)
| PDict (d : list (string * pyval)).

Definition pydict := list (string * pyval).

(** [type(v).__name__], as it appears in the interpreter's error texts. *)
Definition type_name (v : pyval) : string :=
  match v with
  | PNone => "NoneType"
  | PBool _ => "bool"
  | PInt _ => "int"
  | PStr _ => "str"
  | PList _ => "list"
  | PDict _ => "dict"
  end.

(** Exception classes that the bridge raises or tells apart.  All of them
    derive from [Exception]; cancellation does not and is a separate
    outcome of a computation. *)
Inductive exn_class :=
| ImportError | ValueError | TimeoutError | AttributeError
| IndexError | KeyError | TypeError | RuntimeError | TransportError.

Record exn := mk_exn { exn_cls : exn_class; exn_text : string }.

(** [d.get(key)] on a dict with string keys. *)
Fixpoint dict_get (key : string) (d : pydict) : option pyval :=
  match d with
  | [] => None
  | (k, v) :: d' => if String.eqb k key then Some v else dict_get key d'
  end.

(** [d.get(key, default)]. *)
Definition dict_get_default (key : string) (default : pyval) (d : pydict) : pyval :=
  match dict_get key d with
  | Some v => v
  | None => default
  end.

(** [v.get(key, default)] for an arbitrary value: only a dict has [get]. *)
Definition py_get (v : pyval) (key : string) (default : pyval) : exn + pyval :=
  match v with
  | PDict d => inr (dict_get_default key default d)
  | _ => inl (mk_exn AttributeError
                ("'" ++ type_name v ++ "' object has no attribute 'get'"))
  end.

(** [v[0]]. *)
Definition py_item0 (v : pyval) : exn + pyval :=
  match v with
  | PList [] => inl (mk_exn IndexError "list index out of range")
  | PList (x :: _) => inr x
  | PStr EmptyString => inl (mk_exn IndexError "string index out of range")
  | PStr (String c _) => inr (PStr (String c EmptyString))
  | PDict _ => inl (mk_exn KeyError "0")
  | _ => inl (mk_exn TypeError
                ("'" ++ type_name v ++ "' object is not subscriptable"))
  end.

(** The elements [for x in v] runs over; [None] when [v] is not iterable. *)
Definition py_iter (v : pyval) : option (list pyval) :=
  match v with
  | PList l => Some l
  | PDict d => Some (map (fun kv => PStr (fst kv)) d)
  | PStr s => Some (map (fun c => PStr (String c EmptyString)) (list_ascii_of_string s))
  | _ => None
  end.

(** Hashable values, the keys a dict built from such values can have. *)
Inductive pykey :=
| KNone
| KBool (b : bool)
| KInt (z : Z)
| KStr (s : string).

Definition to_key (v : pyval) : option pykey :=
  match v with
  | PNone => Some KNone
  | PBool b => Some (KBool b)
  | PInt z => Some (KInt z)
  | PStr s => Some (KStr s)
  | PList _ | PDict _ => None
  end.

(** Key equality is Python's [==]: [True == 1] and [False == 0]. *)
Definition key_eqb (a b : pykey) : bool :=
  match a, b with
  | KNone, KNone => true
  | KBool x, KBool y => Bool.eqb x y
  | KBool x, KInt z | KInt z, KBool x => Z.eqb z (if x then 1 else 0)
  | KInt x, KInt y => Z.eqb x y
  | KStr x, KStr y => String.eqb x y
  | _, _ => false
  end.

(** [d[k] = v]: an existing key keeps its place (and its key object), a new
    one goes last. *)
Fixpoint dict_set {V : Type} (k : pykey) (v : V) (d : list (pykey * V)) : list (pykey * V) :=
  match d with
  | [] => [(k, v)]
  | (k', v') :: d' =>
      if key_eqb k' k then (k', v) :: d' else (k', v') :: dict_set k v d'
  end.

(** [k in d]. *)
Definition dict_mem {V : Type} (k : pykey) (d : list (pykey * V)) : bool :=
  existsb (fun kv => key_eqb (fst kv) k) d.

(** [list(d.keys())]. *)
Definition dict_keys {V : Type} (d : list (pykey * V)) : list pykey := map fst d.

(** ** Text *)

Definition dquote : ascii := ascii_of_nat 34.
Definition squote : ascii := "'"%char.
Definition backslash : ascii := "\"%char.

(** [str(n)] for an int. *)
Definition str_int (z : Z) : string := NilZero.string_of_int (Z.to_int z).

(** [str.isprintable] on one character (code points below 256): the ASCII
    range from space to tilde, and Latin-1 from 161 up, soft hyphen apart. *)
Definition isprintable (c : ascii) : bool :=
  let n := nat_of_ascii c in
  (Nat.leb 32 n && Nat.ltb n 127) || (Nat.leb 161 n && negb (Nat.eqb n 173)).

Definition hex_digit (n : nat) : ascii :=
  nth n (list_ascii_of_string "0123456789abcdef") "0"%char.

Definition has_char (c : ascii) (s : string) : bool :=
  existsb (Ascii.eqb c) (list_ascii_of_string s).

(** The quote [repr] puts around a string: double quotes only when the
    string has a single quote and no double quote. *)
Definition repr_quote (s : string) : ascii :=
  if has_char squote s && negb (has_char dquote s) then dquote else squote.

(** One character of [repr(s)]. *)
Definition repr_char (quote c : ascii) : string :=
  let n := nat_of_ascii c in
  if Ascii.eqb c quote || Ascii.eqb c backslash then String backslash (String c EmptyString)
  else if Nat.eqb n 9 then "\t"
  else if Nat.eqb n 10 then "\n"
  else if Nat.eqb n 13 then "\r"
  else if isprintable c then String c EmptyString
  else String backslash (String "x" (String (hex_digit (n / 16)) (String (hex_digit (n mod 16)) EmptyString))).

Fixpoint repr_chars (quote : ascii) (s : string) : string :=
  match s with
  | EmptyString => EmptyString
  | String c s' => repr_char quote c ++ repr_chars quote s'
  end.

(** [repr(s)] for a str. *)
Definition repr_str (s : string) : string :=
  let q := repr_quote s in
  String q (repr_chars q s ++ String q EmptyString).

(** [repr(k)] for a key. *)
Definition repr_key (k : pykey) : string :=
  match k with
  | KNone => "None"
  | KBool true => "True"
  | KBool false => "False"
  | KInt z => str_int z
  | KStr s => repr_str s
  end.

(** [", ".join(items)]. *)
Fixpoint join_comma (items : list string) : string :=
  match items with
  | [] => EmptyString
  | [x] => x
  | x :: rest => x ++ ", " ++ join_comma rest
  end.

(** [repr] of a list of keys, which is what an f-string prints for it. *)
Definition repr_list (ks : list pykey) : string :=
  "[" ++ join_comma (map repr_key ks) ++ "]".

(** [sub in s]. *)
Definition contains (sub s : string) : Prop :=
  exists pre post, s = pre ++ sub ++ post.

Fixpoint occursb (sub s : string) : bool :=
  if String.prefix sub s then true
  else match s with
       | EmptyString => false
       | String _ s' => occursb sub s'
       end.

(** [a or b] on an optional int: [None] and [0] are falsy. *)
Definition py_or (a : option Z) (b : Z) : Z :=
  match a with
  | None => b
  | Some t => if Z.eqb t 0 then b else t
  end.

End Py.

(* ===================================================================== *)
(** * The transports, as the bridge sees them *)
(* ===================================================================== *)

(** The MCP SDK and httpx are collaborators.  What they do is scripted by
    an environment: the n-th connect attempt, tool call and client shutdown
    each have an outcome with the logical time the awaited operations
    take.  Theorems quantify over every environment. *)
Module Transport.
Import Py.

(** A [Tool] object of the SDK's [list_tools] answer (the SDK validates the
    payload, so the three attributes exist and [name] is a str). *)
Module Tool.
Record t := mk { name : string; description : option string; inputSchema : pydict }.
End Tool.

(** A connect attempt over stdio, by the point where it stops. *)
Inductive stdio_connect :=
| StdioSetupError (e : exn)
    (* StdioServerParameters, stdio_client or ClientSession raises *)
| StdioInitializeError (d : nat) (e : exn)
    (* initialize() raises after d *)
| StdioListError (d1 d2 : nat) (e : exn)
    (* initialize() takes d1, list_tools() raises after d2 *)
| StdioTools (d1 d2 : nat) (tools : list Tool.t).
    (* initialize() takes d1, list_tools() takes d2 and answers tools *)

(** A connect attempt over HTTP. *)
Inductive http_connect :=
| HttpClientError (e : exn)
    (* httpx.AsyncClient(...) raises *)
| HttpListError (d : nat) (e : exn)
    (* the POST raises after d, or raise_for_status() or json() raises *)
| HttpListBody (d : nat) (tools_data : pyval).
    (* the POST takes d and json() gives tools_data *)

(** A content block of a stdio tool result: text, or a block of another
    class (image, embedded resource) that has no [text] attribute. *)
Inductive content_block :=
| TextContent (text : string)
| OtherContent (cls : string).

Inductive stdio_call :=
| StdioCallError (d : nat) (e : exn)
| StdioCallResult (d : nat) (content : list content_block).

Inductive http_call :=
| HttpCallError (d : nat) (e : exn)
| HttpCallBody (d : nat) (result_data : pyval).

Record env := mk_env {
  MCP_STDIO_AVAILABLE : bool;
  MCP_HTTP_AVAILABLE : bool;
  stdio_connects : nat -> stdio_connect;
  http_connects : nat -> http_connect;
  stdio_calls : nat -> string -> pydict -> stdio_call;
  http_calls : nat -> string -> pydict -> http_call;
  http_closes : nat -> option exn
}.

(** What a run has done to the outside so far. *)
Inductive event :=
| EvConnect (attempt : nat)
| EvSleep (d : nat)
| EvCall (tool_name : string) (arguments : pydict)
| EvClose.

Record run := mk_run {
  attempts : nat;          (* connect attempts made *)
  calls : nat;             (* tool calls sent *)
  closes : nat;            (* client shutdowns requested *)
  clock : Z;               (* time since the running wait_for started *)
  deadline : option Z;     (* the timeout of the running wait_for *)
  trace : list event       (* oldest first *)
}.

Definition run0 : run := mk_run 0 0 0 0 None [].

End Transport.

(* ===================================================================== *)
(** * The bridge object *)
(* ===================================================================== *)

Module Bridge.
Import Py Transport.

(** A value of [_available_tools]. *)
Record descriptor := mk_descriptor { description : pyval; input_schema : pyval }.

Definition catalog := list (pykey * descriptor).

(** The fields [__init__] sets.  [_session] and [_http_client] hold the
    number of the attempt that created the handle. *)
Record bridge := mk_bridge {
  server_type : string;
  server_command : option string;
  server_args : list string;
  server_url : option string;
  timeout : Z;
  reconnect_attempts : Z;
  _session : option nat;
  _http_client : option nat;
  _available_tools : catalog;
  _connection_healthy : bool
}.

Definition set_session (h : option nat) (s : bridge) : bridge :=
  mk_bridge (server_type s) (server_command s) (server_args s) (server_url s)
    (timeout s) (reconnect_attempts s) h (_http_client s)
    (_available_tools s) (_connection_healthy s).

Definition set_http_client (h : option nat) (s : bridge) : bridge :=
  mk_bridge (server_type s) (server_command s) (server_args s) (server_url s)
    (timeout s) (reconnect_attempts s) (_session s) h
    (_available_tools s) (_connection_healthy s).

Definition set_available_tools (c : catalog) (s : bridge) : bridge :=
  mk_bridge (server_type s) (server_command s) (server_args s) (server_url s)
    (timeout s) (reconnect_attempts s) (_session s) (_http_client s)
    c (_connection_healthy s).

Definition set_connection_healthy (b : bool) (s : bridge) : bridge :=
  mk_bridge (server_type s) (server_command s) (server_args s) (server_url s)
    (timeout s) (reconnect_attempts s) (_session s) (_http_client s)
    (_available_tools s) b.

(** The connection state [__init__] starts from. *)
Definition new_bridge (type : string) (command : option string) (args : list string)
    (url : option string) (tmo attempts : Z) : bridge :=
  mk_bridge type command args url tmo attempts None None [] false.

(** The dict [get_server_info] returns. *)
Record server_info := mk_info {
  info_type : string;
  info_connected : bool;
  info_available_tools_count : nat;
  info_command : option string;
  info_url : option string;
  info_timeout : Z
}.

(** The dict [execute] returns: [success] true with [result], or false with
    [error]. *)
Inductive call_result :=
| Success (result : pyval) (tool_name : string) (info : server_info)
| Failure (error : string) (tool_name : string) (info : server_info).

(** ** Computations *)

Inductive outcome (A : Type) :=
| Ok (a : A)
| Raise (e : exn)
| Cancelled.
Arguments Ok {A} a.
Arguments Raise {A} e.
Arguments Cancelled {A}.

Definition M (A : Type) : Type := bridge * run -> outcome A * (bridge * run).

Definition ret {A} (a : A) : M A := fun st => (Ok a, st).

Definition bind {A B} (m : M A) (k : A -> M B) : M B :=
  fun st =>
    match m st with
    | (Ok a, st') => k a st'
    | (Raise e, st') => (Raise e, st')
    | (Cancelled, st') => (Cancelled, st')
    end.

Declare Scope bridge_scope.
Delimit Scope bridge_scope with bridge.
Notation "x <- m ;; k" := (bind m (fun x => k))
  (at level 61, m at next level, right associativity) : bridge_scope.
Notation "m ;; k" := (bind m (fun _ => k))
  (at level 61, right associativity) : bridge_scope.
Open Scope bridge_scope.

Definition raise {A} (e : exn) : M A := fun st => (Raise e, st).

(** [try: m  except Exception as e: handler e].  Cancellation is not an
    [Exception] and passes through. *)
Definition try_except {A} (m : M A) (handler : exn -> M A) : M A :=
  fun st =>
    match m st with
    | (Raise e, st') => handler e st'
    | other => other
    end.

Definition self : M bridge := fun st => (Ok (fst st), st).

Definition assign (f : bridge -> bridge) : M unit :=
  fun st => (Ok tt, (f (fst st), snd st)).

Definition lift {A} (x : exn + A) : M A :=
  match x with
  | inl e => raise e
  | inr a => ret a
  end.

Definition set_clock (t : Z) (r : run) : run :=
  mk_run (attempts r) (calls r) (closes r) t (deadline r) (trace r).

Definition set_deadline (T : option Z) (r : run) : run :=
  mk_run (attempts r) (calls r) (closes r) (clock r) T (trace r).

Definition log (e : event) (r : run) : run :=
  mk_run (attempts r) (calls r) (closes r) (clock r) (deadline r) (trace r ++ [e]).

(** Awaiting an operation that takes [d]: it completes when that is before
    the deadline, and the coroutine is cancelled at the deadline otherwise
    (the timer is armed before the operation starts, so finishing exactly
    on the deadline is too late). *)
Definition await (d : nat) : M unit :=
  fun st =>
    let r := snd st in
    let t := (clock r + Z.of_nat d)%Z in
    match deadline r with
    | Some T =>
        if (t <? T)%Z
        then (Ok tt, (fst st, set_clock t r))
        else (Cancelled, (fst st, set_clock T r))
    | None => (Ok tt, (fst st, set_clock t r))
    end.

(** [await asyncio.sleep(d)]. *)
Definition sleep (d : nat) : M unit :=
  fun st => await d (fst st, log (EvSleep d) (snd st)).

(** [asyncio.wait_for(m, timeout=T)]: with [T <= 0] the coroutine is
    cancelled before it runs a single statement; otherwise it runs under the
    deadline and its cancellation surfaces as TimeoutError. *)
Definition wait_for {A} (m : M A) (T : Z) : M A :=
  fun st =>
    if (T <=? 0)%Z then (Raise (mk_exn TimeoutError EmptyString), st)
    else
      match m (fst st, set_deadline (Some T) (set_clock 0 (snd st))) with
      | (Cancelled, st') => (Raise (mk_exn TimeoutError EmptyString), st')
      | other => other
      end.

(** [asyncio.run(m)]: a fresh loop, no deadline of its own. *)
Definition asyncio_run {A} (m : M A) : M A :=
  fun st =>
    let '(o, (s', r')) := m (fst st, set_deadline None (set_clock 0 (snd st))) in
    (o, (s', set_deadline None r')).

End Bridge.

(* ===================================================================== *)
(** * The methods of [MCP_Bridge_Tool] *)
(* ===================================================================== *)

Module MCP_Bridge_Tool.
Import Py Transport Bridge.

Section Methods.

Variable E : env.

(** [not x] for an optional string read from the environment: unset and
    empty are falsy. *)
Definition falsy (x : option string) : bool :=
  match x with
  | None => true
  | Some EmptyString => true
  | Some _ => false
  end.

Definition _validate_config : M unit :=
  s <- self ;;
  if String.eqb (server_type s) "stdio" then
    if negb (MCP_STDIO_AVAILABLE E) then
      raise (mk_exn ImportError
               "MCP stdio client not available. Install with: pip install mcp")
    else if falsy (server_command s) then
      raise (mk_exn ValueError
               "MCP_SERVER_COMMAND environment variable is required for stdio servers")
    else ret tt
  else if String.eqb (server_type s) "http" then
    if negb (MCP_HTTP_AVAILABLE E) then
      raise (mk_exn ImportError
               "httpx not available. Install with: pip install httpx")
    else if falsy (server_url s) then
      raise (mk_exn ValueError
               "MCP_SERVER_URL environment variable is required for HTTP servers")
    else ret tt
  else
    raise (mk_exn ValueError
             ("Invalid MCP_SERVER_TYPE: " ++ server_type s ++ ". Must be 'stdio' or 'http'")).

(** Lines 138-145 of [__init__], from the fields as lines 131-136 have read
    them: the connection state is set, then the configuration is validated;
    the object exists only when validation returns. *)
Definition init_from_fields (type : string) (command : option string) (args : list string)
    (url : option string) (tmo attempts : Z) : outcome bridge :=
  match _validate_config (new_bridge type command args url tmo attempts, run0) with
  | (Ok _, (s, _)) => Ok s
  | (Raise e, _) => Raise e
  | (Cancelled, _) => Cancelled
  end.

(** Entering a connect method: the environment's next attempt. *)
Definition next_attempt : M nat :=
  fun st =>
    let r := snd st in
    (Ok (attempts r),
     (fst st, mk_run (S (attempts r)) (calls r) (closes r) (clock r) (deadline r)
                (trace r ++ [EvConnect (attempts r)]))).

(** The dict comprehension of [_connect_stdio]. *)
Definition stdio_catalog (tools : list Tool.t) : catalog :=
  fold_left
    (fun acc tool =>
       dict_set (KStr (Tool.name tool))
         (mk_descriptor
            (match Tool.description tool with Some d => PStr d | None => PNone end)
            (PDict (Tool.inputSchema tool)))
         acc)
    tools [].

Definition _connect_stdio : M bool :=
  try_except
    (a <- next_attempt ;;
     match stdio_connects E a with
     | StdioSetupError e => raise e
     | StdioInitializeError d e =>
         assign (set_session (Some a)) ;;
         await d ;; raise e
     | StdioListError d1 d2 e =>
         assign (set_session (Some a)) ;;
         await d1 ;;
         await d2 ;; raise e
     | StdioTools d1 d2 tools =>
         assign (set_session (Some a)) ;;
         await d1 ;;
         await d2 ;;
         assign (set_available_tools (stdio_catalog tools)) ;;
         assign (set_connection_healthy true) ;;
         ret true
     end)
    (fun e =>
       assign (set_connection_healthy false) ;;
       ret false).

(** The dict comprehension of [_connect_http], one [tool] at a time:
    [tool["name"]] needs a dict with that key, and the key must be
    hashable.  [None] when an exception is raised. *)
Fixpoint http_catalog_items (items : list pyval) (acc : catalog) : option catalog :=
  match items with
  | [] => Some acc
  | PDict tool :: rest =>
      match dict_get "name" tool with
      | Some nm =>
          match to_key nm with
          | Some k =>
              http_catalog_items rest
                (dict_set k
                   (mk_descriptor
                      (dict_get_default "description" (PStr EmptyString) tool)
                      (dict_get_default "inputSchema" (PDict []) tool))
                   acc)
          | None => None
          end
      | None => None
      end
  | _ :: _ => None
  end.

(** [{... for tool in tools_data.get("tools", [])}]. *)
Definition http_catalog (tools_data : pyval) : option catalog :=
  match tools_data with
  | PDict d =>
      match py_iter (dict_get_default "tools" (PList []) d) with
      | Some items => http_catalog_items items []
      | None => None
      end
  | _ => None
  end.

(** The exception of a failed comprehension; its text is only printed. *)
Definition malformed_tool_list : exn := mk_exn TypeError "malformed tool list".

Definition _connect_http : M bool :=
  try_except
    (a <- next_attempt ;;
     match http_connects E a with
     | HttpClientError e => raise e
     | HttpListError d e =>
         assign (set_http_client (Some a)) ;;
         await d ;; raise e
     | HttpListBody d tools_data =>
         assign (set_http_client (Some a)) ;;
         await d ;;
         match http_catalog tools_data with
         | Some c =>
             assign (set_available_tools c) ;;
             assign (set_connection_healthy true) ;;
             ret true
         | None => raise malformed_tool_list
         end
     end)
    (fun e =>
       assign (set_connection_healthy false) ;;
       ret false).

(** The [for attempt in range(n)] loop of [_ensure_connection]. *)
Fixpoint reconnect (n : nat) : M bool :=
  match n with
  | O => ret false
  | S n' =>
      s <- self ;;
      success <- (if String.eqb (server_type s) "stdio"
                  then _connect_stdio else _connect_http) ;;
      if success then ret true
      else sleep 1 ;; reconnect n'
  end.

Definition _ensure_connection : M bool :=
  s <- self ;;
  if _connection_healthy s then ret true
  else reconnect (Z.to_nat (reconnect_attempts s)).

(** Sending a tool call: the environment's next call. *)
Definition next_call (tool_name : string) (arguments : pydict) : M nat :=
  fun st =>
    let r := snd st in
    (Ok (calls r),
     (fst st, mk_run (attempts r) (S (calls r)) (closes r) (clock r) (deadline r)
                (trace r ++ [EvCall tool_name arguments]))).

Definition _execute_stdio (tool_name : string) (arguments : pydict) : M pyval :=
  s <- self ;;
  match _session s with
  | None =>
      raise (mk_exn AttributeError "'NoneType' object has no attribute 'call_tool'")
  | Some _ =>
      c <- next_call tool_name arguments ;;
      match stdio_calls E c tool_name arguments with
      | StdioCallError d e => await d ;; raise e
      | StdioCallResult d content =>
          await d ;;
          match content with
          | [] => ret (PDict [])
          | TextContent text :: _ => ret (PStr text)
          | OtherContent cls :: _ =>
              raise (mk_exn AttributeError
                       ("'" ++ cls ++ "' object has no attribute 'text'"))
          end
      end
  end.

Definition _execute_http (tool_name : string) (arguments : pydict) : M pyval :=
  s <- self ;;
  match _http_client s with
  | None =>
      raise (mk_exn AttributeError "'NoneType' object has no attribute 'post'")
  | Some _ =>
      c <- next_call tool_name arguments ;;
      match http_calls E c tool_name arguments with
      | HttpCallError d e => await d ;; raise e
      | HttpCallBody d result_data =>
          await d ;;
          content <- lift (py_get result_data "content" (PList [PDict []])) ;;
          first <- lift (py_item0 content) ;;
          lift (py_get first "text" (PDict []))
      end
  end.

Definition server_info_of (s : bridge) : server_info :=
  mk_info (server_type s)
    (_connection_healthy s)
    (length (_available_tools s))
    (if String.eqb (server_type s) "stdio" then server_command s else None)
    (if String.eqb (server_type s) "http" then server_url s else None)
    (timeout s).

Definition get_server_info : M server_info :=
  s <- self ;; ret (server_info_of s).

Definition get_available_tools : M (list (pykey * pyval * pyval)) :=
  s <- self ;;
  ret (map (fun kv => (fst kv, description (snd kv), input_schema (snd kv)))
         (_available_tools s)).

Definition _execute_async (tool_name : string) (arguments : pydict) : M call_result :=
  connected <- _ensure_connection ;;
  if negb connected then
    info <- get_server_info ;;
    ret (Failure "Failed to connect to MCP server after multiple attempts"
           tool_name info)
  else
    s <- self ;;
    if negb (dict_mem (KStr tool_name) (_available_tools s)) then
      info <- get_server_info ;;
      ret (Failure
             ("Tool '" ++ tool_name ++ "' not found on server. Available: "
              ++ repr_list (dict_keys (_available_tools s)))
             tool_name info)
    else
      try_except
        (result <- (if String.eqb (server_type s) "stdio"
                    then _execute_stdio tool_name arguments
                    else _execute_http tool_name arguments) ;;
         info <- get_server_info ;;
         ret (Success result tool_name info))
        (fun e =>
           assign (set_connection_healthy false) ;;
           info <- get_server_info ;;
           ret (Failure ("Tool execution error: " ++ exn_text e) tool_name info)).

(** [exec_timeout = timeout or self.timeout]. *)
Definition exec_timeout (s : bridge) (timeout_opt : option Z) : Z :=
  py_or timeout_opt (timeout s).

Definition execute (tool_name : string) (arguments : option pydict)
    (timeout_opt : option Z) : M call_result :=
  let arguments := match arguments with None => [] | Some a => a end in
  s <- self ;;
  let exec_timeout := exec_timeout s timeout_opt in
  try_except
    (asyncio_run (wait_for (_execute_async tool_name arguments) exec_timeout))
    (fun e =>
       match exn_cls e with
       | TimeoutError =>
           info <- get_server_info ;;
           ret (Failure
                  ("Tool execution timed out after " ++ str_int exec_timeout ++ " seconds")
                  tool_name info)
       | _ =>
           info <- get_server_info ;;
           ret (Failure ("Execution failed: " ++ exn_text e) tool_name info)
       end).

(** [await self._http_client.aclose()]. *)
Definition aclose : M unit :=
  fun st =>
    let r := snd st in
    let st' := (fst st, mk_run (attempts r) (calls r) (S (closes r)) (clock r) (deadline r)
                          (trace r ++ [EvClose])) in
    match http_closes E (closes r) with
    | Some e => (Raise e, st')
    | None => (Ok tt, st')
    end.

Definition close : M unit :=
  s <- self ;;
  (match _http_client s with
   | Some _ => asyncio_run aclose
   | None => ret tt
   end) ;;
  (* if self._session: pass *)
  assign (set_connection_healthy false).

End Methods.

End MCP_Bridge_Tool.

(* ===================================================================== *)
(** * Construction from the environment *)
(* ===================================================================== *)

(** The three builtins the constructor applies to what it reads, on
    strings of code points below 256. *)
Module Builtins.
Import Py.

(** [str.lower] on one character (code points below 256): the ASCII
    capitals and the Latin-1 capitals from 192 to 222, the multiplication
    sign apart, move up by 32. *)
Definition lower_char (c : ascii) : ascii :=
  let n := nat_of_ascii c in
  if (Nat.leb 65 n && Nat.leb n 90)
     || (Nat.leb 192 n && Nat.leb n 222 && negb (Nat.eqb n 215))
  then ascii_of_nat (n + 32) else c.

(** [s.lower()]. *)
Fixpoint str_lower (s : string) : string :=
  match s with
  | EmptyString => EmptyString
  | String c s' => String (lower_char c) (str_lower s')
  end.

(** [str.isspace] on one character (code points below 256). *)
Definition isspace (c : ascii) : bool :=
  let n := nat_of_ascii c in
  (Nat.leb 9 n && Nat.leb n 13) || (Nat.leb 28 n && Nat.leb n 32)
  || Nat.eqb n 133 || Nat.eqb n 160.

(** [s.split()] with [word] the characters of the current word read so
    far: the maximal runs of characters that are not spaces. *)
Fixpoint split_words (s word : string) : list string :=
  match s with
  | EmptyString =>
      match word with
      | EmptyString => []
      | _ => [word]
      end
  | String c s' =>
      if isspace c then
        match word with
        | EmptyString => split_words s' EmptyString
        | _ => word :: split_words s' EmptyString
        end
      else split_words s' (word ++ String c EmptyString)
  end.

Definition str_split (s : string) : list string := split_words s EmptyString.

(** The blanks [int] accepts around a literal: the ASCII white space of C,
    and the two Latin-1 spaces, which are turned into blanks first.  The
    separators 28 to 31 are spaces for [split] but not here. *)
Definition int_space (c : ascii) : bool :=
  let n := nat_of_ascii c in
  (Nat.leb 9 n && Nat.leb n 13) || Nat.eqb n 32 || Nat.eqb n 133 || Nat.eqb n 160.

Definition digit_value (c : ascii) : option Z :=
  let n := nat_of_ascii c in
  if Nat.leb 48 n && Nat.leb n 57 then Some (Z.of_nat (n - 48)) else None.

Fixpoint skip_spaces (s : string) : string :=
  match s with
  | String c s' => if int_space c then skip_spaces s' else s
  | EmptyString => EmptyString
  end.

(** What the scan of the digits has just read. *)
Inductive scanned := AtStart | AfterDigit | AfterUnderscore.

(** The digits of a literal, single underscores allowed between two of
    them: the value, the number of digits, and what follows. *)
Fixpoint scan_digits (s : string) (p : scanned) (acc : Z) (count : nat)
    : option (Z * nat * string) :=
  match s with
  | String c s' =>
      match digit_value c with
      | Some d => scan_digits s' AfterDigit (acc * 10 + d) (S count)
      | None =>
          if Ascii.eqb c "_" then
            match p with
            | AfterDigit => scan_digits s' AfterUnderscore acc count
            | _ => None
            end
          else
            match p with
            | AfterDigit => Some (acc, count, s)
            | _ => None
            end
      end
  | EmptyString =>
      match p with
      | AfterDigit => Some (acc, count, s)
      | _ => None
      end
  end.

(** [int(s)] for a str, base 10, when it is a literal: blanks, a sign,
    digits, blanks.  A literal of more than [max] digits is refused when
    [max] is not 0 (the interpreter's limit, checked above 640 digits). *)
Definition parse_int (max : nat) (s : string) : option Z :=
  let s1 := skip_spaces s in
  let '(negative, s2) :=
    match s1 with
    | String c r =>
        if Ascii.eqb c "+" then (false, r)
        else if Ascii.eqb c "-" then (true, r)
        else (false, s1)
    | EmptyString => (false, s1)
    end in
  match scan_digits s2 AtStart 0 0 with
  | None => None
  | Some (v, count, rest) =>
      if Nat.ltb 640 count && Nat.ltb 0 max && Nat.ltb max count then None
      else
        match skip_spaces rest with
        | EmptyString => Some (if negative then (- v)%Z else v)
        | _ => None
        end
  end.

End Builtins.

Module Construction.
Import Py Transport Bridge MCP_Bridge_Tool Builtins.

(** What the constructor reads of the interpreter it runs in.  The text of
    the ValueError of [int] differs between versions and is taken as given;
    [BaseTool.__init__] is not part of this file and may raise. *)
Record interpreter := mk_interpreter {
  environ : string -> option string;    (* os.environ, after load_dotenv() *)
  int_max_str_digits : nat;             (* sys.get_int_max_str_digits() *)
  int_error_text : string -> string;    (* str(e) for the error of int(s) *)
  base_tool_init : option exn           (* what super().__init__ raises *)
}.

(** [os.getenv(name, default)]. *)
Definition getenv (P : interpreter) (name default : string) : string :=
  match environ P name with
  | Some v => v
  | None => default
  end.

(** [int(s)]. *)
Definition py_int (P : interpreter) (s : string) : exn + Z :=
  match parse_int (int_max_str_digits P) s with
  | Some z => inr z
  | None => inl (mk_exn ValueError (int_error_text P s))
  end.

(** [MCP_Bridge_Tool()]: the base class is initialised, the six variables
    are read (lines 131-136), and the rest is [init_from_fields]. *)
Definition __init__ (E : env) (P : interpreter) : outcome bridge :=
  match base_tool_init P with
  | Some e => Raise e
  | None =>
      let server_type := str_lower (getenv P "MCP_SERVER_TYPE" "stdio") in
      let server_command := environ P "MCP_SERVER_COMMAND" in
      let server_args := str_split (getenv P "MCP_SERVER_ARGS" EmptyString) in
      let server_url := environ P "MCP_SERVER_URL" in
      match py_int P (getenv P "MCP_SERVER_TIMEOUT" "30") with
      | inl e => Raise e
      | inr tmo =>
          match py_int P (getenv P "MCP_RECONNECT_ATTEMPTS" "3") with
          | inl e => Raise e
          | inr attempts =>
              init_from_fields E server_type server_command server_args server_url
                tmo attempts
          end
      end
  end.

(** [v] is [t] up to the case of its ASCII letters. *)
Definition ascii_case_variant (v t : string) : Prop :=
  Forall2
    (fun c d =>
       c = d \/
       (65 <= nat_of_ascii c <= 90 /\ nat_of_ascii d = nat_of_ascii c + 32))
    (list_ascii_of_string v) (list_ascii_of_string t).

(** A word as [split] gives them: not empty, no space in it. *)
Definition is_word (a : string) : Prop :=
  a <> EmptyString /\ forall c, In c (list_ascii_of_string a) -> isspace c = false.

(** An interpreter whose environment selects stdio in capitals. *)
Definition capitals : interpreter :=
  mk_interpreter
    (fun name =>
       if String.eqb name "MCP_SERVER_TYPE" then Some "STDIO"
       else if String.eqb name "MCP_SERVER_COMMAND" then Some "python"
       else if String.eqb name "MCP_SERVER_ARGS" then Some " server.py  --verbose "
       else if String.eqb name "MCP_SERVER_TIMEOUT" then Some " 1_0 "
       else None)
    4300
    (fun s => "invalid literal for int() with base 10: " ++ repr_str s)
    None.

End Construction.

(* ===================================================================== *)
(** * Vocabulary of the statements *)
(* ===================================================================== *)

(** Nothing here is part of the bridge: these are the words the theorems
    are stated in, read off the environment and the bridge object. *)
Module Spec.
Import Py Transport Bridge MCP_Bridge_Tool.

(** The configuration fields, which no method assigns. *)
Definition same_config (s s' : bridge) : Prop :=
  server_type s' = server_type s /\ server_command s' = server_command s /\
  server_args s' = server_args s /\ server_url s' = server_url s /\
  timeout s' = timeout s /\ reconnect_attempts s' = reconnect_attempts s.

Definition is_stdio (s : bridge) : bool := String.eqb (server_type s) "stdio".

(** The connect method [_ensure_connection] picks. *)
Definition connect (E : env) (s : bridge) : M bool :=
  if is_stdio s then _connect_stdio E else _connect_http E.

(** How long the a-th connect attempt awaits when nothing cancels it. *)
Definition attempt_time (E : env) (stdio : bool) (a : nat) : nat :=
  if stdio then
    match stdio_connects E a with
    | StdioSetupError _ => 0
    | StdioInitializeError d _ => d
    | StdioListError d1 d2 _ => d1 + d2
    | StdioTools d1 d2 _ => d1 + d2
    end
  else
    match http_connects E a with
    | HttpClientError _ => 0
    | HttpListError d _ => d
    | HttpListBody d _ => d
    end.

(** Whether the a-th connect attempt succeeds when nothing cancels it. *)
Definition attempt_ok (E : env) (stdio : bool) (a : nat) : bool :=
  if stdio then
    match stdio_connects E a with
    | StdioTools _ _ _ => true
    | _ => false
    end
  else
    match http_connects E a with
    | HttpListBody _ tools_data =>
        match http_catalog tools_data with Some _ => true | None => false end
    | _ => false
    end.

(** The time n failing attempts from the a-th on take, with the sleep of one
    time unit after each. *)
Fixpoint retry_time (E : env) (stdio : bool) (a n : nat) : nat :=
  match n with
  | O => 0
  | S n' => attempt_time E stdio a + 1 + retry_time E stdio (S a) n'
  end.

(** What n failing attempts from the a-th on leave in the trace. *)
Fixpoint retry_trace (a n : nat) : list event :=
  match n with
  | O => []
  | S n' => EvConnect a :: EvSleep 1 :: retry_trace (S a) n'
  end.

(** The messages of the four failure returns. *)
Definition connection_failed_message : string :=
  "Failed to connect to MCP server after multiple attempts".

Definition unknown_tool_message (tool_name : string) (c : catalog) : string :=
  "Tool '" ++ tool_name ++ "' not found on server. Available: "
  ++ repr_list (dict_keys c).

Definition timeout_message (T : Z) : string :=
  "Tool execution timed out after " ++ str_int T ++ " seconds".

Definition execution_error_message (e : exn) : string :=
  "Tool execution error: " ++ exn_text e.

(** The part of [_execute_async] that follows a successful
    [_ensure_connection]. *)
Definition dispatch (E : env) (tool_name : string) (arguments : pydict) : M call_result :=
  (s <- self ;;
   if negb (dict_mem (KStr tool_name) (_available_tools s)) then
     info <- get_server_info ;;
     ret (Failure (unknown_tool_message tool_name (_available_tools s)) tool_name info)
   else
     try_except
       (result <- (if String.eqb (server_type s) "stdio"
                   then _execute_stdio E tool_name arguments
                   else _execute_http E tool_name arguments) ;;
        info <- get_server_info ;;
        ret (Success result tool_name info))
       (fun e =>
          assign (set_connection_healthy false) ;;
          info <- get_server_info ;;
          ret (Failure (execution_error_message e) tool_name info)))%bridge.

(** The value the c-th tool call yields when it completes without an
    error: the first text block over stdio, the [text] of the first content
    item over HTTP. *)
Definition call_value (E : env) (stdio : bool) (c : nat) (tool_name : string)
    (arguments : pydict) : option pyval :=
  if stdio then
    match stdio_calls E c tool_name arguments with
    | StdioCallResult _ [] => Some (PDict [])
    | StdioCallResult _ (TextContent text :: _) => Some (PStr text)
    | _ => None
    end
  else
    match http_calls E c tool_name arguments with
    | HttpCallBody _ result_data =>
        match py_get result_data "content" (PList [PDict []]) with
        | inr content =>
            match py_item0 content with
            | inr first =>
                match py_get first "text" (PDict []) with
                | inr v => Some v
                | inl _ => None
                end
            | inl _ => None
            end
        | inl _ => None
        end
    | _ => None
    end.

(** The time the c-th tool call takes before it answers or fails. *)
Definition call_time (E : env) (stdio : bool) (c : nat) (tool_name : string)
    (arguments : pydict) : nat :=
  if stdio then
    match stdio_calls E c tool_name arguments with
    | StdioCallError d _ => d
    | StdioCallResult d _ => d
    end
  else
    match http_calls E c tool_name arguments with
    | HttpCallError d _ => d
    | HttpCallBody d _ => d
    end.

(** The handle the transport call goes through is there. *)
Definition has_transport (s : bridge) : bool :=
  if is_stdio s
  then match _session s with Some _ => true | None => false end
  else match _http_client s with Some _ => true | None => false end.

(** The run [_execute_async] starts in: a fresh loop with the deadline of
    [wait_for]. *)
Definition start_run (T : Z) (r : run) : run :=
  mk_run (attempts r) (calls r) (closes r) 0 (Some T) (trace r).

(** [arguments] after the first two lines of [execute]. *)
Definition normalize (arguments : option pydict) : pydict :=
  match arguments with None => [] | Some a => a end.

(** The run after [close]: one more shutdown when a client is held. *)
Definition closed_run (s : bridge) (r : run) : run :=
  match _http_client s with
  | Some _ => mk_run (attempts r) (calls r) (S (closes r)) 0 None (trace r ++ [EvClose])
  | None => r
  end.

(** The return statement an [execute] call leaves through. *)
Inductive exit :=
| ExitConnectionFailed
| ExitUnknownTool
| ExitTimeout
| ExitExecutionError (e : exn)
| ExitSuccess (v : pyval).

(** The dict built at that return statement, in the state [s'] the call
    ends in. *)
Definition result_at (tool_name : string) (T : Z) (s' : bridge) (x : exit) : call_result :=
  match x with
  | ExitConnectionFailed =>
      Failure connection_failed_message tool_name (server_info_of s')
  | ExitUnknownTool =>
      Failure (unknown_tool_message tool_name (_available_tools s')) tool_name
        (server_info_of s')
  | ExitTimeout => Failure (timeout_message T) tool_name (server_info_of s')
  | ExitExecutionError e =>
      Failure (execution_error_message e) tool_name (server_info_of s')
  | ExitSuccess v => Success v tool_name (server_info_of s')
  end.

(** What holds of the states around a call, by the return statement. *)
Definition exit_post (E : env) (tool_name : string) (arguments : pydict)
    (s : bridge) (r : run) (s' : bridge) (r' : run) (x : exit) : Prop :=
  match x with
  | ExitConnectionFailed =>
      _connection_healthy s = false /\ _connection_healthy s' = false /\
      _available_tools s' = _available_tools s /\
      attempts r' = attempts r + Z.to_nat (reconnect_attempts s)
  | ExitUnknownTool =>
      _connection_healthy s' = true /\
      dict_mem (KStr tool_name) (_available_tools s') = false
  | ExitTimeout =>
      _connection_healthy s = true -> s' = s
  | ExitExecutionError _ =>
      _connection_healthy s' = false /\
      dict_mem (KStr tool_name) (_available_tools s') = true
  | ExitSuccess v =>
      _connection_healthy s' = true /\
      dict_mem (KStr tool_name) (_available_tools s') = true /\
      calls r' = S (calls r) /\
      call_value E (is_stdio s) (calls r) tool_name arguments = Some v
  end.

(** The same for [dispatch] alone. *)
Definition dispatch_post (E : env) (tool_name : string) (arguments : pydict)
    (s : bridge) (r : run) (o : outcome call_result) (s' : bridge) (r' : run) : Prop :=
  match o with
  | Ok (Failure msg n i) =>
      n = tool_name /\ i = server_info_of s' /\
      ((dict_mem (KStr tool_name) (_available_tools s) = false /\
        msg = unknown_tool_message tool_name (_available_tools s) /\
        s' = s /\ r' = r) \/
       (dict_mem (KStr tool_name) (_available_tools s) = true /\
        (exists e, msg = execution_error_message e) /\
        s' = set_connection_healthy false s))
  | Ok (Success v n i) =>
      n = tool_name /\ i = server_info_of s' /\ s' = s /\
      dict_mem (KStr tool_name) (_available_tools s) = true /\
      calls r' = S (calls r) /\
      call_value E (is_stdio s) (calls r) tool_name arguments = Some v
  | Cancelled =>
      s' = s /\ dict_mem (KStr tool_name) (_available_tools s) = true
  | Raise _ => False
  end.

(** The error kinds of the specification.  The code has no such field: a
    failure is told apart by its message. *)
Inductive error_kind := ConnectionFailed | UnknownTool | Timeout | ExecutionError.

Definition error_kind_of (res : call_result) : option error_kind :=
  match res with
  | Success _ _ _ => None
  | Failure msg _ _ =>
      if String.eqb msg connection_failed_message then Some ConnectionFailed
      else if String.prefix "Tool '" msg then Some UnknownTool
      else if String.prefix "Tool execution timed out after " msg then Some Timeout
      else if String.prefix "Tool execution error: " msg then Some ExecutionError
      else None
  end.

Definition exit_kind (x : exit) : option error_kind :=
  match x with
  | ExitConnectionFailed => Some ConnectionFailed
  | ExitUnknownTool => Some UnknownTool
  | ExitTimeout => Some Timeout
  | ExitExecutionError _ => Some ExecutionError
  | ExitSuccess _ => None
  end.

(** The construction-time errors of the specification, by the exception
    class [_validate_config] raises for them. *)
Definition ConfigurationError : exn_class := ValueError.
Definition DependencyError : exn_class := ImportError.

Definition raises {A : Type} (o : outcome A) (c : exn_class) : Prop :=
  exists e, o = Raise e /\ exn_cls e = c.

(** The effective timeout in the words of the specification: the override
    when present and positive, the configured default otherwise. *)
Definition spec_effective_timeout (default : Z) (override : option Z) : Z :=
  match override with
  | Some t => if (0 <? t)%Z then t else default
  | None => default
  end.

(** Names that [repr] prints as they are between the quotes: printable
    characters only, no backslash, and not both kinds of quote. *)
Definition plain_char (c : ascii) : bool :=
  isprintable c && negb (Ascii.eqb c backslash).

Definition plain_name (s : string) : bool :=
  forallb plain_char (list_ascii_of_string s)
  && negb (has_char squote s && has_char dquote s).

End Spec.

(* ===================================================================== *)
(** * Servers and bridges used in examples *)
(* ===================================================================== *)

Module Examples.
Import Py Transport Bridge MCP_Bridge_Tool.

Definition refused : exn := mk_exn TransportError "connection refused".

Definition loop_closed : exn := mk_exn RuntimeError "Event loop is closed".

Definition echo_tool : Tool.t := Tool.mk "echo" (Some "Echo a message") [].

Definition echo_tools_data : pyval :=
  PDict [("tools", PList [PDict [("name", PStr "echo")]])].

Definition echo_result_data : pyval :=
  PDict [("content", PList [PDict [("text", PStr "Echo: hi")]])].

(** A server that lists one tool, [echo], and answers every call at once. *)
Definition echo_server : env :=
  mk_env true true
    (fun _ => StdioTools 0 0 [echo_tool])
    (fun _ => HttpListBody 0 echo_tools_data)
    (fun _ _ _ => StdioCallResult 0 [TextContent "Echo: hi"])
    (fun _ _ _ => HttpCallBody 0 echo_result_data)
    (fun _ => None).

(** A server that is down: every handshake fails after 3 time units. *)
Definition down_server : env :=
  mk_env true true
    (fun _ => StdioInitializeError 3 refused)
    (fun _ => HttpListError 3 refused)
    (fun _ _ _ => StdioCallError 0 refused)
    (fun _ _ _ => HttpCallError 0 refused)
    (fun _ => None).

(** A server whose tool calls take 5 time units. *)
Definition slow_server : env :=
  mk_env true true
    (fun _ => StdioTools 0 0 [echo_tool])
    (fun _ => HttpListBody 0 echo_tools_data)
    (fun _ _ _ => StdioCallResult 5 [TextContent "Echo: hi"])
    (fun _ _ _ => HttpCallBody 5 echo_result_data)
    (fun _ => None).

(** The echo server reached over HTTP by a client that cannot be shut down
    from a later event loop. *)
Definition stale_loop_server : env :=
  mk_env true true
    (fun _ => StdioTools 0 0 [echo_tool])
    (fun _ => HttpListBody 0 echo_tools_data)
    (fun _ _ _ => StdioCallResult 0 [TextContent "Echo: hi"])
    (fun _ _ _ => HttpCallBody 0 echo_result_data)
    (fun _ => Some loop_closed).

(** The echo server in an interpreter without the MCP SDK. *)
Definition no_sdk_server : env :=
  mk_env false true
    (fun _ => StdioSetupError refused)
    (fun _ => HttpListBody 0 echo_tools_data)
    (fun _ _ _ => StdioCallError 0 refused)
    (fun _ _ _ => HttpCallBody 0 echo_result_data)
    (fun _ => None).

Definition stdio_bridge (tmo attempts : Z) : bridge :=
  new_bridge "stdio" (Some "echo-server") [] None tmo attempts.

Definition http_bridge (tmo attempts : Z) : bridge :=
  new_bridge "http" None [] (Some "http://localhost:8000") tmo attempts.

(** The stdio bridge after a first successful connect to the echo server. *)
Definition connected_bridge (tmo attempts : Z) : bridge :=
  set_connection_healthy true
    (set_available_tools (stdio_catalog [echo_tool])
       (set_session (Some 0) (stdio_bridge tmo attempts))).

(** The HTTP bridge after a first successful connect. *)
Definition connected_http_bridge (tmo attempts : Z) : bridge :=
  set_connection_healthy true
    (set_available_tools (stdio_catalog [echo_tool])
       (set_http_client (Some 0) (http_bridge tmo attempts))).

(** A connected bridge whose one tool has a backslash in its name. *)
Definition odd_bridge : bridge :=
  set_connection_healthy true
    (set_available_tools (stdio_catalog [Tool.mk "a\b" None []])
       (set_session (Some 0) (stdio_bridge 30 3))).

End Examples.

(* ===================================================================== *)
(** * Catalogues, handles and sequences of method calls *)
(* ===================================================================== *)

(** More words for statements: what a catalogue is built from, which
    handles a bridge holds, and the method calls a caller can make in a
    row. *)
Module Vocabulary.
Import Py Transport Bridge MCP_Bridge_Tool Spec.

(** Keys that Python holds equal have the same normal form: a bool is the
    int 0 or 1. *)
Definition key_norm (k : pykey) : pykey :=
  match k with
  | KBool b => KInt (if b then 1 else 0)
  | _ => k
  end.

(** No two keys of the dict are equal. *)
Definition distinct_keys {V : Type} (d : list (pykey * V)) : Prop :=
  NoDup (map key_norm (dict_keys d)).

(** The catalogue entry [_connect_stdio] builds for a listed tool. *)
Definition descriptor_of (tool : Tool.t) : descriptor :=
  mk_descriptor
    (match Tool.description tool with Some d => PStr d | None => PNone end)
    (PDict (Tool.inputSchema tool)).

(** The key [_connect_http] makes of a tool item, when it can. *)
Definition item_key (item : pyval) : option pykey :=
  match item with
  | PDict tool =>
      match dict_get "name" tool with
      | Some nm => to_key nm
      | None => None
      end
  | _ => None
  end.

(** The items [_connect_http] runs over, when the payload has any. *)
Definition http_items (tools_data : pyval) : option (list pyval) :=
  match tools_data with
  | PDict d => py_iter (dict_get_default "tools" (PList []) d)
  | _ => None
  end.

(** The catalogue entry [_connect_http] builds for a tool item: a missing
    description is the empty string, a missing schema the empty dict. *)
Definition item_descriptor (item : pyval) : descriptor :=
  match item with
  | PDict tool =>
      mk_descriptor (dict_get_default "description" (PStr EmptyString) tool)
        (dict_get_default "inputSchema" (PDict []) tool)
  | _ => mk_descriptor PNone PNone
  end.

(** The key of an item that has one. *)
Definition key_or_none (item : pyval) : pykey :=
  match item_key item with Some k => k | None => KNone end.

(** Whether an operation of duration [d] ends before the deadline. *)
Definition in_time (d : nat) (r : run) : bool :=
  match deadline r with
  | Some T => (clock r + Z.of_nat d <? T)%Z
  | None => true
  end.

(** A healthy bridge holds the handle of its transport. *)
Definition handle_inv (s : bridge) : Prop :=
  _connection_healthy s = true -> has_transport s = true.

(** A method leaves alone the handle of the transport the bridge is not
    configured for. *)
Definition other_handle (s s' : bridge) : Prop :=
  if is_stdio s then _http_client s' = _http_client s else _session s' = _session s.

(** The bridge holds no handle of the transport it is not configured
    for. *)
Definition unused_handle (s : bridge) : Prop :=
  if is_stdio s then _http_client s = None else _session s = None.

(** The public methods a caller can invoke on a bridge. *)
Inductive op :=
| OpExecute (tool_name : string) (arguments : option pydict) (timeout_opt : option Z)
| OpGetAvailableTools
| OpGetServerInfo
| OpClose.

(** The object and the run after a method call; an exception that the call
    raises is the caller's, and the object stays as the call left it. *)
Definition apply_op (E : env) (o : op) (st : bridge * run) : bridge * run :=
  match o with
  | OpExecute tool_name arguments timeout_opt =>
      snd (execute E tool_name arguments timeout_opt st)
  | OpGetAvailableTools => snd (get_available_tools st)
  | OpGetServerInfo => snd (get_server_info st)
  | OpClose => snd (close E st)
  end.

Definition run_ops (E : env) (ops : list op) (st : bridge * run) : bridge * run :=
  fold_left (fun st o => apply_op E o st) ops st.

Definition is_execute (o : op) : bool :=
  match o with OpExecute _ _ _ => true | _ => false end.

Definition is_close (o : op) : bool :=
  match o with OpClose => true | _ => false end.

(** A dict comprehension: one assignment per element, in order. *)
Definition build {X V : Type} (kf : X -> pykey) (vf : X -> V)
    (l : list X) (acc : list (pykey * V)) : list (pykey * V) :=
  fold_left (fun acc x => dict_set (kf x) (vf x) acc) l acc.

(** ** Listings and servers used in examples *)

(** A listing that names [echo] twice. *)
Definition twice_listed : list Tool.t :=
  [Tool.mk "echo" (Some "old") []; Tool.mk "add" None []; Tool.mk "echo" (Some "new") []].

(** The same over HTTP, the first item without a description. *)
Definition twice_listed_items : list pyval :=
  [PDict [("name", PStr "echo")];
   PDict [("name", PStr "echo"); ("description", PStr "new")]].

Definition twice_listed_data : pyval := PDict [("tools", PList twice_listed_items)].

(** A server whose answers to a tool call carry no content. *)
Definition bare_server : env :=
  mk_env true true
    (fun _ => StdioTools 0 0 [Examples.echo_tool])
    (fun _ => HttpListBody 0 Examples.echo_tools_data)
    (fun _ _ _ => StdioCallResult 0 [])
    (fun _ _ _ => HttpCallBody 0 (PDict []))
    (fun _ => None).

End Vocabulary.

(* ===================================================================== *)
(** * Facts about text *)
(* ===================================================================== *)

Module Text.
Import Py Spec.

Lemma append_assoc (a b c : string) : (a ++ b) ++ c = a ++ b ++ c.
Proof. induction a as [|x a IH]; simpl; [reflexivity | now rewrite IH]. Qed.

Lemma append_nil_r (a : string) : a ++ EmptyString = a.
Proof. induction a as [|x a IH]; simpl; [reflexivity | now rewrite IH]. Qed.

Lemma contains_refl (s : string) : contains s s.
Proof. exists EmptyString, EmptyString. simpl. now rewrite append_nil_r. Qed.

Lemma contains_app (sub s a b : string) :
  contains sub s -> contains sub (a ++ s ++ b).
Proof.
  intros (pre & post & ->). exists (a ++ pre), (post ++ b).
  now rewrite !append_assoc.
Qed.

Lemma contains_app_r (sub s a : string) : contains sub s -> contains sub (a ++ s).
Proof.
  intros H. rewrite <- (append_nil_r s). now apply contains_app.
Qed.

Lemma contains_app_l (sub s b : string) : contains sub s -> contains sub (s ++ b).
Proof. intros H. apply (contains_app sub s EmptyString b H). Qed.

Lemma contains_trans (a b c : string) : contains a b -> contains b c -> contains a c.
Proof. intros Hab (pre & post & ->). now apply contains_app. Qed.

Lemma prefix_app (sub post : string) : String.prefix sub (sub ++ post) = true.
Proof.
  induction sub as [|c sub IH]; simpl.
  - destruct post; reflexivity.
  - destruct (ascii_dec c c); [assumption | congruence].
Qed.

Lemma occursb_prefix (sub s : string) :
  String.prefix sub s = true -> occursb sub s = true.
Proof.
  intros H. destruct s as [|c s].
  - destruct sub; [reflexivity | discriminate H].
  - cbn [occursb]. rewrite H. reflexivity.
Qed.

(** [occursb] finds every occurrence, so it decides the absence of one. *)
Lemma contains_occursb (sub s : string) : contains sub s -> occursb sub s = true.
Proof.
  intros (pre & post & ->). induction pre as [|c pre IH].
  - apply occursb_prefix. exact (prefix_app sub post).
  - change (occursb sub (String c (pre ++ sub ++ post)) = true).
    cbn [occursb]. rewrite IH.
    destruct (String.prefix sub (String c (pre ++ sub ++ post))); reflexivity.
Qed.

Lemma join_comma_contains (x : string) (items : list string) :
  In x items -> contains x (join_comma items).
Proof.
  induction items as [|y rest IH]; intros Hin; [contradiction|].
  destruct rest as [|z rest'].
  - destruct Hin as [->|[]]. apply contains_refl.
  - change (join_comma (y :: z :: rest')) with (y ++ ", " ++ join_comma (z :: rest')).
    destruct Hin as [->|Hin].
    + apply contains_app_l, contains_refl.
    + apply contains_app_r, contains_app_r, IH, Hin.
Qed.

Lemma repr_list_contains (k : pykey) (ks : list pykey) :
  In k ks -> contains (repr_key k) (repr_list ks).
Proof.
  intros Hin. unfold repr_list.
  apply contains_app_r, contains_app_l, join_comma_contains, in_map, Hin.
Qed.

Lemma repr_char_plain (q c : ascii) :
  plain_char c = true -> Ascii.eqb c q = false -> repr_char q c = String c EmptyString.
Proof.
  unfold plain_char, repr_char. intros Hp Hq. cbv zeta.
  apply andb_prop in Hp as [Hpr Hb]. apply negb_true_iff in Hb.
  rewrite Hq, Hb, Hpr. simpl.
  unfold isprintable in Hpr. cbv zeta in Hpr.
  destruct (Nat.eqb (nat_of_ascii c) 9) eqn:H9.
  { apply Nat.eqb_eq in H9. rewrite H9 in Hpr. discriminate. }
  destruct (Nat.eqb (nat_of_ascii c) 10) eqn:H10.
  { apply Nat.eqb_eq in H10. rewrite H10 in Hpr. discriminate. }
  destruct (Nat.eqb (nat_of_ascii c) 13) eqn:H13.
  { apply Nat.eqb_eq in H13. rewrite H13 in Hpr. discriminate. }
  reflexivity.
Qed.

Lemma repr_chars_plain (q : ascii) (s : string) :
  forallb plain_char (list_ascii_of_string s) = true ->
  has_char q s = false ->
  repr_chars q s = s.
Proof.
  unfold has_char. induction s as [|c s IH]; simpl; intros Hp Hq; [reflexivity|].
  apply andb_prop in Hp as [Hc Hs]. apply orb_false_iff in Hq as [Hqc Hqs].
  rewrite repr_char_plain; auto.
  - simpl. now rewrite IH.
  - rewrite Ascii.eqb_sym. exact Hqc.
Qed.

Lemma repr_str_plain (s : string) :
  plain_name s = true ->
  repr_str s = String (repr_quote s) (s ++ String (repr_quote s) EmptyString).
Proof.
  unfold plain_name, repr_str. intros H. apply andb_prop in H as [Hp Hq].
  apply negb_true_iff in Hq.
  rewrite repr_chars_plain; auto.
  unfold repr_quote.
  destruct (has_char squote s) eqn:Hs; destruct (has_char dquote s) eqn:Hd;
    simpl in *; congruence.
Qed.

Lemma repr_str_contains (s : string) : plain_name s = true -> contains s (repr_str s).
Proof.
  intros H. rewrite (repr_str_plain s H).
  exists (String (repr_quote s) EmptyString), (String (repr_quote s) EmptyString).
  reflexivity.
Qed.

Lemma error_kind_result_at (tool_name : string) (T : Z) (s' : Bridge.bridge) (x : exit) :
  error_kind_of (result_at tool_name T s' x) = exit_kind x.
Proof.
  destruct x; simpl; try reflexivity.
  - unfold unknown_tool_message. simpl. destruct (tool_name ++ _); reflexivity.
  - unfold timeout_message. simpl. destruct (str_int T ++ _); reflexivity.
  - unfold execution_error_message. simpl. destruct (exn_text e); reflexivity.
Qed.

End Text.

(* ===================================================================== *)
(** * Facts about the methods *)
(* ===================================================================== *)

Module Steps.
Import Py Transport Bridge MCP_Bridge_Tool Spec.

Lemma same_config_refl (s : bridge) : same_config s s.
Proof. repeat split. Qed.

Lemma same_config_trans (s1 s2 s3 : bridge) :
  same_config s1 s2 -> same_config s2 s3 -> same_config s1 s3.
Proof. unfold same_config; intuition congruence. Qed.

Lemma is_stdio_same (s s' : bridge) : same_config s s' -> is_stdio s' = is_stdio s.
Proof. intros H. unfold is_stdio. destruct H as [-> _]. reflexivity. Qed.

(** ** Awaiting under a deadline *)

Lemma await_cases (d : nat) (s : bridge) (r : run) :
  (exists t, await d (s, r) = (Ok tt, (s, set_clock t r))) \/
  (exists t, await d (s, r) = (Cancelled, (s, set_clock t r))).
Proof.
  unfold await; simpl.
  destruct (deadline r) as [T|].
  - destruct (clock r + Z.of_nat d <? T)%Z; [left | right]; eexists; reflexivity.
  - left; eexists; reflexivity.
Qed.

Lemma await_in_time (d : nat) (s : bridge) (r : run) (T : Z) :
  deadline r = Some T -> (clock r + Z.of_nat d < T)%Z ->
  await d (s, r) = (Ok tt, (s, set_clock (clock r + Z.of_nat d) r)).
Proof.
  intros HT Hlt. unfold await; simpl. rewrite HT.
  apply Z.ltb_lt in Hlt. rewrite Hlt. reflexivity.
Qed.

Lemma await_too_late (d : nat) (s : bridge) (r : run) (T : Z) :
  deadline r = Some T -> (T <= clock r + Z.of_nat d)%Z ->
  await d (s, r) = (Cancelled, (s, set_clock T r)).
Proof.
  intros HT Hle. unfold await; simpl. rewrite HT.
  apply Z.ltb_ge in Hle. rewrite Hle. reflexivity.
Qed.

Ltac step_await :=
  match goal with
  | |- context [await ?d (?s, ?r)] =>
      let t := fresh "t" in
      let H := fresh "Hawait" in
      destruct (await_cases d s r) as [[t H] | [t H]]; rewrite H; clear H; simpl
  end.

Section Connection.

Variable E : env.

(** ** One connect attempt *)

(** What an attempt does, whatever the deadline: it never raises, and the
    catalogue moves only when it reports success. *)
Lemma connect_spec (s : bridge) (r : run) :
  exists o s' r',
    connect E s (s, r) = (o, (s', r')) /\
    same_config s s' /\
    attempts r' = S (attempts r) /\ calls r' = calls r /\ closes r' = closes r /\
    deadline r' = deadline r /\
    trace r' = (trace r ++ [EvConnect (attempts r)])%list /\
    match o with
    | Ok true => _connection_healthy s' = true
    | Ok false =>
        _connection_healthy s' = false /\ _available_tools s' = _available_tools s
    | Cancelled =>
        _connection_healthy s' = _connection_healthy s /\
        _available_tools s' = _available_tools s
    | Raise _ => False
    end.
Proof.
  unfold connect. destruct (is_stdio s).
  - unfold _connect_stdio, try_except, bind, next_attempt; simpl.
    destruct (stdio_connects E (attempts r)); simpl;
      repeat step_await;
      do 3 eexists; (split; [reflexivity|]); simpl;
      repeat split; reflexivity.
  - unfold _connect_http, try_except, bind, next_attempt; simpl.
    destruct (http_connects E (attempts r)) as [e|d e|d data]; simpl;
      repeat step_await;
      try (destruct (http_catalog data); simpl);
      do 3 eexists; (split; [reflexivity|]); simpl;
      repeat split; reflexivity.
Qed.

(** An attempt that fits before the deadline runs to its end. *)
Lemma connect_in_time (s : bridge) (r : run) (T : Z) :
  deadline r = Some T ->
  (clock r + Z.of_nat (attempt_time E (is_stdio s) (attempts r)) < T)%Z ->
  exists s' r',
    connect E s (s, r) = (Ok (attempt_ok E (is_stdio s) (attempts r)), (s', r')) /\
    same_config s s' /\
    _connection_healthy s' = attempt_ok E (is_stdio s) (attempts r) /\
    (attempt_ok E (is_stdio s) (attempts r) = false ->
     _available_tools s' = _available_tools s) /\
    attempts r' = S (attempts r) /\ calls r' = calls r /\ closes r' = closes r /\
    deadline r' = deadline r /\
    clock r' = (clock r + Z.of_nat (attempt_time E (is_stdio s) (attempts r)))%Z /\
    trace r' = (trace r ++ [EvConnect (attempts r)])%list.
Proof.
  intros HT Hlt.
  unfold connect, attempt_time, attempt_ok in *. destruct (is_stdio s).
  - unfold _connect_stdio, try_except, bind, next_attempt; simpl.
    destruct (stdio_connects E (attempts r)) as [e|d e|d1 d2 e|d1 d2 tools]; simpl.
    + do 2 eexists; split; [reflexivity|]; simpl.
      rewrite Z.add_0_r. repeat split; reflexivity.
    + erewrite await_in_time by (simpl; eauto). simpl.
      do 2 eexists; split; [reflexivity|]; simpl. repeat split; reflexivity.
    + rewrite Nat2Z.inj_add in Hlt.
      erewrite await_in_time by (simpl; eauto; lia). simpl.
      erewrite await_in_time by (simpl; eauto; lia). simpl.
      do 2 eexists; split; [reflexivity|]; simpl.
      repeat split; try reflexivity. lia.
    + rewrite Nat2Z.inj_add in Hlt.
      erewrite await_in_time by (simpl; eauto; lia). simpl.
      erewrite await_in_time by (simpl; eauto; lia). simpl.
      do 2 eexists; split; [reflexivity|]; simpl.
      repeat split; try reflexivity; try discriminate. lia.
  - unfold _connect_http, try_except, bind, next_attempt; simpl.
    destruct (http_connects E (attempts r)) as [e|d e|d data]; simpl.
    + do 2 eexists; split; [reflexivity|]; simpl.
      rewrite Z.add_0_r. repeat split; reflexivity.
    + erewrite await_in_time by (simpl; eauto). simpl.
      do 2 eexists; split; [reflexivity|]; simpl. repeat split; reflexivity.
    + erewrite await_in_time by (simpl; eauto). simpl.
      destruct (http_catalog data); simpl;
        do 2 eexists; (split; [reflexivity|]); simpl;
        repeat split; try reflexivity; discriminate.
Qed.

(** ** The reconnection loop *)

Lemma reconnect_unfold (n : nat) (s : bridge) (r : run) :
  reconnect E (S n) (s, r) =
  match connect E s (s, r) with
  | (Ok true, st') => (Ok true, st')
  | (Ok false, st') =>
      match sleep 1 st' with
      | (Ok _, st'') => reconnect E n st''
      | (Raise e, st'') => (Raise e, st'')
      | (Cancelled, st'') => (Cancelled, st'')
      end
  | (Raise e, st') => (Raise e, st')
  | (Cancelled, st') => (Cancelled, st')
  end.
Proof.
  simpl. unfold bind, self, connect, is_stdio; simpl.
  destruct (server_type s =? "stdio")%string;
    match goal with |- context [match ?c with _ => _ end] => destruct c as [[[|]| |] ?] end;
    reflexivity.
Qed.

(** When all of n attempts fail and their time, with the sleeps, fits before
    the deadline, the loop makes exactly n attempts and reports failure. *)
Lemma reconnect_all_fail (T : Z) (n : nat) :
  forall (s : bridge) (r : run),
    deadline r = Some T ->
    _connection_healthy s = false ->
    (forall i, i < n -> attempt_ok E (is_stdio s) (attempts r + i) = false) ->
    (clock r + Z.of_nat (retry_time E (is_stdio s) (attempts r) n) < T)%Z ->
    exists s' r',
      reconnect E n (s, r) = (Ok false, (s', r')) /\
      same_config s s' /\
      _connection_healthy s' = false /\
      _available_tools s' = _available_tools s /\
      attempts r' = attempts r + n /\ calls r' = calls r /\ closes r' = closes r /\
      deadline r' = deadline r /\
      clock r' = (clock r + Z.of_nat (retry_time E (is_stdio s) (attempts r) n))%Z /\
      trace r' = (trace r ++ retry_trace (attempts r) n)%list.
Proof.
  induction n as [|n IH]; intros s r HT Hh Hfail Htime.
  - exists s, r. simpl. rewrite Z.add_0_r, Nat.add_0_r, app_nil_r.
    repeat split; auto using same_config_refl.
  - simpl in Htime. rewrite !Nat2Z.inj_add in Htime.
    destruct (connect_in_time s r T HT) as
      (s1 & r1 & Hc & Hcfg & Hh1 & Hcat & Ha & Hcl & Hcs & Hd & Hck & Htr); [lia|].
    assert (Hok : attempt_ok E (is_stdio s) (attempts r) = false).
    { specialize (Hfail 0). rewrite Nat.add_0_r in Hfail. apply Hfail. lia. }
    rewrite Hok in *.
    rewrite reconnect_unfold, Hc.
    unfold sleep. simpl.
    erewrite await_in_time; [| simpl; rewrite Hd; exact HT | simpl; lia].
    simpl.
    match goal with |- context [reconnect E n (s1, ?rr)] => set (r2 := rr) end.
    destruct (IH s1 r2) as
      (s' & r' & Hr & Hcfg' & Hh' & Hcat' & Ha' & Hcl' & Hcs' & Hd' & Hck' & Htr').
    + subst r2; simpl. congruence.
    + assumption.
    + intros i Hi. subst r2; simpl. rewrite (is_stdio_same _ _ Hcfg), Ha.
      replace (S (attempts r) + i) with (attempts r + S i) by lia.
      apply Hfail. lia.
    + subst r2; simpl. rewrite (is_stdio_same _ _ Hcfg), Ha, Hck. simpl. lia.
    + exists s', r'. rewrite Hr. split; [reflexivity|].
      subst r2; simpl in *.
      rewrite (is_stdio_same _ _ Hcfg), Ha, Hck in *.
      split; [eapply same_config_trans; eassumption|].
      repeat split; try congruence.
      * rewrite Hcat'. apply Hcat. reflexivity.
      * lia.
      * rewrite Hck'. simpl. lia.
      * rewrite Htr', Htr, <- !app_assoc. reflexivity.
Qed.

(** When k attempts fail and the next one succeeds, all before the deadline,
    the loop stops there: k + 1 attempts, k sleeps. *)
Lemma reconnect_first_success (T : Z) (k : nat) :
  forall (n : nat) (s : bridge) (r : run),
    deadline r = Some T ->
    k < n ->
    (forall i, i < k -> attempt_ok E (is_stdio s) (attempts r + i) = false) ->
    attempt_ok E (is_stdio s) (attempts r + k) = true ->
    (clock r + Z.of_nat (retry_time E (is_stdio s) (attempts r) k
                         + attempt_time E (is_stdio s) (attempts r + k)) < T)%Z ->
    exists s' r',
      reconnect E n (s, r) = (Ok true, (s', r')) /\
      same_config s s' /\
      _connection_healthy s' = true /\
      attempts r' = attempts r + S k /\ calls r' = calls r /\ closes r' = closes r /\
      deadline r' = deadline r /\
      trace r' = (trace r ++ retry_trace (attempts r) k ++ [EvConnect (attempts r + k)])%list.
Proof.
  induction k as [|k IH]; intros n s r HT Hkn Hfail Hok Htime.
  - destruct n as [|n]; [lia|].
    rewrite Nat.add_0_r in *. simpl in Htime.
    destruct (connect_in_time s r T HT) as
      (s1 & r1 & Hc & Hcfg & Hh1 & Hcat & Ha & Hcl & Hcs & Hd & Hck & Htr); [lia|].
    rewrite Hok in *.
    rewrite reconnect_unfold, Hc.
    exists s1, r1. split; [reflexivity|].
    repeat split; try apply Hcfg; try assumption; lia.
  - destruct n as [|n]; [lia|].
    simpl in Htime. rewrite !Nat2Z.inj_add in Htime.
    destruct (connect_in_time s r T HT) as
      (s1 & r1 & Hc & Hcfg & Hh1 & Hcat & Ha & Hcl & Hcs & Hd & Hck & Htr); [lia|].
    assert (Hok0 : attempt_ok E (is_stdio s) (attempts r) = false).
    { specialize (Hfail 0). rewrite Nat.add_0_r in Hfail. apply Hfail. lia. }
    rewrite Hok0 in *.
    rewrite reconnect_unfold, Hc.
    unfold sleep. simpl.
    erewrite await_in_time; [| simpl; rewrite Hd; exact HT | simpl; lia].
    simpl.
    match goal with |- context [reconnect E n (s1, ?rr)] => set (r2 := rr) end.
    destruct (IH n s1 r2) as
      (s' & r' & Hr & Hcfg' & Hh' & Ha' & Hcl' & Hcs' & Hd' & Htr').
    + subst r2; simpl. congruence.
    + lia.
    + intros i Hi. subst r2; simpl. rewrite (is_stdio_same _ _ Hcfg), Ha.
      replace (S (attempts r) + i) with (attempts r + S i) by lia.
      apply Hfail. lia.
    + subst r2; simpl. rewrite (is_stdio_same _ _ Hcfg), Ha.
      replace (S (attempts r) + k) with (attempts r + S k) by lia. exact Hok.
    + subst r2; simpl. rewrite (is_stdio_same _ _ Hcfg), Ha, Hck.
      replace (S (attempts r) + k) with (attempts r + S k) by lia.
      rewrite Nat2Z.inj_add. simpl. lia.
    + exists s', r'. rewrite Hr. split; [reflexivity|].
      subst r2; simpl in *.
      rewrite Ha in *.
      split; [eapply same_config_trans; eassumption|].
      repeat split; try congruence.
      * lia.
      * rewrite Htr', Htr, <- !app_assoc. simpl.
        replace (attempts r + S k) with (S (attempts r + k)) by lia. reflexivity.
Qed.

(** Whatever the deadline, the loop never raises, makes at most n attempts
    and reports only a connection it has just made. *)
Lemma reconnect_spec (n : nat) :
  forall (s : bridge) (r : run),
    _connection_healthy s = false ->
    exists o s' r',
      reconnect E n (s, r) = (o, (s', r')) /\
      same_config s s' /\
      calls r' = calls r /\ closes r' = closes r /\ deadline r' = deadline r /\
      attempts r <= attempts r' <= attempts r + n /\
      match o with
      | Ok true => _connection_healthy s' = true
      | Ok false =>
          _connection_healthy s' = false /\
          _available_tools s' = _available_tools s /\
          attempts r' = attempts r + n
      | Cancelled =>
          _connection_healthy s' = false /\
          _available_tools s' = _available_tools s
      | Raise _ => False
      end.
Proof.
  induction n as [|n IH]; intros s r Hh.
  - exists (Ok false), s, r. simpl.
    repeat split; auto; lia.
  - rewrite reconnect_unfold.
    destruct (connect_spec s r) as
      (o & s1 & r1 & Hc & Hcfg & Ha & Hcl & Hcs & Hd & Htr & Ho).
    rewrite Hc. destruct o as [[|]|e|].
    + exists (Ok true), s1, r1. repeat split; try apply Hcfg; auto; lia.
    + destruct Ho as [Hh1 Hcat1].
      unfold sleep. simpl.
      match goal with |- context [await 1 (s1, ?rr)] =>
        destruct (await_cases 1 s1 rr) as [[t H]|[t H]]; rewrite H; clear H end.
      * match goal with |- context [reconnect E n (s1, ?rr)] => set (r2 := rr) end.
        destruct (IH s1 r2 Hh1) as
          (o' & s' & r' & Hr & Hcfg' & Hcl' & Hcs' & Hd' & Ha' & Ho').
        exists o', s', r'. rewrite Hr. split; [reflexivity|].
        subst r2; simpl in *.
        split; [eapply same_config_trans; eassumption|].
        repeat split; try congruence; try lia.
        destruct o' as [[|]|e|]; auto.
        -- destruct Ho' as (? & ? & ?). repeat split; try congruence. lia.
        -- destruct Ho' as (? & ?). split; congruence.
      * eexists Cancelled, s1, _. split; [reflexivity|]. simpl.
        repeat split; try apply Hcfg; auto; lia.
    + contradiction.
    + destruct Ho as [Hh1 Hcat1].
      exists Cancelled, s1, r1. repeat split; try apply Hcfg; auto; try lia.
      congruence.
Qed.

Lemma ensure_connection_spec (s : bridge) (r : run) :
  exists o s' r',
    _ensure_connection E (s, r) = (o, (s', r')) /\
    same_config s s' /\
    calls r' = calls r /\ closes r' = closes r /\ deadline r' = deadline r /\
    attempts r <= attempts r' <= attempts r + Z.to_nat (reconnect_attempts s) /\
    match o with
    | Ok true =>
        _connection_healthy s' = true /\
        (_connection_healthy s = true -> s' = s /\ r' = r)
    | Ok false =>
        _connection_healthy s = false /\ _connection_healthy s' = false /\
        _available_tools s' = _available_tools s /\
        attempts r' = attempts r + Z.to_nat (reconnect_attempts s)
    | Cancelled =>
        _connection_healthy s = false /\ _connection_healthy s' = false /\
        _available_tools s' = _available_tools s
    | Raise _ => False
    end.
Proof.
  unfold _ensure_connection, bind, self; simpl.
  destruct (_connection_healthy s) eqn:Hh.
  - exists (Ok true), s, r. unfold ret.
    repeat split; auto; lia.
  - destruct (reconnect_spec (Z.to_nat (reconnect_attempts s)) s r Hh) as
      (o & s' & r' & Hr & Hcfg & Hcl & Hcs & Hd & Ha & Ho).
    exists o, s', r'. rewrite Hr.
    split; [reflexivity|]. split; [assumption|].
    repeat split; try assumption; try lia.
    destruct o as [[|]|e|]; try tauto.
    split; [assumption|]. discriminate.
Qed.

End Connection.

Section Dispatch.

Variable E : env.

(** ** The dispatcher *)

Lemma execute_async_unfold (tool_name : string) (arguments : pydict) (st : bridge * run) :
  _execute_async E tool_name arguments st =
  match _ensure_connection E st with
  | (Ok true, st') => dispatch E tool_name arguments st'
  | (Ok false, st') =>
      (Ok (Failure connection_failed_message tool_name (server_info_of (fst st'))), st')
  | (Raise e, st') => (Raise e, st')
  | (Cancelled, st') => (Cancelled, st')
  end.
Proof.
  unfold _execute_async, bind.
  destruct (_ensure_connection E st) as [[[|]|e|] st']; reflexivity.
Qed.

(** The lookup and the transport call: no connect attempt, at most one
    call sent, and the health flag cleared exactly on an execution error. *)
Lemma dispatch_spec (tool_name : string) (arguments : pydict) (s : bridge) (r : run) :
  exists o s' r',
    dispatch E tool_name arguments (s, r) = (o, (s', r')) /\
    attempts r' = attempts r /\ closes r' = closes r /\ deadline r' = deadline r /\
    (trace r' = trace r \/ trace r' = (trace r ++ [EvCall tool_name arguments])%list) /\
    dispatch_post E tool_name arguments s r o s' r'.
Proof.
  unfold dispatch, bind, self, get_server_info, ret; simpl.
  destruct (dict_mem (KStr tool_name) (_available_tools s)) eqn:Hmem; simpl.
  2:{ do 3 eexists. split; [reflexivity|]. simpl. rewrite Hmem.
      repeat split; auto. }
  assert (Hfin : forall o s' r',
             attempts r' = attempts r -> closes r' = closes r ->
             deadline r' = deadline r ->
             (trace r' = trace r \/
              trace r' = (trace r ++ [EvCall tool_name arguments])%list) ->
             dispatch_post E tool_name arguments s r o s' r' ->
             exists o0 s0 r0,
               (o, (s', r')) = (o0, (s0, r0)) /\
               attempts r0 = attempts r /\ closes r0 = closes r /\
               deadline r0 = deadline r /\
               (trace r0 = trace r \/
                trace r0 = (trace r ++ [EvCall tool_name arguments])%list) /\
               dispatch_post E tool_name arguments s r o0 s0 r0).
  { intros o s' r' ? ? ? ? ?. exists o, s', r'. auto 10. }
  unfold try_except, bind.
  destruct (server_type s =? "stdio")%string eqn:Hst.
  - unfold _execute_stdio, bind, self, next_call; simpl.
    destruct (_session s) as [h|]; simpl.
    + destruct (stdio_calls E (calls r) tool_name arguments) as [d e|d content] eqn:Hcall;
        simpl.
      * step_await; apply Hfin; simpl; rewrite ?Hmem; eauto 10.
      * step_await.
        -- destruct content as [|[text|cls] rest]; simpl;
             apply Hfin; simpl; unfold call_value, is_stdio;
             rewrite ?Hmem, ?Hst, ?Hcall; eauto 10.
        -- apply Hfin; simpl; rewrite ?Hmem; eauto 10.
    + apply Hfin; simpl; rewrite ?Hmem; eauto 10.
  - unfold _execute_http, bind, self, next_call; simpl.
    destruct (_http_client s) as [h|]; simpl.
    + destruct (http_calls E (calls r) tool_name arguments) as [d e|d data] eqn:Hcall;
        simpl.
      * step_await; apply Hfin; simpl; rewrite ?Hmem; eauto 10.
      * step_await.
        -- unfold lift.
           destruct (py_get data "content" (PList [PDict []])) as [e1|content] eqn:H1;
             simpl.
           { apply Hfin; simpl; rewrite ?Hmem; eauto 10. }
           destruct (py_item0 content) as [e2|first] eqn:H2; simpl.
           { apply Hfin; simpl; rewrite ?Hmem; eauto 10. }
           destruct (py_get first "text" (PDict [])) as [e3|v] eqn:H3; simpl;
             apply Hfin; simpl; unfold call_value, is_stdio;
             rewrite ?Hmem, ?Hst, ?Hcall, ?H1, ?H2, ?H3; eauto 10.
        -- apply Hfin; simpl; rewrite ?Hmem; eauto 10.
    + apply Hfin; simpl; rewrite ?Hmem; eauto 10.
Qed.

(** [execute] with the loop, the deadline and the two handlers spelled
    out. *)
Lemma execute_unfold (tool_name : string) (arguments : option pydict)
    (timeout_opt : option Z) (s : bridge) (r : run) :
  execute E tool_name arguments timeout_opt (s, r) =
  let T := exec_timeout s timeout_opt in
  if (T <=? 0)%Z then
    (Ok (Failure (timeout_message T) tool_name (server_info_of s)),
     (s, set_deadline None (set_clock 0 r)))
  else
    match _execute_async E tool_name (normalize arguments) (s, start_run T r) with
    | (Ok res, (s', r')) => (Ok res, (s', set_deadline None r'))
    | (Raise e, (s', r')) =>
        (Ok (Failure
               (match exn_cls e with
                | TimeoutError => timeout_message T
                | _ => "Execution failed: " ++ exn_text e
                end) tool_name (server_info_of s')),
         (s', set_deadline None r'))
    | (Cancelled, (s', r')) =>
        (Ok (Failure (timeout_message T) tool_name (server_info_of s')),
         (s', set_deadline None r'))
    end.
Proof.
  unfold execute, bind, self, try_except, asyncio_run, wait_for; simpl.
  fold (normalize arguments).
  destruct (exec_timeout s timeout_opt <=? 0)%Z; simpl; [reflexivity|].
  change (set_deadline (Some (exec_timeout s timeout_opt))
            (set_clock 0 (set_deadline None (set_clock 0 r))))
    with (start_run (exec_timeout s timeout_opt) r).
  destruct (_execute_async E tool_name (normalize arguments)
              (s, start_run (exec_timeout s timeout_opt) r)) as [[res|e|] [s' r']];
    simpl; try reflexivity.
  destruct (exn_cls e); reflexivity.
Qed.

(** Every call returns, through one of five return statements. *)
Lemma execute_spec (tool_name : string) (arguments : option pydict)
    (timeout_opt : option Z) (s : bridge) (r : run) :
  exists x s' r',
    execute E tool_name arguments timeout_opt (s, r) =
      (Ok (result_at tool_name (exec_timeout s timeout_opt) s' x), (s', r')) /\
    same_config s s' /\
    exit_post E tool_name (normalize arguments) s r s' r' x.
Proof.
  rewrite execute_unfold. cbv zeta.
  destruct (exec_timeout s timeout_opt <=? 0)%Z.
  { exists ExitTimeout, s, (set_deadline None (set_clock 0 r)).
    split; [reflexivity|]. split; [apply same_config_refl|]. simpl. auto. }
  rewrite execute_async_unfold.
  set (r0 := start_run (exec_timeout s timeout_opt) r).
  destruct (ensure_connection_spec E s r0) as
    (o & s1 & r1 & He & Hcfg & Hcl & Hcs & Hd & Ha & Ho).
  rewrite He. destruct o as [[|]|e|].
  - destruct Ho as [Hh1 Hsame].
    destruct (dispatch_spec tool_name (normalize arguments) s1 r1) as
      (o & s2 & r2 & Hdsp & Ha2 & Hcs2 & Hd2 & Htr2 & Hpost).
    rewrite Hdsp. unfold dispatch_post in Hpost.
    destruct o as [[v n i|msg n i]|e|].
    + destruct Hpost as (-> & -> & -> & Hmem & Hc2 & Hv).
      exists (ExitSuccess v), s1, (set_deadline None r2).
      split; [reflexivity|]. split; [assumption|]. simpl.
      rewrite Hc2, Hcl. subst r0; simpl.
      rewrite (is_stdio_same _ _ Hcfg), Hcl in Hv. auto.
    + destruct Hpost as (-> & -> & [(Hmem & -> & -> & ->) | (Hmem & [e ->] & ->)]).
      * exists ExitUnknownTool, s1, (set_deadline None r1).
        split; [reflexivity|]. split; [assumption|]. simpl. auto.
      * exists (ExitExecutionError e), (set_connection_healthy false s1),
          (set_deadline None r2).
        split; [reflexivity|]. split; [exact Hcfg|]. simpl. auto.
    + contradiction.
    + destruct Hpost as [-> Hmem].
      exists ExitTimeout, s1, (set_deadline None r2).
      split; [reflexivity|]. split; [assumption|]. simpl.
      intros Hh. apply Hsame. assumption.
  - destruct Ho as (Hh & Hh1 & Hcat & Ha1).
    exists ExitConnectionFailed, s1, (set_deadline None r1).
    split; [reflexivity|]. split; [assumption|]. simpl. auto.
  - contradiction.
  - destruct Ho as (Hh & Hh1 & Hcat).
    exists ExitTimeout, s1, (set_deadline None r1).
    split; [reflexivity|]. split; [assumption|]. simpl.
    intros Hh'. congruence.
Qed.

(** ** Shutdown *)

Lemma close_returns (s : bridge) (r : run) :
  _http_client s = None \/ http_closes E (closes r) = None ->
  close E (s, r) = (Ok tt, (set_connection_healthy false s, closed_run s r)).
Proof.
  intros H. unfold close, closed_run, bind, self, asyncio_run, aclose, assign, ret; simpl.
  destruct (_http_client s) as [h|]; simpl; [|reflexivity].
  destruct H as [H | H]; [discriminate|].
  rewrite H. reflexivity.
Qed.

End Dispatch.

End Steps.

(* ===================================================================== *)
(** * The scenarios of the specification *)
(* ===================================================================== *)

Module Scenarios.
Import Py Transport Bridge MCP_Bridge_Tool Spec Examples.

(** A first call connects, finds the tool and returns the echoed text. *)
Example echo_scenario :
  fst (execute echo_server "echo" (Some [("message", PStr "hi")]) None
         (stdio_bridge 30 3, run0))
  = Ok (Success (PStr "Echo: hi") "echo"
          (mk_info "stdio" true 1 (Some "echo-server") None 30)).
Proof. reflexivity. Qed.

(** An unknown tool is reported with the list of the known ones. *)
Example unknown_scenario :
  fst (execute echo_server "nope" (Some []) None (stdio_bridge 30 3, run0))
  = Ok (Failure "Tool 'nope' not found on server. Available: ['echo']" "nope"
          (mk_info "stdio" true 1 (Some "echo-server") None 30)).
Proof. reflexivity. Qed.

(** A call of 5 time units under a timeout of 1 is reported as timed out. *)
Example slow_scenario :
  fst (execute slow_server "echo" (Some []) (Some 1%Z) (stdio_bridge 30 3, run0))
  = Ok (Failure "Tool execution timed out after 1 seconds" "echo"
          (mk_info "stdio" true 1 (Some "echo-server") None 30)).
Proof. reflexivity. Qed.

(** The same over HTTP. *)
Example http_scenario :
  fst (execute echo_server "echo" None None (http_bridge 30 3, run0))
  = Ok (Success (PStr "Echo: hi") "echo"
          (mk_info "http" true 1 None (Some "http://localhost:8000") 30)).
Proof. reflexivity. Qed.

(** A failed call clears the health flag, and the next call reconnects. *)
Example repair_scenario :
  let '(o1, st1) := execute down_server "echo" None None (connected_bridge 30 3, run0) in
  let '(o2, (s2, r2)) := execute echo_server "echo" None None st1 in
  o1 = Ok (Failure "Tool execution error: connection refused" "echo"
             (mk_info "stdio" false 1 (Some "echo-server") None 30)) /\
  o2 = Ok (Success (PStr "Echo: hi") "echo"
             (mk_info "stdio" true 1 (Some "echo-server") None 30)) /\
  trace r2 = [EvCall "echo" []; EvConnect 0; EvCall "echo" []].
Proof. vm_compute. repeat split. Qed.

End Scenarios.

(* ===================================================================== *)
(** * Dicts in insertion order *)
(* ===================================================================== *)

Module Dicts.
Import Py Transport Bridge MCP_Bridge_Tool Spec Vocabulary.

Lemma key_eqb_norm (a b : pykey) : key_eqb a b = true <-> key_norm a = key_norm b.
Proof.
  destruct a as [|x|x|x], b as [|y|y|y]; simpl; split; intros H;
    try discriminate; try reflexivity.
  - apply Bool.eqb_prop in H. now subst.
  - destruct x, y; try reflexivity; discriminate.
  - apply Z.eqb_eq in H. now subst.
  - inversion H. apply Z.eqb_eq. congruence.
  - apply Z.eqb_eq in H. now subst.
  - inversion H. apply Z.eqb_eq. congruence.
  - apply Z.eqb_eq in H. now subst.
  - inversion H. apply Z.eqb_refl.
  - apply String.eqb_eq in H. now subst.
  - inversion H. apply String.eqb_refl.
Qed.

Lemma key_eqb_false_norm (a b : pykey) : key_eqb a b = false <-> key_norm a <> key_norm b.
Proof.
  rewrite <- key_eqb_norm. destruct (key_eqb a b); split; congruence.
Qed.

Lemma key_eqb_refl (a : pykey) : key_eqb a a = true.
Proof. now apply key_eqb_norm. Qed.

Lemma dict_mem_norm {V : Type} (k : pykey) (d : list (pykey * V)) :
  dict_mem k d = true <-> In (key_norm k) (map key_norm (dict_keys d)).
Proof.
  unfold dict_mem, dict_keys. induction d as [|[k0 v0] d IH]; simpl.
  - split; [discriminate | contradiction].
  - rewrite orb_true_iff, IH, key_eqb_norm. reflexivity.
Qed.

Lemma dict_keys_set {V : Type} (k : pykey) (v : V) (d : list (pykey * V)) :
  dict_keys (dict_set k v d) =
  if dict_mem k d then dict_keys d else (dict_keys d ++ [k])%list.
Proof.
  unfold dict_keys, dict_mem. induction d as [|[k0 v0] d IH]; simpl; [reflexivity|].
  destruct (key_eqb k0 k); simpl; [reflexivity|].
  rewrite IH. destruct (existsb _ d); reflexivity.
Qed.

Lemma dict_mem_set {V : Type} (q k : pykey) (v : V) (d : list (pykey * V)) :
  dict_mem q (dict_set k v d) = key_eqb k q || dict_mem q d.
Proof.
  apply eq_true_iff_eq.
  rewrite orb_true_iff, !dict_mem_norm, dict_keys_set, key_eqb_norm.
  destruct (dict_mem k d) eqn:Hk.
  - apply dict_mem_norm in Hk. split; [auto|]. intros [H | H]; [|exact H].
    now rewrite <- H.
  - rewrite map_app, in_app_iff. simpl. intuition.
Qed.

Lemma distinct_keys_set {V : Type} (k : pykey) (v : V) (d : list (pykey * V)) :
  distinct_keys d -> distinct_keys (dict_set k v d).
Proof.
  unfold distinct_keys. intros H. rewrite dict_keys_set.
  destruct (dict_mem k d) eqn:Hk; [exact H|].
  rewrite map_app. simpl.
  apply NoDup_app; [exact H | constructor; [intros [] | constructor] |].
  intros x Hx [<- | []].
  apply dict_mem_norm in Hx. congruence.
Qed.

Lemma length_dict_set {V : Type} (k : pykey) (v : V) (d : list (pykey * V)) :
  length (dict_set k v d) = if dict_mem k d then length d else S (length d).
Proof.
  unfold dict_mem. induction d as [|[k0 v0] d IH]; simpl; [reflexivity|].
  destruct (key_eqb k0 k); simpl; [reflexivity|].
  rewrite IH. destruct (existsb _ d); reflexivity.
Qed.

(** The entries of a dict after an assignment, when its keys are
    distinct: the assigned one, and the old ones under other keys. *)
Lemma in_dict_set {V : Type} (k0 k : pykey) (v0 v : V) (d : list (pykey * V)) :
  distinct_keys d ->
  In (k0, v0) (dict_set k v d) ->
  (key_eqb k0 k = true /\ v0 = v) \/ (key_eqb k0 k = false /\ In (k0, v0) d).
Proof.
  unfold distinct_keys, dict_keys.
  induction d as [|[k1 v1] d IH]; simpl; intros Hd Hin.
  - destruct Hin as [Heq | []]. inversion Heq; subst. left. split; [apply key_eqb_refl | reflexivity].
  - inversion Hd as [|? ? Hnotin Hd']; subst.
    destruct (key_eqb k1 k) eqn:Hk1.
    + destruct Hin as [Heq | Hin].
      * inversion Heq; subst. left. split; [exact Hk1 | reflexivity].
      * right. split; [|right; exact Hin].
        apply key_eqb_false_norm. intros Hn. apply Hnotin.
        apply key_eqb_norm in Hk1. rewrite Hk1, <- Hn.
        apply in_map. change k0 with (fst (k0, v0)). now apply in_map.
    + destruct Hin as [Heq | Hin].
      * inversion Heq; subst. right. split; [exact Hk1 | left; reflexivity].
      * destruct (IH Hd' Hin) as [H | [H1 H2]]; [left; exact H | right; split; auto].
Qed.
End Dicts.

(* ===================================================================== *)
(** * Dict comprehensions *)
(* ===================================================================== *)

Module Catalogs.
Import Py Transport Bridge MCP_Bridge_Tool Spec Vocabulary Dicts.

Section Build.

Variables (X V : Type) (kf : X -> pykey) (vf : X -> V).

Lemma build_snoc (l : list X) (x : X) (acc : list (pykey * V)) :
  build kf vf (l ++ [x]) acc = dict_set (kf x) (vf x) (build kf vf l acc).
Proof. unfold build. now rewrite fold_left_app. Qed.

Lemma build_mem (q : pykey) (l : list X) :
  forall acc,
    dict_mem q (build kf vf l acc) = true <->
    dict_mem q acc = true \/ exists x, In x l /\ key_eqb (kf x) q = true.
Proof.
  induction l as [|x l IH]; intros acc; simpl.
  - split; [auto | intros [H | (x & [] & _)]; exact H].
  - change (fold_left _ l (dict_set (kf x) (vf x) acc))
      with (build kf vf l (dict_set (kf x) (vf x) acc)).
    rewrite IH, dict_mem_set, orb_true_iff. split.
    + intros [[H | H] | (y & Hy & Hk)]; eauto.
    + intros [H | (y & [<- | Hy] & Hk)]; eauto.
Qed.

Lemma build_distinct (l : list X) :
  forall acc, distinct_keys acc -> distinct_keys (build kf vf l acc).
Proof.
  induction l as [|x l IH]; intros acc H; simpl; [exact H|].
  apply IH, distinct_keys_set, H.
Qed.

Lemma build_length (l : list X) :
  forall acc, length (build kf vf l acc) <= length acc + length l.
Proof.
  induction l as [|x l IH]; intros acc; simpl; [lia|].
  change (fold_left _ l (dict_set (kf x) (vf x) acc))
    with (build kf vf l (dict_set (kf x) (vf x) acc)).
  specialize (IH (dict_set (kf x) (vf x) acc)).
  rewrite length_dict_set in IH. destruct (dict_mem (kf x) acc); lia.
Qed.

Lemma build_keys_fresh (l : list X) :
  forall acc,
    NoDup (map key_norm (dict_keys acc ++ map kf l)) ->
    dict_keys (build kf vf l acc) = (dict_keys acc ++ map kf l)%list.
Proof.
  induction l as [|x l IH]; intros acc H; simpl.
  - now rewrite app_nil_r.
  - change (fold_left _ l (dict_set (kf x) (vf x) acc))
      with (build kf vf l (dict_set (kf x) (vf x) acc)).
    assert (Hx : dict_mem (kf x) acc = false).
    { destruct (dict_mem (kf x) acc) eqn:Hm; [|reflexivity].
      apply dict_mem_norm in Hm. rewrite map_app in H. simpl in H.
      apply NoDup_remove_2 in H. exfalso. apply H.
      apply in_or_app. left. exact Hm. }
    rewrite IH; rewrite dict_keys_set, Hx, <- app_assoc; simpl; [reflexivity | exact H].
Qed.

(** With distinct keys to start from, an entry of the built dict is the
    value of the last element with its key, or an entry of the start that no
    element overwrote. *)
Lemma build_last_wins (k : pykey) (v : V) (l : list X) :
  forall acc,
    distinct_keys acc ->
    In (k, v) (build kf vf l acc) ->
    (exists pre x post,
        l = (pre ++ x :: post)%list /\ key_eqb k (kf x) = true /\ v = vf x /\
        forall y, In y post -> key_eqb k (kf y) = false) \/
    (In (k, v) acc /\ forall y, In y l -> key_eqb k (kf y) = false).
Proof.
  induction l as [|x l IH] using rev_ind; intros acc Hd Hin.
  - right. split; [exact Hin | intros y []].
  - rewrite build_snoc in Hin.
    apply in_dict_set in Hin; [|apply build_distinct, Hd].
    destruct Hin as [[Hk ->] | [Hk Hin]].
    + left. exists l, x, []. repeat split; auto. intros y [].
    + destruct (IH acc Hd Hin) as [(pre & y & post & -> & Hy & -> & Hpost) | [Ha Hl]].
      * left. exists pre, y, (post ++ [x])%list.
        rewrite <- app_assoc. repeat split; auto.
        intros z Hz. apply in_app_or in Hz as [Hz | [<- | []]]; auto.
      * right. split; [exact Ha|].
        intros z Hz. apply in_app_or in Hz as [Hz | [<- | []]]; auto.
Qed.

End Build.

Lemma stdio_catalog_build (tools : list Tool.t) :
  stdio_catalog tools = build (fun t => KStr (Tool.name t)) descriptor_of tools [].
Proof. reflexivity. Qed.

Lemma distinct_nil {V : Type} : distinct_keys (@nil (pykey * V)).
Proof. constructor. Qed.

End Catalogs.

(* ===================================================================== *)
(** * The HTTP tool listing *)
(* ===================================================================== *)

Module HttpCatalogs.
Import Py Transport Bridge MCP_Bridge_Tool Spec Vocabulary Dicts Catalogs.

Lemma http_catalog_items_build (items : list pyval) :
  forall acc,
    (forall item, In item items -> exists k, item_key item = Some k) ->
    http_catalog_items items acc = Some (build key_or_none item_descriptor items acc).
Proof.
  induction items as [|item items IH]; intros acc Hok; [reflexivity|].
  destruct (Hok item (or_introl eq_refl)) as [k Hk].
  assert (Hrest : forall it, In it items -> exists k, item_key it = Some k).
  { intros it Hit. apply Hok. now right. }
  change (build key_or_none item_descriptor (item :: items) acc)
    with (build key_or_none item_descriptor items
            (dict_set (key_or_none item) (item_descriptor item) acc)).
  rewrite <- (IH _ Hrest). unfold key_or_none. rewrite Hk.
  destruct item as [| | | |l|tool]; simpl in Hk; try discriminate.
  simpl. destruct (dict_get "name" tool) as [nm|]; [|discriminate].
  rewrite Hk. reflexivity.
Qed.

Lemma http_catalog_items_some (items : list pyval) :
  forall acc c,
    http_catalog_items items acc = Some c ->
    forall item, In item items -> exists k, item_key item = Some k.
Proof.
  induction items as [|item items IH]; intros acc c H it Hit; [contradiction|].
  simpl in H.
  destruct item as [| | | |l|tool]; try discriminate.
  destruct (dict_get "name" tool) as [nm|] eqn:Hnm; [|discriminate].
  destruct (to_key nm) as [k|] eqn:Hk; [|discriminate].
  destruct Hit as [<- | Hit].
  - exists k. simpl. now rewrite Hnm.
  - eapply IH; eauto.
Qed.

Lemma http_catalog_items_of (v : pyval) :
  http_catalog v =
  match http_items v with
  | Some items => http_catalog_items items []
  | None => None
  end.
Proof. destruct v; reflexivity. Qed.

End HttpCatalogs.

(* ===================================================================== *)
(** * What the methods leave behind *)
(* ===================================================================== *)

Module Frames.
Import Py Transport Bridge MCP_Bridge_Tool Spec Vocabulary Steps.

Lemma await_char (d : nat) (s : bridge) (r : run) :
  await d (s, r) =
  if in_time d r
  then (Ok tt, (s, set_clock (clock r + Z.of_nat d) r))
  else (Cancelled,
        (s, set_clock (match deadline r with Some T => T | None => 0%Z end) r)).
Proof.
  unfold await, in_time; simpl. destruct (deadline r) as [T|]; [|reflexivity].
  destruct (clock r + Z.of_nat d <? T)%Z; reflexivity.
Qed.

Lemma in_time_lt (d : nat) (r : run) (T : Z) :
  deadline r = Some T -> in_time d r = true -> (clock r + Z.of_nat d < T)%Z.
Proof. unfold in_time. intros ->. apply Z.ltb_lt. Qed.

Ltac case_await :=
  match goal with
  | |- context [await ?d (?s, ?r)] =>
      let H := fresh "Htime" in
      rewrite (await_char d s r); destruct (in_time d r) eqn:H; simpl
  end.

Section Frames.

Variable E : env.

(** A successful attempt leaves the handle of the selected transport, and
    an attempt that runs to its end does not turn the clock back. *)
Lemma connect_frame (s : bridge) (r : run) :
  match connect E s (s, r) with
  | (Ok b, (s', r')) =>
      (b = true -> has_transport s' = true) /\ (clock r <= clock r')%Z
  | _ => True
  end.
Proof.
  unfold connect, has_transport, is_stdio.
  destruct (server_type s =? "stdio")%string eqn:Hst.
  - unfold _connect_stdio, try_except, bind, next_attempt; simpl.
    destruct (stdio_connects E (attempts r)); simpl;
      repeat case_await; simpl; rewrite ?Hst; repeat split; try discriminate; try lia.
  - unfold _connect_http, try_except, bind, next_attempt; simpl.
    destruct (http_connects E (attempts r)) as [e|d e|d data]; simpl;
      repeat case_await; try (destruct (http_catalog data); simpl);
      simpl; rewrite ?Hst; repeat split; try discriminate; try lia.
Qed.

Lemma sleep_char (d : nat) (s : bridge) (r : run) :
  sleep d (s, r) = await d (s, log (EvSleep d) r).
Proof. reflexivity. Qed.

(** The loop, once more: the handle after a success, the time a failure
    takes, and the trace. *)
Lemma reconnect_frame (n : nat) :
  forall (s : bridge) (r : run),
    match reconnect E n (s, r) with
    | (o, (s', r')) =>
        (exists evs, trace r' = (trace r ++ evs)%list /\
           (1 <= n -> exists evs', evs = EvConnect (attempts r) :: evs')) /\
        match o with
        | Ok true => has_transport s' = true
        | Ok false =>
            forall T, deadline r = Some T ->
              (clock r + Z.of_nat n <= clock r')%Z /\
              ((n = 0 /\ clock r' = clock r) \/ (clock r' < T)%Z)
        | _ => True
        end
    end.
Proof.
  induction n as [|n IH]; intros s r.
  - simpl. split.
    + exists []. rewrite app_nil_r. split; [reflexivity | lia].
    + intros T _. split; [lia | left; split; reflexivity].
  - rewrite reconnect_unfold.
    pose proof (connect_frame s r) as Hf.
    destruct (connect_spec E s r) as
      (o & s1 & r1 & Hc & Hcfg & Ha & Hcl & Hcs & Hd & Htr & Ho).
    rewrite Hc in *. destruct o as [[|]|e|].
    + split; [|apply Hf; reflexivity].
      exists [EvConnect (attempts r)]. split; [exact Htr | eauto].
    + destruct Hf as [_ Hck].
      rewrite sleep_char, await_char.
      destruct (in_time 1 (log (EvSleep 1) r1)) eqn:Ht.
      * match goal with |- context [reconnect E n (s1, ?rr)] => set (r2 := rr) end.
        specialize (IH s1 r2).
        destruct (reconnect E n (s1, r2)) as [o' [s' r']].
        destruct IH as [(evs & Hevs & _) Ho'].
        split.
        -- exists (EvConnect (attempts r) :: EvSleep 1 :: evs).
           split; [|eauto]. rewrite Hevs. subst r2; simpl. rewrite Htr.
           rewrite <- !app_assoc. reflexivity.
        -- destruct o' as [[|]|e|]; auto.
           intros T HT.
           assert (HT2 : deadline r2 = Some T) by (subst r2; simpl; congruence).
           destruct (Ho' T HT2) as [Hge Hlt].
           assert (Hin : (clock r1 + 1 < T)%Z).
           { apply (in_time_lt 1 (log (EvSleep 1) r1) T); [simpl; congruence | exact Ht]. }
           subst r2; simpl in Hge, Hlt.
           rewrite Nat2Z.inj_succ.
           split; [lia|]. right.
           destruct Hlt as [[_ Heq] | Hlt]; lia.
      * split; [|exact I].
        exists [EvConnect (attempts r); EvSleep 1]. split; [|eauto].
        simpl. rewrite Htr, <- app_assoc. reflexivity.
    + contradiction.
    + split; [|exact I].
      exists [EvConnect (attempts r)]. split; [exact Htr | eauto].
Qed.

(** The reconnection of [_ensure_connection]: trace, handle and time. *)
Lemma ensure_frame (s : bridge) (r : run) :
  match _ensure_connection E (s, r) with
  | (o, (s', r')) =>
      (exists evs, trace r' = (trace r ++ evs)%list /\
         (_connection_healthy s = false -> 1 <= Z.to_nat (reconnect_attempts s) ->
          exists evs', evs = EvConnect (attempts r) :: evs')) /\
      (handle_inv s -> handle_inv s') /\
      match o with
      | Ok false =>
          forall T, deadline r = Some T ->
            (clock r + Z.of_nat (Z.to_nat (reconnect_attempts s)) <= clock r')%Z /\
            ((Z.to_nat (reconnect_attempts s) = 0 /\ clock r' = clock r) \/
             (clock r' < T)%Z)
      | _ => True
      end
  end.
Proof.
  destruct (ensure_connection_spec E s r) as
    (o & s' & r' & He & Hcfg & Hcl & Hcs & Hd & Ha & Ho).
  rewrite He.
  unfold _ensure_connection, bind, self in He; simpl in He.
  destruct (_connection_healthy s) eqn:Hh.
  - inversion He; subst. split; [|split; auto].
    exists []. rewrite app_nil_r. split; [reflexivity | discriminate].
  - pose proof (reconnect_frame (Z.to_nat (reconnect_attempts s)) s r) as Hf.
    rewrite He in Hf. destruct Hf as [(evs & Hevs & Hfirst) Hf].
    split; [exists evs; split; auto|].
    split.
    + intros _ Hh'. destruct o as [[|]|e|].
      * exact Hf.
      * destruct Ho as (_ & Hf' & _). congruence.
      * contradiction.
      * destruct Ho as (_ & Hf' & _). congruence.
    + destruct o as [[|]|e|]; auto.
Qed.

(** The lookup and the call send at most one call. *)
Lemma dispatch_calls (tool_name : string) (arguments : pydict) (s : bridge) (r : run) :
  match dispatch E tool_name arguments (s, r) with
  | (_, (_, r')) => calls r <= calls r' <= S (calls r)
  end.
Proof.
  unfold dispatch, bind, self, get_server_info, ret, try_except; simpl.
  destruct (dict_mem (KStr tool_name) (_available_tools s)); simpl; [|lia].
  destruct (server_type s =? "stdio")%string.
  - unfold _execute_stdio, bind, self, next_call; simpl.
    destruct (_session s); simpl; [|lia].
    destruct (stdio_calls E (calls r) tool_name arguments) as [d e|d content]; simpl;
      case_await; try lia.
    destruct content as [|[text|cls] rest]; simpl; lia.
  - unfold _execute_http, bind, self, next_call, lift; simpl.
    destruct (_http_client s); simpl; [|lia].
    destruct (http_calls E (calls r) tool_name arguments) as [d e|d data]; simpl;
      case_await; try lia.
    destruct (py_get data "content" (PList [PDict []])) as [e1|content]; simpl; [lia|].
    destruct (py_item0 content) as [e2|first]; simpl; [lia|].
    destruct (py_get first "text" (PDict [])) as [e3|v]; simpl; lia.
Qed.


(** ** The handle of the other transport *)

Lemma connect_other (s : bridge) (r : run) :
  other_handle s (fst (snd (connect E s (s, r)))) .
Proof.
  unfold other_handle, connect. destruct (is_stdio s).
  - unfold _connect_stdio, try_except, bind, next_attempt; simpl.
    destruct (stdio_connects E (attempts r)); simpl;
      repeat case_await; reflexivity.
  - unfold _connect_http, try_except, bind, next_attempt; simpl.
    destruct (http_connects E (attempts r)) as [e|d e|d data]; simpl;
      repeat case_await; try (destruct (http_catalog data); simpl); reflexivity.
Qed.

Lemma other_handle_refl (s : bridge) : other_handle s s.
Proof. unfold other_handle. destruct (is_stdio s); reflexivity. Qed.

Lemma other_handle_trans (s1 s2 s3 : bridge) :
  same_config s1 s2 -> other_handle s1 s2 -> other_handle s2 s3 -> other_handle s1 s3.
Proof.
  intros Hcfg. unfold other_handle. rewrite (is_stdio_same _ _ Hcfg).
  destruct (is_stdio s1); congruence.
Qed.

Lemma reconnect_other (n : nat) :
  forall (s : bridge) (r : run),
    other_handle s (fst (snd (reconnect E n (s, r)))).
Proof.
  induction n as [|n IH]; intros s r.
  - apply other_handle_refl.
  - rewrite reconnect_unfold.
    pose proof (connect_other s r) as Ho.
    destruct (connect_spec E s r) as
      (o & s1 & r1 & Hc & Hcfg & _).
    rewrite Hc in *. simpl in Ho. destruct o as [[|]|e|]; simpl; auto.
    rewrite sleep_char, await_char.
    destruct (in_time 1 (log (EvSleep 1) r1)); simpl; auto.
    eapply other_handle_trans; [exact Hcfg | exact Ho | apply IH].
Qed.

Lemma ensure_other (s : bridge) (r : run) :
  other_handle s (fst (snd (_ensure_connection E (s, r)))).
Proof.
  unfold _ensure_connection, bind, self; simpl.
  destruct (_connection_healthy s).
  - apply other_handle_refl.
  - apply reconnect_other.
Qed.

(** With the tool listed and the handle there, exactly one call is sent. *)
Lemma dispatch_sends (tool_name : string) (arguments : pydict) (s : bridge) (r : run) :
  dict_mem (KStr tool_name) (_available_tools s) = true ->
  has_transport s = true ->
  match dispatch E tool_name arguments (s, r) with
  | (_, (_, r')) =>
      calls r' = S (calls r) /\
      trace r' = (trace r ++ [EvCall tool_name arguments])%list
  end.
Proof.
  intros Hmem Hh.
  unfold dispatch, bind, self, get_server_info, ret, try_except; simpl.
  rewrite Hmem; simpl.
  unfold has_transport, is_stdio in Hh.
  destruct (server_type s =? "stdio")%string.
  - unfold _execute_stdio, bind, self, next_call; simpl.
    destruct (_session s); [|discriminate]; simpl.
    destruct (stdio_calls E (calls r) tool_name arguments) as [d e|d content]; simpl;
      case_await; auto.
    destruct content as [|[text|cls] rest]; simpl; auto.
  - unfold _execute_http, bind, self, next_call, lift; simpl.
    destruct (_http_client s); [|discriminate]; simpl.
    destruct (http_calls E (calls r) tool_name arguments) as [d e|d data]; simpl;
      case_await; auto.
    destruct (py_get data "content" (PList [PDict []])) as [e1|content]; simpl; auto.
    destruct (py_item0 content) as [e2|first]; simpl; auto.
    destruct (py_get first "text" (PDict [])) as [e3|v]; simpl; auto.
Qed.

Lemma other_handle_flag (b : bool) (s s' : bridge) :
  other_handle s s' -> other_handle s (set_connection_healthy b s').
Proof. unfold other_handle. destruct (is_stdio s); simpl; auto. Qed.

Lemma handle_inv_unhealthy (s : bridge) : handle_inv (set_connection_healthy false s).
Proof. intros H. discriminate H. Qed.

(** What a call leaves behind, whatever it returns. *)
Lemma execute_frame (tool_name : string) (arguments : option pydict)
    (timeout_opt : option Z) (s : bridge) (r : run) :
  exists x s' r',
    execute E tool_name arguments timeout_opt (s, r)
      = (Ok (result_at tool_name (exec_timeout s timeout_opt) s' x), (s', r')) /\
    same_config s s' /\
    other_handle s s' /\
    attempts r <= attempts r' <= attempts r + Z.to_nat (reconnect_attempts s) /\
    calls r <= calls r' <= S (calls r) /\
    closes r' = closes r /\
    (_connection_healthy s = true -> attempts r' = attempts r) /\
    (handle_inv s -> handle_inv s') /\
    (exists evs, trace r' = (trace r ++ evs)%list /\
       (_connection_healthy s = false -> 1 <= Z.to_nat (reconnect_attempts s) ->
        (0 < exec_timeout s timeout_opt)%Z ->
        exists evs', evs = EvConnect (attempts r) :: evs')) /\
    match x with
    | ExitConnectionFailed =>
        calls r' = calls r /\
        (0 < exec_timeout s timeout_opt)%Z /\
        (1 <= Z.to_nat (reconnect_attempts s) ->
         (Z.of_nat (Z.to_nat (reconnect_attempts s)) < exec_timeout s timeout_opt)%Z)
    | ExitUnknownTool => calls r' = calls r
    | ExitTimeout => True
    | ExitExecutionError _ => handle_inv s -> calls r' = S (calls r)
    | ExitSuccess _ => calls r' = S (calls r)
    end.
Proof.
  rewrite execute_unfold. cbv zeta.
  destruct (exec_timeout s timeout_opt <=? 0)%Z eqn:HT.
  { apply Z.leb_le in HT.
    exists ExitTimeout, s, (set_deadline None (set_clock 0 r)).
    split; [reflexivity|]. simpl.
    split; [apply same_config_refl|]. split; [apply other_handle_refl|].
    repeat split; auto; try lia.
    exists []. rewrite app_nil_r. split; [reflexivity | lia]. }
  apply Z.leb_gt in HT.
  rewrite execute_async_unfold.
  set (T := exec_timeout s timeout_opt) in *.
  set (r0 := start_run T r).
  pose proof (ensure_frame s r0) as Hf.
  pose proof (ensure_other s r0) as Hoth.
  destruct (ensure_connection_spec E s r0) as
    (o & s1 & r1 & He & Hcfg & Hcl & Hcs & Hd & Ha & Ho).
  rewrite He in *. destruct Hf as [(evs & Hevs & Hfirst) [Hinv Hfail]].
  simpl in Hevs, Ha, Hcl, Hcs, Hoth.
  destruct o as [[|]|e|].
  - destruct Ho as [Hh1 Hsame].
    pose proof (dispatch_calls tool_name (normalize arguments) s1 r1) as Hcalls.
    pose proof (dispatch_sends tool_name (normalize arguments) s1 r1) as Hsends.
    destruct (dispatch_spec E tool_name (normalize arguments) s1 r1) as
      (o & s2 & r2 & Hdsp & Ha2 & Hcs2 & Hd2 & Htr2 & Hpost).
    rewrite Hdsp in *. unfold dispatch_post in Hpost.
    assert (Htrace : exists evs0, trace r2 = (trace r ++ evs0)%list /\
       (_connection_healthy s = false -> 1 <= Z.to_nat (reconnect_attempts s) ->
        (0 < T)%Z -> exists evs', evs0 = EvConnect (attempts r) :: evs')).
    { destruct Htr2 as [-> | ->]; rewrite Hevs.
      - exists evs. split; [reflexivity|]. intros; auto.
      - exists (evs ++ [EvCall tool_name (normalize arguments)])%list.
        rewrite <- app_assoc. split; [reflexivity|].
        intros Hh Hn _. destruct (Hfirst Hh Hn) as [evs' ->]. simpl. eauto. }
    assert (Hatt : _connection_healthy s = true -> attempts r2 = attempts r).
    { intros Hh. destruct (Hsame Hh) as [_ ->]. rewrite Ha2. reflexivity. }
    destruct o as [[v nm i|msg nm i]|e|].
    + destruct Hpost as (-> & -> & -> & _ & Hc2 & _).
      exists (ExitSuccess v), s1, (set_deadline None r2). simpl.
      split; [reflexivity|]. split; [exact Hcfg|]. split; [exact Hoth|].
      repeat split; auto; try lia.
    + destruct Hpost as (-> & -> & [(Hmem & -> & -> & ->) | (Hmem & [e ->] & ->)]).
      * exists ExitUnknownTool, s1, (set_deadline None r1). simpl.
        split; [reflexivity|]. split; [exact Hcfg|]. split; [exact Hoth|].
        repeat split; auto; try lia.
      * exists (ExitExecutionError e), (set_connection_healthy false s1),
          (set_deadline None r2). simpl.
        split; [reflexivity|]. split; [exact Hcfg|].
        split; [apply other_handle_flag, Hoth|].
        repeat split; auto using handle_inv_unhealthy; try lia.
        intros Hinv0. destruct (Hsends Hmem (Hinv Hinv0 Hh1)) as [Hc _]. lia.
    + contradiction.
    + destruct Hpost as [-> _].
      exists ExitTimeout, s1, (set_deadline None r2). simpl.
      split; [reflexivity|]. split; [exact Hcfg|]. split; [exact Hoth|].
      repeat split; auto; try lia.
  - destruct Ho as (Hh & Hh1 & Hcat & Ha1).
    exists ExitConnectionFailed, s1, (set_deadline None r1). simpl.
    split; [reflexivity|].
    destruct (Hfail T eq_refl) as [Hge Hlt]. simpl in Hge.
    split; [exact Hcfg|]. split; [exact Hoth|].
    repeat split; auto; try lia; try congruence.
    exists evs. split; [exact Hevs | intros; auto].
  - contradiction.
  - destruct Ho as (Hh & Hh1 & Hcat).
    exists ExitTimeout, s1, (set_deadline None r1). simpl.
    split; [reflexivity|]. split; [exact Hcfg|]. split; [exact Hoth|].
    repeat split; auto; try lia; try congruence.
    exists evs. split; [exact Hevs | intros; auto].
Qed.

End Frames.
End Frames.

(* ===================================================================== *)
(** * Sequences of method calls *)
(* ===================================================================== *)

Module Lifecycles.
Import Py Transport Bridge MCP_Bridge_Tool Spec Vocabulary Steps Frames.

Section Lifecycles.

Variable E : env.

(** A loop that gives up has slept after every attempt, the last one
    included. *)
Lemma reconnect_false_trace (n : nat) :
  forall (s : bridge) (r : run) (s' : bridge) (r' : run),
    reconnect E n (s, r) = (Ok false, (s', r')) ->
    trace r' = (trace r ++ retry_trace (attempts r) n)%list.
Proof.
  induction n as [|n IH]; intros s r s' r' H.
  - simpl in H. inversion H; subst. simpl. now rewrite app_nil_r.
  - rewrite reconnect_unfold in H.
    destruct (connect_spec E s r) as
      (o & s1 & r1 & Hc & Hcfg & Ha & Hcl & Hcs & Hd & Htr & Ho).
    rewrite Hc in H. destruct o as [[|]|e|]; try discriminate.
    rewrite sleep_char, await_char in H.
    destruct (in_time 1 (log (EvSleep 1) r1)); [|discriminate].
    apply IH in H. rewrite H. simpl. rewrite Htr, Ha, <- !app_assoc. reflexivity.
Qed.

(** What [close] does, in one equation per way out. *)
Lemma close_cases (s : bridge) (r : run) :
  (close E (s, r) = (Ok tt, (set_connection_healthy false s, closed_run s r)) /\
   (_http_client s = None \/ http_closes E (closes r) = None)) \/
  (exists h e,
     close E (s, r) = (Raise e, (s, closed_run s r)) /\
     _http_client s = Some h /\ http_closes E (closes r) = Some e).
Proof.
  unfold close, closed_run, bind, self, asyncio_run, aclose, assign, ret; simpl.
  destruct (_http_client s) as [h|]; simpl; [|left; auto].
  destruct (http_closes E (closes r)) as [e|]; [right | left; auto].
  exists h, e. auto.
Qed.

Lemma unused_handle_step (s s' : bridge) :
  same_config s s' -> other_handle s s' -> unused_handle s -> unused_handle s'.
Proof.
  intros Hcfg. unfold other_handle, unused_handle.
  rewrite (is_stdio_same _ _ Hcfg). destruct (is_stdio s); congruence.
Qed.

(** One method call on a bridge that holds only the handle of its own
    transport, and holds it when it is healthy. *)
Lemma apply_op_inv (o : op) (s : bridge) (r : run) :
  handle_inv s -> unused_handle s ->
  match apply_op E o (s, r) with
  | (s', r') =>
      same_config s s' /\ handle_inv s' /\ unused_handle s' /\
      attempts r' <= attempts r
                     + (if is_execute o then Z.to_nat (reconnect_attempts s) else 0) /\
      calls r' <= calls r + (if is_execute o then 1 else 0) /\
      closes r' <= closes r + (if is_close o then 1 else 0) /\
      (is_stdio s = true -> closes r' = closes r)
  end.
Proof.
  intros Hinv Hun. destruct o as [tool_name arguments timeout_opt| | |]; simpl.
  - destruct (execute_frame E tool_name arguments timeout_opt s r) as
      (x & s' & r' & He & Hcfg & Hoth & Ha & Hc & Hcl & _ & Hinv' & _).
    rewrite He. simpl.
    split; [exact Hcfg|]. split; [auto|].
    split; [eapply unused_handle_step; eauto|].
    repeat split; try lia.
  - repeat split; auto using same_config_refl; lia.
  - repeat split; auto using same_config_refl; lia.
  - destruct (close_cases s r) as [[Hc _] | (h & e & Hc & Hh & _)]; rewrite Hc; simpl.
    + split; [repeat split|]. split; [apply handle_inv_unhealthy|].
      split; [exact Hun|].
      unfold closed_run. unfold unused_handle in Hun.
      destruct (_http_client s) as [h|] eqn:Hh; simpl; repeat split; try lia.
      intros Hs. rewrite Hs in Hun. discriminate.
    + split; [apply same_config_refl|]. split; [exact Hinv|]. split; [exact Hun|].
      unfold closed_run. rewrite Hh. simpl. repeat split; try lia.
      intros Hs. unfold unused_handle in Hun. rewrite Hs in Hun. congruence.
Qed.

(** Any sequence of method calls. *)
Lemma run_ops_inv (ops : list op) :
  forall (s : bridge) (r : run),
    handle_inv s -> unused_handle s ->
    match run_ops E ops (s, r) with
    | (s', r') =>
        same_config s s' /\ handle_inv s' /\ unused_handle s' /\
        attempts r' <= attempts r
                       + length (filter is_execute ops) * Z.to_nat (reconnect_attempts s) /\
        calls r' <= calls r + length (filter is_execute ops) /\
        closes r' <= closes r + length (filter is_close ops) /\
        (is_stdio s = true -> closes r' = closes r)
    end.
Proof.
  induction ops as [|o ops IH]; intros s r Hinv Hun.
  - simpl. repeat split; auto; lia.
  - change (run_ops E (o :: ops) (s, r)) with (run_ops E ops (apply_op E o (s, r))).
    pose proof (apply_op_inv o s r Hinv Hun) as H1.
    destruct (apply_op E o (s, r)) as [s1 r1].
    destruct H1 as (Hcfg & Hinv1 & Hun1 & Ha & Hc & Hcl & Hst).
    specialize (IH s1 r1 Hinv1 Hun1).
    destruct (run_ops E ops (s1, r1)) as [s' r'].
    destruct IH as (Hcfg' & Hinv' & Hun' & Ha' & Hc' & Hcl' & Hst').
    assert (Hn : reconnect_attempts s1 = reconnect_attempts s) by apply Hcfg.
    rewrite Hn in Ha'. rewrite (is_stdio_same _ _ Hcfg) in Hst'.
    split; [eapply same_config_trans; eauto|].
    split; [exact Hinv'|]. split; [exact Hun'|].
    simpl. destruct (is_execute o), (is_close o); simpl;
      repeat split; try lia; intros Hs; rewrite (Hst' Hs); auto.
Qed.

Lemma init_cases (type : string) (command : option string) (args : list string)
    (url : option string) (tmo attempts : Z) (s : bridge) :
  init_from_fields E type command args url tmo attempts = Ok s ->
  s = new_bridge type command args url tmo attempts /\
  ((type = "stdio" /\ MCP_STDIO_AVAILABLE E = true /\ falsy command = false) \/
   (type = "http" /\ MCP_HTTP_AVAILABLE E = true /\ falsy url = false)).
Proof.
  unfold init_from_fields, _validate_config, bind, self, raise, ret; simpl.
  destruct (type =? "stdio")%string eqn:Hs.
  - apply String.eqb_eq in Hs.
    destruct (MCP_STDIO_AVAILABLE E); simpl; [|discriminate].
    destruct (falsy command); simpl; [discriminate|].
    intros H; inversion H. auto.
  - destruct (type =? "http")%string eqn:Hh; [|discriminate].
    apply String.eqb_eq in Hh.
    destruct (MCP_HTTP_AVAILABLE E); simpl; [|discriminate].
    destruct (falsy url); simpl; [discriminate|].
    intros H; inversion H. auto.
Qed.

End Lifecycles.
End Lifecycles.

(* ===================================================================== *)
(** * The constructor *)
(* ===================================================================== *)

Module Constructions.
Import Py Transport Bridge MCP_Bridge_Tool Spec Builtins Construction Examples Steps Lifecycles.

Lemma lower_char_cases (c : ascii) :
  lower_char c = c \/
  (65 <= nat_of_ascii c <= 90 /\ nat_of_ascii (lower_char c) = nat_of_ascii c + 32) \/
  128 <= nat_of_ascii (lower_char c).
Proof.
  unfold lower_char. cbv zeta. pose proof (nat_ascii_bounded c) as Hb.
  set (n := nat_of_ascii c) in *.
  destruct (Nat.leb 65 n && Nat.leb n 90) eqn:H1.
  - rewrite orb_true_l.
    apply andb_true_iff in H1 as [Ha Hz].
    apply Nat.leb_le in Ha, Hz. right. left.
    rewrite nat_ascii_embedding by lia. lia.
  - rewrite orb_false_l.
    destruct (Nat.leb 192 n && Nat.leb n 222 && negb (Nat.eqb n 215)) eqn:H2;
      [|left; reflexivity].
    apply andb_true_iff in H2 as [H2 _]. apply andb_true_iff in H2 as [Ha Hz].
    apply Nat.leb_le in Ha, Hz. right. right.
    rewrite nat_ascii_embedding by lia. lia.
Qed.

(** Only the case of ASCII letters separates a string from an ASCII string
    it lowers to. *)
Lemma lower_variant (v : string) :
  forall t,
    str_lower v = t ->
    Forall (fun d => nat_of_ascii d < 128) (list_ascii_of_string t) ->
    ascii_case_variant v t.
Proof.
  unfold ascii_case_variant.
  induction v as [|c v IH]; intros t <- Ha; simpl; [constructor|].
  simpl in Ha. inversion Ha as [|d l Hd Hl]; subst.
  constructor; [|apply IH; [reflexivity | exact Hl]].
  destruct (lower_char_cases c) as [H | [[Hc Hn] | H]]; [left; congruence | right; lia | lia].
Qed.

Lemma in_chars_append (a b : string) (c : ascii) :
  In c (list_ascii_of_string (a ++ b)) ->
  In c (list_ascii_of_string a) \/ In c (list_ascii_of_string b).
Proof.
  induction a as [|x a IH]; simpl; [auto|].
  intros [H | H]; [auto | destruct (IH H); auto].
Qed.

(** [split] gives words. *)
Lemma split_words_words (s : string) :
  forall word,
    (forall c, In c (list_ascii_of_string word) -> isspace c = false) ->
    Forall is_word (split_words s word).
Proof.
  induction s as [|c s IH]; intros word Hw; simpl.
  - destruct word as [|x w]; constructor; [|constructor].
    split; [discriminate | exact Hw].
  - destruct (isspace c) eqn:Hc.
    + destruct word as [|x w].
      * apply IH. intros ? [].
      * constructor; [split; [discriminate | exact Hw]|].
        apply IH. intros ? [].
    + apply IH. intros x Hx. apply in_chars_append in Hx as [Hx | [<- | []]]; auto.
Qed.

Lemma split_words_of (s : string) : Forall is_word (str_split s).
Proof. apply split_words_words. intros ? []. Qed.

(** What the constructor hands to [init_from_fields]. *)
Lemma init_unfold (E : env) (P : interpreter) :
  __init__ E P =
  match base_tool_init P with
  | Some e => Raise e
  | None =>
      match parse_int (int_max_str_digits P) (getenv P "MCP_SERVER_TIMEOUT" "30") with
      | None =>
          Raise (mk_exn ValueError (int_error_text P (getenv P "MCP_SERVER_TIMEOUT" "30")))
      | Some tmo =>
          match parse_int (int_max_str_digits P) (getenv P "MCP_RECONNECT_ATTEMPTS" "3") with
          | None =>
              Raise (mk_exn ValueError
                       (int_error_text P (getenv P "MCP_RECONNECT_ATTEMPTS" "3")))
          | Some attempts =>
              init_from_fields E (str_lower (getenv P "MCP_SERVER_TYPE" "stdio"))
                (environ P "MCP_SERVER_COMMAND")
                (str_split (getenv P "MCP_SERVER_ARGS" EmptyString))
                (environ P "MCP_SERVER_URL") tmo attempts
          end
      end
  end.
Proof.
  unfold __init__, py_int. destruct (base_tool_init P); [reflexivity|].
  destruct (parse_int _ (getenv P "MCP_SERVER_TIMEOUT" "30")); [|reflexivity].
  destruct (parse_int _ (getenv P "MCP_RECONNECT_ATTEMPTS" "3")); reflexivity.
Qed.

Lemma init_from_fields_accepts (E : env) (type : string) (command : option string)
    (args : list string) (url : option string) (tmo attempts : Z) :
  (type = "stdio" /\ MCP_STDIO_AVAILABLE E = true /\ falsy command = false) \/
  (type = "http" /\ MCP_HTTP_AVAILABLE E = true /\ falsy url = false) ->
  init_from_fields E type command args url tmo attempts
  = Ok (new_bridge type command args url tmo attempts).
Proof.
  intros [(-> & Ha & Hc) | (-> & Ha & Hu)];
    unfold init_from_fields, _validate_config, bind, self, raise, ret; simpl.
  - rewrite Ha, Hc. reflexivity.
  - rewrite Ha, Hu. reflexivity.
Qed.

Lemma init_from_fields_never_cancelled (E : env) (type : string)
    (command : option string) (args : list string) (url : option string)
    (tmo attempts : Z) :
  init_from_fields E type command args url tmo attempts <> Cancelled.
Proof.
  unfold init_from_fields, _validate_config, bind, self, raise, ret; simpl.
  destruct (type =? "stdio")%string.
  - destruct (MCP_STDIO_AVAILABLE E); simpl; [|discriminate].
    destruct (falsy command); discriminate.
  - destruct (type =? "http")%string; [|discriminate].
    destruct (MCP_HTTP_AVAILABLE E); simpl; [|discriminate].
    destruct (falsy url); discriminate.
Qed.

End Constructions.

(* ===================================================================== *)
(** * One call, read two ways *)
(* ===================================================================== *)

Module Calls.
Import Py Transport Bridge MCP_Bridge_Tool Spec Vocabulary Text Steps Frames.

(** Two readings of one call agree on the final state and on the return
    statement taken. *)
Lemma result_at_kind (tool_name : string) (T : Z) (s : bridge) (x1 x2 : exit) :
  result_at tool_name T s x1 = result_at tool_name T s x2 -> exit_kind x1 = exit_kind x2.
Proof.
  intros H. rewrite <- !(error_kind_result_at tool_name T s). now rewrite H.
Qed.

Lemma execute_agree (E : env) (tool_name : string) (arguments : option pydict)
    (timeout_opt : option Z) (s : bridge) (r : run)
    (x1 x2 : exit) (s1 s2 : bridge) (r1 r2 : run) :
  execute E tool_name arguments timeout_opt (s, r)
    = (Ok (result_at tool_name (exec_timeout s timeout_opt) s1 x1), (s1, r1)) ->
  execute E tool_name arguments timeout_opt (s, r)
    = (Ok (result_at tool_name (exec_timeout s timeout_opt) s2 x2), (s2, r2)) ->
  s1 = s2 /\ r1 = r2 /\ exit_kind x1 = exit_kind x2.
Proof.
  intros H1 H2. rewrite H1 in H2. injection H2 as Hres Hs Hr. subst s2 r2.
  repeat split. eapply result_at_kind, Hres.
Qed.

(** Failed attempts end with a sleep; what comes before it is attempts with
    a sleep between them. *)
Lemma retry_trace_last (n : nat) :
  forall a, last (retry_trace a (S n)) (EvSleep 1) = EvSleep 1.
Proof.
  induction n as [|n IH]; intros a; [reflexivity|].
  change (retry_trace a (S (S n)))
    with (EvConnect a :: EvSleep 1 :: retry_trace (S a) (S n)).
  specialize (IH (S a)).
  destruct (retry_trace (S a) (S n)) as [|ev l] eqn:Hl; [discriminate Hl|].
  exact IH.
Qed.

Lemma retry_trace_between (a n : nat) :
  exists tail,
    retry_trace a n = (removelast (retry_trace a n) ++ tail)%list /\
    forall ev, In ev tail -> ev = EvSleep 1.
Proof.
  destruct n as [|n].
  - exists []. split; [reflexivity | intros ev []].
  - exists [EvSleep 1]. split.
    + pose proof (app_removelast_last (l := retry_trace a (S n)) (EvSleep 1)) as H.
      rewrite retry_trace_last in H. apply H. discriminate.
    + intros ev [<- | []]. reflexivity.
Qed.

(** The transport call of a listed tool under a deadline: cut when the
    answer comes too late, a success when a value can be read from it, an
    execution error otherwise, and an execution error without any call when
    the handle is missing. *)
Lemma dispatch_cases (E : env) (tool_name : string) (arguments : pydict)
    (s : bridge) (r : run) (T : Z) :
  deadline r = Some T ->
  dict_mem (KStr tool_name) (_available_tools s) = true ->
  exists r',
    if has_transport s then
      if (clock r + Z.of_nat (call_time E (is_stdio s) (calls r) tool_name arguments) <? T)%Z
      then
        match call_value E (is_stdio s) (calls r) tool_name arguments with
        | Some v =>
            dispatch E tool_name arguments (s, r)
            = (Ok (Success v tool_name (server_info_of s)), (s, r'))
        | None =>
            exists e,
              dispatch E tool_name arguments (s, r)
              = (Ok (Failure (execution_error_message e) tool_name
                       (server_info_of (set_connection_healthy false s))),
                 (set_connection_healthy false s, r'))
        end
      else dispatch E tool_name arguments (s, r) = (Cancelled, (s, r'))
    else
      exists e,
        dispatch E tool_name arguments (s, r)
        = (Ok (Failure (execution_error_message e) tool_name
                 (server_info_of (set_connection_healthy false s))),
           (set_connection_healthy false s, r')).
Proof.
  intros Hd Hmem.
  unfold dispatch, bind, self, get_server_info, ret, try_except; simpl.
  rewrite Hmem; simpl.
  unfold has_transport, call_time, call_value, is_stdio.
  destruct (server_type s =? "stdio")%string eqn:Hst.
  - unfold _execute_stdio, bind, self, next_call; simpl.
    destruct (_session s); simpl; [|eauto].
    destruct (stdio_calls E (calls r) tool_name arguments) as [d e|d content]; simpl;
      rewrite await_char; unfold in_time; simpl; rewrite Hd;
      destruct (clock r + Z.of_nat d <? T)%Z; simpl; eauto.
    destruct content as [|[text|cls] rest]; simpl; eauto.
  - unfold _execute_http, bind, self, next_call, lift; simpl.
    destruct (_http_client s); simpl; [|eauto].
    destruct (http_calls E (calls r) tool_name arguments) as [d e|d data]; simpl;
      rewrite await_char; unfold in_time; simpl; rewrite Hd;
      destruct (clock r + Z.of_nat d <? T)%Z; simpl; eauto.
    destruct (py_get data "content" (PList [PDict []])) as [e1|content]; simpl; eauto.
    destruct (py_item0 content) as [e2|first]; simpl; eauto.
    destruct (py_get first "text" (PDict [])) as [e3|v]; simpl; eauto.
Qed.

End Calls.

(* ===================================================================== *)
(** * The properties of the bridge *)
(* ===================================================================== *)

Module Claims.
Import Py Transport Bridge MCP_Bridge_Tool Spec Examples Text Steps Frames Calls.

(** ** Bounded reconnection *)

(** With the server down, 3 attempts allowed and a timeout of 5, the
    deadline expires during the second handshake: the call ends after 2
    attempts, as a timeout and not as a connection failure. *)
Lemma C1_deadline_cuts_reconnection :
  let s := stdio_bridge 5 3 in
  let '(o, (s', r')) := execute down_server "echo" None None (s, run0) in
  _connection_healthy s = false /\
  reconnect_attempts s = 3%Z /\
  (forall i, attempt_ok down_server (is_stdio s) i = false) /\
  o = Ok (Failure "Tool execution timed out after 5 seconds" "echo"
            (mk_info "stdio" false 0 (Some "echo-server") None 5)) /\
  error_kind_of (Failure "Tool execution timed out after 5 seconds" "echo"
                   (mk_info "stdio" false 0 (Some "echo-server") None 5))
    <> Some ConnectionFailed /\
  attempts r' = 2 /\
  trace r' = [EvConnect 0; EvSleep 1; EvConnect 1].
Proof. vm_compute. repeat split. discriminate. Qed.

(** The run of the loop when the deadline leaves time: k attempts fail and,
    when k is below the maximum, the next one succeeds, and the time of
    these attempts with one time unit after each failed one stays below the
    effective timeout. *)
Lemma reconnect_attempts_in_time (E : env) (tool_name : string)
    (arguments : option pydict) (timeout_opt : option Z) (s : bridge) (r : run)
    (k : nat) :
  _connection_healthy s = false ->
  k <= Z.to_nat (reconnect_attempts s) ->
  (forall i, i < k -> attempt_ok E (is_stdio s) (attempts r + i) = false) ->
  (k < Z.to_nat (reconnect_attempts s) ->
   attempt_ok E (is_stdio s) (attempts r + k) = true) ->
  (Z.of_nat (retry_time E (is_stdio s) (attempts r) k
             + (if Nat.ltb k (Z.to_nat (reconnect_attempts s))
                then attempt_time E (is_stdio s) (attempts r + k) else 0))
   < exec_timeout s timeout_opt)%Z ->
  exists x s' r' rest,
    execute E tool_name arguments timeout_opt (s, r)
      = (Ok (result_at tool_name (exec_timeout s timeout_opt) s' x), (s', r')) /\
    trace r' = (trace r ++ retry_trace (attempts r) k ++ rest)%list /\
    (k = Z.to_nat (reconnect_attempts s) ->
     x = ExitConnectionFailed /\ _connection_healthy s' = false /\
     attempts r' = attempts r + Z.to_nat (reconnect_attempts s) /\ rest = []) /\
    (k < Z.to_nat (reconnect_attempts s) ->
     exit_kind x <> Some ConnectionFailed /\
     attempts r' = attempts r + S k /\
     (rest = [EvConnect (attempts r + k)] \/
      rest = [EvConnect (attempts r + k); EvCall tool_name (normalize arguments)])).
Proof.
  intros Hh Hk Hfail Hok Htime.
  set (T := exec_timeout s timeout_opt) in *.
  set (n := Z.to_nat (reconnect_attempts s)) in *.
  assert (HT : (0 < T)%Z) by lia.
  rewrite execute_unfold. cbv zeta. fold T.
  apply Z.ltb_lt in HT. rewrite Z.leb_antisym, HT. simpl.
  rewrite execute_async_unfold.
  unfold _ensure_connection, bind, self at 1. simpl. rewrite Hh. fold n.
  destruct (Nat.ltb_spec k n) as [Hlt | Hge].
  - (* the attempt after k failures succeeds *)
    destruct (reconnect_first_success E T k n s (start_run T r)) as
      (s1 & r1 & Hr & Hcfg & Hh1 & Ha & Hcl & Hcs & Hd & Htr); simpl; auto.
    rewrite Hr.
    destruct (dispatch_spec E tool_name (normalize arguments) s1 r1) as
      (o & s2 & r2 & Hdsp & Ha2 & Hcs2 & Hd2 & Htr2 & Hpost).
    rewrite Hdsp. simpl in Ha, Htr.
    assert (Hrest :
      exists rest, trace r2 = (trace r ++ retry_trace (attempts r) k ++ rest)%list /\
        (rest = [EvConnect (attempts r + k)] \/
         rest = [EvConnect (attempts r + k); EvCall tool_name (normalize arguments)])).
    { destruct Htr2 as [-> | ->]; rewrite Htr.
      - eexists. split; [reflexivity | left; reflexivity].
      - eexists. rewrite <- !app_assoc. split; [reflexivity | right; reflexivity]. }
    destruct Hrest as (rest & Hrest & Hshape).
    unfold dispatch_post in Hpost.
    destruct o as [[v nm i|msg nm i]|e|].
    + destruct Hpost as (-> & -> & -> & _).
      exists (ExitSuccess v), s1, (set_deadline None r2), rest.
      split; [reflexivity|]. split; [exact Hrest|].
      split; [lia|]. intros _. simpl. repeat split; try discriminate; try lia; auto.
    + destruct Hpost as (-> & -> & [(Hmem & -> & -> & ->) | (Hmem & [e ->] & ->)]).
      * exists ExitUnknownTool, s1, (set_deadline None r1), rest.
        split; [reflexivity|]. split; [exact Hrest|].
        split; [lia|]. intros _. simpl. repeat split; try discriminate; try lia; auto.
      * exists (ExitExecutionError e), (set_connection_healthy false s1),
          (set_deadline None r2), rest.
        split; [reflexivity|]. split; [exact Hrest|].
        split; [lia|]. intros _. simpl. repeat split; try discriminate; try lia; auto.
    + contradiction.
    + destruct Hpost as [-> _].
      exists ExitTimeout, s1, (set_deadline None r2), rest.
      split; [reflexivity|]. split; [exact Hrest|].
      split; [lia|]. intros _. simpl. repeat split; try discriminate; try lia; auto.
  - (* every attempt fails *)
    assert (k = n) by lia. subst k.
    rewrite Nat.add_0_r in Htime.
    destruct (reconnect_all_fail E T n s (start_run T r)) as
      (s1 & r1 & Hr & Hcfg & Hh1 & Hcat & Ha & Hcl & Hcs & Hd & Hck & Htr); simpl; auto.
    rewrite Hr. simpl in Ha, Htr.
    exists ExitConnectionFailed, s1, (set_deadline None r1), [].
    split; [reflexivity|]. simpl. rewrite app_nil_r.
    split; [exact Htr|]. split; [auto | lia].
Qed.

(** C1, amended.  From an unhealthy state [execute] never makes more
    connect attempts than the maximum, and it returns the connection failure
    only after exactly that many, with the flag unhealthy.  All of it runs
    under the effective timeout of the call.  Let k attempts fail and, when
    k is below the maximum, the next one succeed, and let the deadline leave
    time for these attempts and for one time unit after each failed one.
    Then the attempts are made in order with a sleep of 1 between them; if k
    is the maximum the call returns the connection failure after exactly
    that many attempts, and otherwise it stops connecting after k + 1
    attempts and goes on to the tool lookup. *)
Theorem C1_reconnect_attempts (E : env) (tool_name : string)
    (arguments : option pydict) (timeout_opt : option Z) (s : bridge) (r : run) :
  _connection_healthy s = false ->
  exists x s' r',
    execute E tool_name arguments timeout_opt (s, r)
      = (Ok (result_at tool_name (exec_timeout s timeout_opt) s' x), (s', r')) /\
    attempts r <= attempts r' <= attempts r + Z.to_nat (reconnect_attempts s) /\
    (x = ExitConnectionFailed ->
     attempts r' = attempts r + Z.to_nat (reconnect_attempts s) /\
     _connection_healthy s' = false) /\
    forall k : nat,
      k <= Z.to_nat (reconnect_attempts s) ->
      (forall i, i < k -> attempt_ok E (is_stdio s) (attempts r + i) = false) ->
      (k < Z.to_nat (reconnect_attempts s) ->
       attempt_ok E (is_stdio s) (attempts r + k) = true) ->
      (Z.of_nat (retry_time E (is_stdio s) (attempts r) k
                 + (if Nat.ltb k (Z.to_nat (reconnect_attempts s))
                    then attempt_time E (is_stdio s) (attempts r + k) else 0))
       < exec_timeout s timeout_opt)%Z ->
      (k = Z.to_nat (reconnect_attempts s) ->
       x = ExitConnectionFailed /\ _connection_healthy s' = false /\
       attempts r' = attempts r + Z.to_nat (reconnect_attempts s) /\
       exists tail,
         trace r' = (trace r ++ removelast (retry_trace (attempts r) k) ++ tail)%list /\
         forall ev, In ev tail -> ev = EvSleep 1) /\
      (k < Z.to_nat (reconnect_attempts s) ->
       exit_kind x <> Some ConnectionFailed /\
       attempts r' = attempts r + S k /\
       exists rest,
         trace r' = (trace r ++ retry_trace (attempts r) k ++ rest)%list /\
         (rest = [EvConnect (attempts r + k)] \/
          rest = [EvConnect (attempts r + k); EvCall tool_name (normalize arguments)])).
Proof.
  intros Hh.
  destruct (execute_frame E tool_name arguments timeout_opt s r) as
    (x & s' & r' & He & _ & _ & Ha & _).
  destruct (execute_spec E tool_name arguments timeout_opt s r) as
    (x1 & s1 & r1 & He1 & _ & Hpost).
  destruct (execute_agree _ _ _ _ _ _ _ _ _ _ _ _ He1 He) as (-> & -> & Hk1).
  exists x, s', r'. split; [exact He|]. split; [exact Ha|]. split.
  - intros ->. destruct x1; try discriminate Hk1.
    simpl in Hpost. tauto.
  - intros k Hk Hfail Hok Htime.
    destruct (reconnect_attempts_in_time E tool_name arguments timeout_opt s r k
                Hh Hk Hfail Hok Htime) as
      (x3 & s3 & r3 & rest & He3 & Htr & Hfull & Hpart).
    destruct (execute_agree _ _ _ _ _ _ _ _ _ _ _ _ He3 He) as (-> & -> & Hk3).
    split.
    + intros Hkn. destruct (Hfull Hkn) as (-> & Hh' & Ha' & ->).
      split; [destruct x; try discriminate Hk3; reflexivity|].
      split; [exact Hh'|]. split; [exact Ha'|].
      destruct (retry_trace_between (attempts r) k) as (tail & Htail & Hsleep).
      exists tail. split; [|exact Hsleep].
      rewrite Htr, app_nil_r. rewrite Htail at 1. reflexivity.
    + intros Hlt. destruct (Hpart Hlt) as (Hne & Ha' & Hrest).
      split; [rewrite <- Hk3; exact Hne|]. split; [exact Ha'|].
      exists rest. split; assumption.
Qed.

(** The server is down, 3 attempts of 3 time units each are allowed under a
    timeout of 30: all 3 are made. *)
Lemma C1_reconnect_attempts_witness :
  exists x s' r',
    execute down_server "echo" None None (stdio_bridge 30 3, run0)
      = (Ok (result_at "echo" (exec_timeout (stdio_bridge 30 3) None) s' x), (s', r')) /\
    attempts run0 <= attempts r'
      <= attempts run0 + Z.to_nat (reconnect_attempts (stdio_bridge 30 3)) /\
    (x = ExitConnectionFailed ->
     attempts r' = attempts run0 + Z.to_nat (reconnect_attempts (stdio_bridge 30 3)) /\
     _connection_healthy s' = false) /\
    forall k : nat,
      k <= Z.to_nat (reconnect_attempts (stdio_bridge 30 3)) ->
      (forall i, i < k ->
         attempt_ok down_server (is_stdio (stdio_bridge 30 3)) (attempts run0 + i) = false) ->
      (k < Z.to_nat (reconnect_attempts (stdio_bridge 30 3)) ->
       attempt_ok down_server (is_stdio (stdio_bridge 30 3)) (attempts run0 + k) = true) ->
      (Z.of_nat (retry_time down_server (is_stdio (stdio_bridge 30 3)) (attempts run0) k
                 + (if Nat.ltb k (Z.to_nat (reconnect_attempts (stdio_bridge 30 3)))
                    then attempt_time down_server (is_stdio (stdio_bridge 30 3))
                           (attempts run0 + k)
                    else 0))
       < exec_timeout (stdio_bridge 30 3) None)%Z ->
      (k = Z.to_nat (reconnect_attempts (stdio_bridge 30 3)) ->
       x = ExitConnectionFailed /\ _connection_healthy s' = false /\
       attempts r' = attempts run0 + Z.to_nat (reconnect_attempts (stdio_bridge 30 3)) /\
       exists tail,
         trace r' = (trace run0 ++ removelast (retry_trace (attempts run0) k) ++ tail)%list /\
         forall ev, In ev tail -> ev = EvSleep 1) /\
      (k < Z.to_nat (reconnect_attempts (stdio_bridge 30 3)) ->
       exit_kind x <> Some ConnectionFailed /\
       attempts r' = attempts run0 + S k /\
       exists rest,
         trace r' = (trace run0 ++ retry_trace (attempts run0) k ++ rest)%list /\
         (rest = [EvConnect (attempts run0 + k)] \/
          rest = [EvConnect (attempts run0 + k); EvCall "echo" (normalize None)])).
Proof.
  apply (C1_reconnect_attempts down_server "echo" None None (stdio_bridge 30 3) run0).
  reflexivity.
Defined.

(** ** Health after a failure *)

(** An unknown tool is a failure that leaves a healthy bridge healthy. *)
Lemma C2_unknown_tool_leaves_health :
  let '(o, (s', _)) :=
    execute echo_server "nope" None None (connected_bridge 30 3, run0) in
  _connection_healthy (connected_bridge 30 3) = true /\
  o = Ok (Failure "Tool 'nope' not found on server. Available: ['echo']" "nope"
            (mk_info "stdio" true 1 (Some "echo-server") None 30)) /\
  _connection_healthy s' = true.
Proof. vm_compute. repeat split. Qed.

(** C2, amended.  Every call returns a result.  When it is the execution
    error or the connection failure, the flag is unhealthy afterwards, so
    the next call reconnects.  When it is the unknown tool, the flag is
    healthy afterwards, and a timeout leaves a healthy bridge healthy. *)
Theorem C2_health_after_failure (E : env) (tool_name : string)
    (arguments : option pydict) (timeout_opt : option Z) (s : bridge) (r : run) :
  let '(o, (s', _)) := execute E tool_name arguments timeout_opt (s, r) in
  exists res,
    o = Ok res /\
    (error_kind_of res = Some ExecutionError -> _connection_healthy s' = false) /\
    (error_kind_of res = Some ConnectionFailed -> _connection_healthy s' = false) /\
    (error_kind_of res = Some UnknownTool -> _connection_healthy s' = true) /\
    (error_kind_of res = Some Timeout ->
     _connection_healthy s = true -> _connection_healthy s' = true).
Proof.
  destruct (execute_spec E tool_name arguments timeout_opt s r) as
    (x & s' & r' & Hx & Hcfg & Hpost).
  rewrite Hx. eexists. split; [reflexivity|].
  rewrite error_kind_result_at.
  destruct x; simpl in *; repeat split; intros; try discriminate; try tauto.
  rewrite (Hpost H0). assumption.
Qed.

(** ** The effective timeout *)

(** A negative override is used as it is: the call times out at once and
    says so with the negative number. *)
Lemma C3_negative_override_is_used :
  exec_timeout (stdio_bridge 30 3) (Some (-5)%Z) = (-5)%Z /\
  spec_effective_timeout 30 (Some (-5)%Z) = 30%Z /\
  exec_timeout (stdio_bridge 30 3) (Some (-5)%Z)
    <> spec_effective_timeout (timeout (stdio_bridge 30 3)) (Some (-5)%Z) /\
  fst (execute echo_server "echo" None (Some (-5)%Z) (connected_bridge 30 3, run0))
  = Ok (Failure "Tool execution timed out after -5 seconds" "echo"
          (mk_info "stdio" true 1 (Some "echo-server") None 30)).
Proof. repeat split. discriminate. Qed.

(** C3, amended.  The effective timeout is the override when it is present
    and not zero, and the configured default when it is absent or zero.  On
    every positive override this is the timeout the specification words. *)
Theorem C3_effective_timeout (s : bridge) (override : option Z) :
  (forall t, override = Some t -> t <> 0%Z -> exec_timeout s override = t) /\
  (override = None \/ override = Some 0%Z -> exec_timeout s override = timeout s) /\
  (forall t, override = Some t -> (0 < t)%Z ->
     exec_timeout s override = spec_effective_timeout (timeout s) override).
Proof.
  unfold exec_timeout, py_or, spec_effective_timeout. repeat split.
  - intros t -> Ht. apply Z.eqb_neq in Ht. now rewrite Ht.
  - intros [-> | ->]; reflexivity.
  - intros t -> Ht.
    destruct (Z.eqb_spec t 0); [lia|].
    apply Z.ltb_lt in Ht. now rewrite Ht.
Qed.

(** ** Unknown tools *)

(** The catalogue holds a tool named a, backslash, b.  The message prints
    the name with the backslash doubled, so the name is not in it. *)
Lemma C4_name_not_verbatim :
  dict_keys (_available_tools odd_bridge) = [KStr "a\b"] /\
  dict_mem (KStr "nope") (_available_tools odd_bridge) = false /\
  fst (execute echo_server "nope" None None (odd_bridge, run0))
  = Ok (Failure "Tool 'nope' not found on server. Available: ['a\\b']" "nope"
          (mk_info "stdio" true 1 (Some "echo-server") None 30)) /\
  ~ contains "a\b" "Tool 'nope' not found on server. Available: ['a\\b']".
Proof.
  repeat split.
  intros H. apply contains_occursb in H. vm_compute in H. discriminate.
Qed.

(** C4, amended.  When the connection is or becomes healthy before the
    deadline and the tool name is not a key of the catalogue, [execute]
    returns the unknown-tool failure.  Its message ends with the printed list
    of the catalogue keys: it contains the printed form of every key, and
    the name itself for every name that is plain. *)
Theorem C4_unknown_tool_lists_catalog (E : env) (tool_name : string)
    (arguments : option pydict) (timeout_opt : option Z)
    (s : bridge) (r : run) (s1 : bridge) (r1 : run) :
  (0 < exec_timeout s timeout_opt)%Z ->
  _ensure_connection E (s, start_run (exec_timeout s timeout_opt) r)
    = (Ok true, (s1, r1)) ->
  dict_mem (KStr tool_name) (_available_tools s1) = false ->
  exists msg,
    execute E tool_name arguments timeout_opt (s, r)
      = (Ok (Failure msg tool_name (server_info_of s1)), (s1, set_deadline None r1)) /\
    msg = "Tool '" ++ tool_name ++ "' not found on server. Available: "
          ++ repr_list (dict_keys (_available_tools s1)) /\
    error_kind_of (Failure msg tool_name (server_info_of s1)) = Some UnknownTool /\
    (forall k, In k (dict_keys (_available_tools s1)) -> contains (repr_key k) msg) /\
    (forall n, In (KStr n) (dict_keys (_available_tools s1)) ->
               plain_name n = true -> contains n msg).
Proof.
  intros HT He Hmem.
  exists (unknown_tool_message tool_name (_available_tools s1)).
  split; [|split; [reflexivity|split; [|split]]].
  - rewrite execute_unfold. cbv zeta.
    apply Z.ltb_lt in HT. rewrite Z.leb_antisym, HT. simpl.
    rewrite execute_async_unfold, He.
    unfold dispatch, bind, self, get_server_info, ret. simpl.
    rewrite Hmem. reflexivity.
  - exact (error_kind_result_at tool_name 0 s1 ExitUnknownTool).
  - intros k Hk. unfold unknown_tool_message.
    apply contains_app_r, contains_app_r, contains_app_r.
    apply repr_list_contains, Hk.
  - intros n Hn Hp. unfold unknown_tool_message.
    apply contains_app_r, contains_app_r, contains_app_r.
    eapply contains_trans; [apply repr_str_contains, Hp|].
    apply (repr_list_contains (KStr n)), Hn.
Qed.

(** A first call for an unknown tool: the bridge connects, then reports the
    one tool of the echo server. *)
Lemma C4_unknown_tool_witness :
  exists msg,
    execute echo_server "nope" None None (stdio_bridge 30 3, run0)
      = (Ok (Failure msg "nope" (server_info_of (connected_bridge 30 3))),
         (connected_bridge 30 3,
          set_deadline None (mk_run 1 0 0 0 (Some 30%Z) [EvConnect 0]))) /\
    msg = "Tool '" ++ "nope" ++ "' not found on server. Available: "
          ++ repr_list (dict_keys (_available_tools (connected_bridge 30 3))) /\
    error_kind_of (Failure msg "nope" (server_info_of (connected_bridge 30 3)))
      = Some UnknownTool /\
    (forall k, In k (dict_keys (_available_tools (connected_bridge 30 3))) ->
               contains (repr_key k) msg) /\
    (forall n, In (KStr n) (dict_keys (_available_tools (connected_bridge 30 3))) ->
               plain_name n = true -> contains n msg).
Proof.
  apply (C4_unknown_tool_lists_catalog echo_server "nope" None None
           (stdio_bridge 30 3) run0 (connected_bridge 30 3)
           (mk_run 1 0 0 0 (Some 30%Z) [EvConnect 0])).
  - reflexivity.
  - reflexivity.
  - reflexivity.
Defined.

(** ** Timeouts *)

(** C5.  When the bridge is healthy, the tool is in the catalogue, the
    transport handle is there and the transport call takes longer than the
    effective timeout, [execute] returns the timeout failure, whose message
    states the timeout in seconds, and leaves the bridge as it was, the
    health flag included. *)
Theorem C5_timeout_keeps_health (E : env) (tool_name : string)
    (arguments : option pydict) (timeout_opt : option Z) (s : bridge) (r : run) :
  _connection_healthy s = true ->
  dict_mem (KStr tool_name) (_available_tools s) = true ->
  has_transport s = true ->
  (exec_timeout s timeout_opt
   < Z.of_nat (call_time E (is_stdio s) (calls r) tool_name (normalize arguments)))%Z ->
  exists res s' r',
    execute E tool_name arguments timeout_opt (s, r) = (Ok res, (s', r')) /\
    res = Failure
            ("Tool execution timed out after "
             ++ str_int (exec_timeout s timeout_opt) ++ " seconds")
            tool_name (server_info_of s) /\
    error_kind_of res = Some Timeout /\
    s' = s /\
    _connection_healthy s' = true.
Proof.
  intros Hh Hmem Htr Hlate.
  assert (Hx : exists r',
    execute E tool_name arguments timeout_opt (s, r)
    = (Ok (result_at tool_name (exec_timeout s timeout_opt) s ExitTimeout), (s, r'))).
  { rewrite execute_unfold. cbv zeta.
    destruct (exec_timeout s timeout_opt <=? 0)%Z eqn:HT.
    { eexists. reflexivity. }
    apply Z.leb_gt in HT.
    rewrite execute_async_unfold.
    unfold _ensure_connection, bind, self, ret. simpl. rewrite Hh.
    unfold dispatch, bind, self, try_except. simpl. rewrite Hmem. simpl.
    unfold has_transport, call_time, is_stdio in *.
    destruct (server_type s =? "stdio")%string.
    - unfold _execute_stdio, bind, self, next_call. simpl.
      destruct (_session s); [|discriminate]. simpl.
      destruct (stdio_calls E (calls r) tool_name (normalize arguments)); simpl;
        (erewrite await_too_late; [| reflexivity | simpl; lia]);
        eexists; reflexivity.
    - unfold _execute_http, bind, self, next_call. simpl.
      destruct (_http_client s); [|discriminate]. simpl.
      destruct (http_calls E (calls r) tool_name (normalize arguments)); simpl;
        (erewrite await_too_late; [| reflexivity | simpl; lia]);
        eexists; reflexivity. }
  destruct Hx as [r' Hx].
  exists (result_at tool_name (exec_timeout s timeout_opt) s ExitTimeout), s, r'.
  split; [exact Hx|]. split; [reflexivity|].
  split; [|split; [reflexivity | assumption]].
  exact (error_kind_result_at tool_name (exec_timeout s timeout_opt) s ExitTimeout).
Qed.

(** A call of 5 time units under a timeout of 1, on a connected bridge. *)
Lemma C5_timeout_witness :
  exists res s' r',
    execute slow_server "echo" None (Some 1%Z) (connected_bridge 30 3, run0)
      = (Ok res, (s', r')) /\
    res = Failure
            ("Tool execution timed out after "
             ++ str_int (exec_timeout (connected_bridge 30 3) (Some 1%Z)) ++ " seconds")
            "echo" (server_info_of (connected_bridge 30 3)) /\
    error_kind_of res = Some Timeout /\
    s' = connected_bridge 30 3 /\
    _connection_healthy s' = true.
Proof.
  apply (C5_timeout_keeps_health slow_server "echo" None (Some 1%Z)
           (connected_bridge 30 3) run0).
  - reflexivity.
  - reflexivity.
  - reflexivity.
  - vm_compute. reflexivity.
Defined.

(** ** Errors are results *)

(** C6.  For every environment, bridge, tool name, arguments and timeout,
    [execute] returns: it neither raises nor stays cancelled, and what it
    returns carries the tool name and the server info of the final state.
    Every per-call error comes back as a failure: a non-positive timeout and
    a deadline that expires while connecting or while the tool call is
    awaited as the timeout failure, connection exhaustion as the connection
    failure, a name missing from the catalogue as the unknown-tool failure,
    and a missing handle, a transport error or an answer with no value to
    read as the execution error, with the flag lowered.  It is a success
    only on a healthy bridge that lists the tool, after exactly one call
    whose answer came in time with a value. *)
Theorem C6_execute_never_raises (E : env) (tool_name : string)
    (arguments : option pydict) (timeout_opt : option Z) (s : bridge) (r : run) :
  exists res s' r',
    execute E tool_name arguments timeout_opt (s, r) = (Ok res, (s', r')) /\
    match res with
    | Success v n i =>
        n = tool_name /\ i = server_info_of s' /\
        _connection_healthy s' = true /\
        dict_mem (KStr tool_name) (_available_tools s') = true /\
        calls r' = S (calls r) /\
        call_value E (is_stdio s) (calls r) tool_name (normalize arguments) = Some v
    | Failure msg n i =>
        n = tool_name /\ i = server_info_of s' /\
        exists k, error_kind_of res = Some k
    end /\
    ((exec_timeout s timeout_opt <= 0)%Z ->
     res = Failure (timeout_message (exec_timeout s timeout_opt)) tool_name
             (server_info_of s) /\ s' = s) /\
    ((0 < exec_timeout s timeout_opt)%Z ->
     match _ensure_connection E (s, start_run (exec_timeout s timeout_opt) r) with
     | (Ok false, (s1, _)) =>
         res = Failure connection_failed_message tool_name (server_info_of s1) /\
         s' = s1
     | (Cancelled, (s1, _)) =>
         res = Failure (timeout_message (exec_timeout s timeout_opt)) tool_name
                 (server_info_of s1) /\
         s' = s1
     | (Raise _, _) => False
     | (Ok true, (s1, r1)) =>
         if negb (dict_mem (KStr tool_name) (_available_tools s1)) then
           res = Failure (unknown_tool_message tool_name (_available_tools s1)) tool_name
                   (server_info_of s1) /\
           s' = s1
         else if negb (has_transport s1) then
           (exists e, res = Failure (execution_error_message e) tool_name
                            (server_info_of s')) /\
           s' = set_connection_healthy false s1
         else if (clock r1 + Z.of_nat (call_time E (is_stdio s) (calls r) tool_name
                                        (normalize arguments))
                  <? exec_timeout s timeout_opt)%Z then
           match call_value E (is_stdio s) (calls r) tool_name (normalize arguments) with
           | Some v => res = Success v tool_name (server_info_of s1) /\ s' = s1
           | None =>
               (exists e, res = Failure (execution_error_message e) tool_name
                                (server_info_of s')) /\
               s' = set_connection_healthy false s1
           end
         else
           res = Failure (timeout_message (exec_timeout s timeout_opt)) tool_name
                   (server_info_of s1) /\
           s' = s1
     end).
Proof.
  destruct (execute_spec E tool_name arguments timeout_opt s r) as
    (x & s' & r' & Hx & Hcfg & Hpost).
  exists (result_at tool_name (exec_timeout s timeout_opt) s' x), s', r'.
  split; [exact Hx|]. split.
  { pose proof (error_kind_result_at tool_name (exec_timeout s timeout_opt) s' x) as Hk.
    destruct x; simpl in *; repeat split; eauto; tauto. }
  rewrite execute_unfold in Hx. cbv zeta in Hx.
  set (T := exec_timeout s timeout_opt) in *.
  destruct (T <=? 0)%Z eqn:HT.
  { apply Z.leb_le in HT. injection Hx as Hres Hs Hr. subst s'.
    split; [intros _; split; [symmetry; exact Hres | reflexivity] | intros; lia]. }
  apply Z.leb_gt in HT. split; [intros; lia|]. intros _.
  rewrite execute_async_unfold in Hx.
  destruct (ensure_connection_spec E s (start_run T r)) as
    (o & s1 & r1 & He & Hcfg1 & Hcl1 & _ & Hd1 & _ & Ho).
  rewrite He in *. simpl in Hcl1, Hd1. destruct o as [[|]|e|].
  - destruct (dict_mem (KStr tool_name) (_available_tools s1)) eqn:Hmem; simpl.
    + destruct (dispatch_cases E tool_name (normalize arguments) s1 r1 T Hd1 Hmem)
        as [r2 Hc].
      rewrite (is_stdio_same _ _ Hcfg1), Hcl1 in Hc.
      destruct (has_transport s1); simpl.
      * destruct (clock r1 + _ <? T)%Z.
        -- destruct (call_value E (is_stdio s) (calls r) tool_name (normalize arguments)).
           ++ rewrite Hc in Hx. injection Hx as Hres Hs Hr. subst s'.
              split; [symmetry; exact Hres | reflexivity].
           ++ destruct Hc as [e Hc]. rewrite Hc in Hx.
              injection Hx as Hres Hs Hr. subst s'.
              split; [exists e; symmetry; exact Hres | reflexivity].
        -- rewrite Hc in Hx. injection Hx as Hres Hs Hr. subst s'.
           split; [symmetry; exact Hres | reflexivity].
      * destruct Hc as [e Hc]. rewrite Hc in Hx.
        injection Hx as Hres Hs Hr. subst s'.
        split; [exists e; symmetry; exact Hres | reflexivity].
    + unfold dispatch, bind, self, get_server_info, ret in Hx; simpl in Hx.
      rewrite Hmem in Hx. simpl in Hx.
      injection Hx as Hres Hs Hr. subst s'.
      split; [symmetry; exact Hres | reflexivity].
  - simpl in Hx. injection Hx as Hres Hs Hr. subst s'.
    split; [symmetry; exact Hres | reflexivity].
  - contradiction.
  - injection Hx as Hres Hs Hr. subst s'.
    split; [symmetry; exact Hres | reflexivity].
Qed.

(** ** Validation *)

(** Stdio is selected with no command in an interpreter without the MCP
    SDK: validation raises the dependency error, not the configuration
    error. *)
Lemma C7_missing_library_wins :
  let s := new_bridge "stdio" None [] None 30 3 in
  server_type s = "stdio" /\ falsy (server_command s) = true /\
  fst (_validate_config no_sdk_server (s, run0))
  = Raise (mk_exn ImportError
             "MCP stdio client not available. Install with: pip install mcp") /\
  ~ raises (fst (_validate_config no_sdk_server (s, run0))) ConfigurationError.
Proof.
  repeat split. intros (e & He & Hc). simpl in He.
  inversion He; subst. discriminate.
Qed.

(** C7, amended.  Validation raises the configuration error when the
    transport kind is neither stdio nor http, and, when the library of the
    selected transport is available, when stdio has no command or http has
    no URL.  It raises the dependency error, a different class, whenever the
    library of the selected transport is unavailable.  It changes neither
    the bridge nor the run: no connect attempt, call or shutdown. *)
Theorem C7_validate_config (E : env) (s : bridge) (r : run) :
  let o := fst (_validate_config E (s, r)) in
  (server_type s <> "stdio" -> server_type s <> "http" ->
   raises o ConfigurationError) /\
  (server_type s = "stdio" -> MCP_STDIO_AVAILABLE E = false ->
   raises o DependencyError) /\
  (server_type s = "http" -> MCP_HTTP_AVAILABLE E = false ->
   raises o DependencyError) /\
  (server_type s = "stdio" -> MCP_STDIO_AVAILABLE E = true ->
   falsy (server_command s) = true -> raises o ConfigurationError) /\
  (server_type s = "http" -> MCP_HTTP_AVAILABLE E = true ->
   falsy (server_url s) = true -> raises o ConfigurationError) /\
  ConfigurationError <> DependencyError /\
  snd (_validate_config E (s, r)) = (s, r).
Proof.
  unfold _validate_config, bind, self, raise, ret, raises; simpl.
  repeat split.
  - intros H1 H2.
    apply String.eqb_neq in H1, H2. rewrite H1, H2. simpl. eauto.
  - intros -> ->. simpl. eauto.
  - intros H ->. rewrite H. simpl. eauto.
  - intros -> -> ->. simpl. eauto.
  - intros H -> ->. rewrite H. simpl. eauto.
  - discriminate.
  - destruct (server_type s =? "stdio")%string.
    + destruct (MCP_STDIO_AVAILABLE E), (falsy (server_command s)); reflexivity.
    + destruct (server_type s =? "http")%string; [|reflexivity].
      destruct (MCP_HTTP_AVAILABLE E), (falsy (server_url s)); reflexivity.
Qed.

(** ** Absent arguments *)

(** C8.  For every tool name and timeout, in every state and environment,
    [execute] with no arguments is [execute] with the empty mapping: same
    result, same final state, same trace. *)
Theorem C8_none_arguments_are_empty (E : env) (tool_name : string)
    (timeout_opt : option Z) (st : bridge * run) :
  execute E tool_name None timeout_opt st = execute E tool_name (Some []) timeout_opt st.
Proof. reflexivity. Qed.

(** ** Shutdown *)

(** C9.  An HTTP bridge makes a successful call and is then closed;
    shutting the client down from the new event loop raises.  [close] has no
    handler around the shutdown: it raises with it, before the assignment
    that lowers the health flag, and the flag stays healthy. *)
Lemma C9_close_raises_with_client :
  let '(o, (s, r)) :=
    execute stale_loop_server "echo" None None (http_bridge 30 3, run0) in
  o = Ok (Success (PStr "Echo: hi") "echo"
            (mk_info "http" true 1 None (Some "http://localhost:8000") 30)) /\
  fst (close stale_loop_server (s, r)) = Raise loop_closed /\
  _connection_healthy (fst (snd (close stale_loop_server (s, r)))) = true.
Proof. vm_compute. repeat split. Qed.

(** When the bridge holds no HTTP client, or the two shutdowns of the
    client do not raise, calling [close] twice in succession returns both
    times and leaves the flag unhealthy both times. *)
Lemma close_twice_when_shutdown_returns (E : env) (s : bridge) (r : run) :
  _http_client s = None \/
  (http_closes E (closes r) = None /\ http_closes E (S (closes r)) = None) ->
  exists s1 r1 s2 r2,
    close E (s, r) = (Ok tt, (s1, r1)) /\ _connection_healthy s1 = false /\
    close E (s1, r1) = (Ok tt, (s2, r2)) /\ _connection_healthy s2 = false.
Proof.
  intros H.
  exists (set_connection_healthy false s), (closed_run s r),
    (set_connection_healthy false (set_connection_healthy false s)),
    (closed_run (set_connection_healthy false s) (closed_run s r)).
  split; [apply close_returns; tauto|]. split; [reflexivity|].
  split; [|reflexivity].
  apply close_returns. simpl. unfold closed_run.
  destruct (_http_client s) as [h|]; [right | left; reflexivity].
  destruct H as [H | [_ H]]; [discriminate | exact H].
Qed.

(** ** The catalogue during a connect *)

(** C10.  A connect attempt over stdio or over HTTP that does not report
    success, because a step raised, the payload was malformed or the
    deadline cancelled it, leaves the catalogue as it was.  One that reports
    success has replaced it by the catalogue built from the whole tool list
    the server answered. *)
Theorem C10_catalog_replaced_only_on_success (E : env) (s : bridge) (r : run) :
  (match _connect_stdio E (s, r) with
   | (Ok true, (s', _)) =>
       exists d1 d2 tools,
         stdio_connects E (attempts r) = StdioTools d1 d2 tools /\
         _available_tools s' = stdio_catalog tools
   | (_, (s', _)) => _available_tools s' = _available_tools s
   end) /\
  (match _connect_http E (s, r) with
   | (Ok true, (s', _)) =>
       exists d tools_data c,
         http_connects E (attempts r) = HttpListBody d tools_data /\
         http_catalog tools_data = Some c /\
         _available_tools s' = c
   | (_, (s', _)) => _available_tools s' = _available_tools s
   end).
Proof.
  split.
  - unfold _connect_stdio, try_except, bind, next_attempt; simpl.
    destruct (stdio_connects E (attempts r)) as [e|d e|d1 d2 e|d1 d2 tools];
      simpl; repeat step_await; try reflexivity.
    exists d1, d2, tools. split; reflexivity.
  - unfold _connect_http, try_except, bind, next_attempt; simpl.
    destruct (http_connects E (attempts r)) as [e|d e|d data];
      simpl; repeat step_await; try reflexivity.
    destruct (http_catalog data) as [c|] eqn:Hc; simpl; try reflexivity.
    exists d, data, c. repeat split; assumption.
Qed.

End Claims.

(* ===================================================================== *)
(** * Further properties of the bridge *)
(* ===================================================================== *)

Module Extras.
Import Py Transport Bridge MCP_Bridge_Tool Spec Vocabulary Examples Text Steps.
Import Dicts Catalogs HttpCatalogs Frames Lifecycles.
Import Builtins Construction Constructions.

(** ** The catalogue comprehensions *)

(** X1.  The catalogue [_connect_stdio] builds from a listing holds a name
    exactly when some listed tool has that name. *)
Theorem X1_stdio_catalog_mem (tools : list Tool.t) (n : string) :
  dict_mem (KStr n) (stdio_catalog tools) = true <->
  exists tool, In tool tools /\ Tool.name tool = n.
Proof.
  rewrite stdio_catalog_build, build_mem. simpl. split.
  - intros [H | (t & Ht & Hk)]; [discriminate|].
    exists t. split; [exact Ht | now apply String.eqb_eq].
  - intros (t & Ht & <-). right. exists t. split; [exact Ht | apply String.eqb_refl].
Qed.

(** X2.  In that catalogue no two keys are equal and there are never more
    entries than listed tools; when the listed names are all different the
    keys are the names in listing order. *)
Theorem X2_stdio_catalog_keys (tools : list Tool.t) :
  distinct_keys (stdio_catalog tools) /\
  length (stdio_catalog tools) <= length tools /\
  (NoDup (map Tool.name tools) ->
   dict_keys (stdio_catalog tools) = map (fun t => KStr (Tool.name t)) tools).
Proof.
  rewrite stdio_catalog_build. split; [|split].
  - apply build_distinct, distinct_nil.
  - apply (build_length _ _ _ _ tools []).
  - intros H. rewrite build_keys_fresh; [reflexivity|]. simpl.
    rewrite map_map. simpl.
    induction tools as [|t tools IH]; simpl; [constructor|].
    inversion H as [|? ? Hnotin H']; subst. constructor; [|exact (IH H')].
    intros Hin. apply Hnotin. apply in_map_iff in Hin as (t' & Heq & Ht').
    apply in_map_iff. exists t'. split; [congruence | exact Ht'].
Qed.

(** X3.  When a name is listed more than once, its one entry carries the
    description and schema of the last listed tool of that name. *)
Theorem X3_stdio_catalog_last_wins (tools : list Tool.t) (n : string) (d : descriptor) :
  In (KStr n, d) (stdio_catalog tools) ->
  exists pre tool post,
    tools = (pre ++ tool :: post)%list /\ Tool.name tool = n /\
    d = descriptor_of tool /\
    forall t, In t post -> Tool.name t <> n.
Proof.
  rewrite stdio_catalog_build. intros H.
  apply build_last_wins in H; [|apply distinct_nil].
  destruct H as [(pre & x & post & -> & Hk & -> & Hpost) | [[] _]].
  exists pre, x, post. simpl in Hk. apply String.eqb_eq in Hk.
  repeat split; auto.
  intros t Ht Hn. specialize (Hpost t Ht). simpl in Hpost.
  apply String.eqb_neq in Hpost. congruence.
Qed.

Lemma X3_stdio_catalog_last_wins_witness :
  exists pre tool post,
    twice_listed = (pre ++ tool :: post)%list /\ Tool.name tool = "echo" /\
    mk_descriptor (PStr "new") (PDict []) = descriptor_of tool /\
    forall t, In t post -> Tool.name t <> "echo".
Proof.
  apply (X3_stdio_catalog_last_wins twice_listed "echo"
           (mk_descriptor (PStr "new") (PDict []))).
  vm_compute. left. reflexivity.
Defined.

(** X4.  [_connect_http] can build a catalogue from a payload exactly when
    the payload is a JSON object whose [tools] value (an empty list when the
    key is missing) can be iterated and every item of it is an object with a
    hashable [name]; an object without [tools] gives the empty catalogue. *)
Theorem X4_http_catalog_accepts (tools_data : pyval) :
  ((exists c, http_catalog tools_data = Some c) <->
   (exists items, http_items tools_data = Some items /\
      forall item, In item items -> exists k, item_key item = Some k)) /\
  (forall d, tools_data = PDict d -> dict_get "tools" d = None ->
             http_catalog tools_data = Some []).
Proof.
  split.
  - rewrite http_catalog_items_of. split.
    + intros [c Hc]. destruct (http_items tools_data) as [items|]; [|discriminate].
      exists items. split; [reflexivity|]. eapply http_catalog_items_some, Hc.
    + intros (items & -> & Hok). eexists. apply http_catalog_items_build, Hok.
  - intros d -> Hd. unfold http_catalog, dict_get_default. rewrite Hd. reflexivity.
Qed.

(** X5.  The catalogue built from an accepted HTTP payload: no two keys
    are equal, there are never more entries than items, a key is present
    exactly when some item has an equal name, and an entry carries the
    description and schema of the last item with its name, an empty string
    and an empty dict standing in for what the item lacks. *)
Theorem X5_http_catalog_entries (tools_data : pyval) (items : list pyval) (c : catalog) :
  http_items tools_data = Some items ->
  http_catalog tools_data = Some c ->
  distinct_keys c /\
  length c <= length items /\
  (forall k, dict_mem k c = true <->
             exists item k', In item items /\ item_key item = Some k' /\
                             key_eqb k' k = true) /\
  (forall k d, In (k, d) c ->
     exists pre item post k',
       items = (pre ++ item :: post)%list /\ item_key item = Some k' /\
       key_eqb k k' = true /\ d = item_descriptor item /\
       forall later k2, In later post -> item_key later = Some k2 ->
                        key_eqb k k2 = false).
Proof.
  intros Hitems Hc. rewrite http_catalog_items_of, Hitems in Hc.
  pose proof (http_catalog_items_some _ _ _ Hc) as Hok.
  rewrite (http_catalog_items_build _ _ Hok) in Hc. inversion Hc; subst c. clear Hc.
  split; [apply build_distinct, distinct_nil|].
  split; [apply (build_length _ _ _ _ items [])|].
  split.
  - intros k. rewrite build_mem. simpl. split.
    + intros [H | (item & Hin & Hk)]; [discriminate|].
      destruct (Hok item Hin) as [k' Hk'].
      exists item, k'. unfold key_or_none in Hk. rewrite Hk' in Hk. auto.
    + intros (item & k' & Hin & Hk' & Hk). right. exists item.
      unfold key_or_none. rewrite Hk'. auto.
  - intros k d Hin.
    apply build_last_wins in Hin; [|apply distinct_nil].
    destruct Hin as [(pre & x & post & -> & Hk & -> & Hpost) | [[] _]].
    destruct (Hok x) as [k' Hk']; [apply in_or_app; right; left; reflexivity|].
    exists pre, x, post, k'. unfold key_or_none in Hk. rewrite Hk' in Hk.
    repeat split; auto.
    intros later k2 Hl Hk2. specialize (Hpost later Hl).
    unfold key_or_none in Hpost. now rewrite Hk2 in Hpost.
Qed.

Lemma X5_http_catalog_entries_witness :
  let c := [(KStr "echo", mk_descriptor (PStr "new") (PDict []))] in
  distinct_keys c /\
  length c <= length twice_listed_items /\
  (forall k, dict_mem k c = true <->
             exists item k', In item twice_listed_items /\ item_key item = Some k' /\
                             key_eqb k' k = true) /\
  (forall k d, In (k, d) c ->
     exists pre item post k',
       twice_listed_items = (pre ++ item :: post)%list /\ item_key item = Some k' /\
       key_eqb k k' = true /\ d = item_descriptor item /\
       forall later k2, In later post -> item_key later = Some k2 ->
                        key_eqb k k2 = false).
Proof.
  apply (X5_http_catalog_entries twice_listed_data twice_listed_items
           [(KStr "echo", mk_descriptor (PStr "new") (PDict []))]);
    vm_compute; reflexivity.
Defined.

(** ** The connection manager *)

(** X6.  One stdio connect attempt never raises, counts as one attempt and
    sends no call; the bool it returns is the health flag it leaves; once
    the SDK objects are built the session handle is the new one, also when
    the handshake fails or is cut; the HTTP client is not touched. *)
Theorem X6_connect_stdio_outcome (E : env) (s : bridge) (r : run) :
  exists o s' r',
    _connect_stdio E (s, r) = (o, (s', r')) /\
    same_config s s' /\ _http_client s' = _http_client s /\
    attempts r' = S (attempts r) /\ calls r' = calls r /\ closes r' = closes r /\
    _session s' = (match stdio_connects E (attempts r) with
                   | StdioSetupError _ => _session s
                   | _ => Some (attempts r)
                   end) /\
    match o with
    | Ok b => _connection_healthy s' = b
    | Cancelled => _connection_healthy s' = _connection_healthy s
    | Raise _ => False
    end.
Proof.
  unfold _connect_stdio, try_except, bind, next_attempt; simpl.
  destruct (stdio_connects E (attempts r)); simpl;
    repeat case_await;
    do 3 eexists; (split; [reflexivity|]); simpl;
    repeat split; reflexivity.
Qed.

(** X7.  The same for one HTTP connect attempt: the client handle is the
    new one as soon as the client is built, the stdio session is not
    touched, and a listing that cannot be read as a catalogue is a failed
    attempt like any other. *)
Theorem X7_connect_http_outcome (E : env) (s : bridge) (r : run) :
  exists o s' r',
    _connect_http E (s, r) = (o, (s', r')) /\
    same_config s s' /\ _session s' = _session s /\
    attempts r' = S (attempts r) /\ calls r' = calls r /\ closes r' = closes r /\
    _http_client s' = (match http_connects E (attempts r) with
                       | HttpClientError _ => _http_client s
                       | _ => Some (attempts r)
                       end) /\
    match o with
    | Ok b =>
        _connection_healthy s' = b /\
        (forall d tools_data,
           http_connects E (attempts r) = HttpListBody d tools_data ->
           http_catalog tools_data = None -> b = false)
    | Cancelled => _connection_healthy s' = _connection_healthy s
    | Raise _ => False
    end.
Proof.
  unfold _connect_http, try_except, bind, next_attempt; simpl.
  destruct (http_connects E (attempts r)) as [e|d e|d data]; simpl;
    repeat case_await;
    try (destruct (http_catalog data) eqn:Hcat; simpl);
    do 3 eexists; (split; [reflexivity|]); simpl;
    repeat split; try reflexivity; try discriminate.
  intros d0 data0 H. inversion H; subst. congruence.
Qed.

(** X8.  [_ensure_connection] never raises and returns the health flag it
    leaves.  A healthy bridge is returned as it is; an unhealthy one with a
    non-positive attempt count gives up at once; giving up after n attempts
    has slept after each of them, the last included. *)
Theorem X8_ensure_connection_outcome (E : env) (s : bridge) (r : run) :
  exists o s' r',
    _ensure_connection E (s, r) = (o, (s', r')) /\
    (_connection_healthy s = true -> o = Ok true /\ s' = s /\ r' = r) /\
    (_connection_healthy s = false -> (reconnect_attempts s <= 0)%Z ->
     o = Ok false /\ s' = s /\ r' = r) /\
    attempts r <= attempts r' <= attempts r + Z.to_nat (reconnect_attempts s) /\
    calls r' = calls r /\ closes r' = closes r /\
    match o with
    | Ok true => _connection_healthy s' = true
    | Ok false =>
        _connection_healthy s' = false /\
        attempts r' = attempts r + Z.to_nat (reconnect_attempts s) /\
        trace r' = (trace r ++ retry_trace (attempts r)
                                 (Z.to_nat (reconnect_attempts s)))%list
    | Cancelled => _connection_healthy s' = false
    | Raise _ => False
    end.
Proof.
  destruct (ensure_connection_spec E s r) as
    (o & s' & r' & He & Hcfg & Hcl & Hcs & Hd & Ha & Ho).
  exists o, s', r'. split; [exact He|].
  unfold _ensure_connection, bind, self in He; simpl in He.
  destruct (_connection_healthy s) eqn:Hh.
  - inversion He; subst. repeat split; auto; try lia; discriminate.
  - split; [discriminate|]. split.
    + intros _ Hn. replace (Z.to_nat (reconnect_attempts s)) with 0 in He by lia.
      simpl in He. inversion He; subst. auto.
    + repeat split; try assumption; try lia.
      destruct o as [[|]|e|]; try tauto.
      destruct Ho as (_ & Hh' & _ & Ha').
      repeat split; auto. eapply reconnect_false_trace, He.
Qed.

(** X9.  Whatever a call returns, it leaves the configuration and the
    handle of the other transport alone, makes at most [reconnect_attempts]
    connect attempts and none at all on a healthy bridge, sends at most one
    tool call, requests no shutdown, and only adds to the trace. *)
Theorem X9_execute_effects (E : env) (tool_name : string)
    (arguments : option pydict) (timeout_opt : option Z) (s : bridge) (r : run) :
  let '(_, (s', r')) := execute E tool_name arguments timeout_opt (s, r) in
  same_config s s' /\ other_handle s s' /\
  attempts r <= attempts r' <= attempts r + Z.to_nat (reconnect_attempts s) /\
  calls r <= calls r' <= S (calls r) /\
  closes r' = closes r /\
  (_connection_healthy s = true -> attempts r' = attempts r) /\
  exists evs, trace r' = (trace r ++ evs)%list.
Proof.
  destruct (execute_frame E tool_name arguments timeout_opt s r) as
    (x & s' & r' & He & Hcfg & Hoth & Ha & Hc & Hcl & Hh & _ & (evs & Htr & _) & _).
  rewrite He. repeat split; try apply Hcfg; auto; try lia.
  exists evs. exact Htr.
Qed.

(** X10.  With an effective timeout of zero or less the call is reported
    as timed out at once: nothing is attempted, nothing is sent, and the
    bridge is as before. *)
Theorem X10_nonpositive_timeout (E : env) (tool_name : string)
    (arguments : option pydict) (timeout_opt : option Z) (s : bridge) (r : run) :
  (exec_timeout s timeout_opt <= 0)%Z ->
  exists r',
    execute E tool_name arguments timeout_opt (s, r)
      = (Ok (Failure (timeout_message (exec_timeout s timeout_opt)) tool_name
               (server_info_of s)), (s, r')) /\
    attempts r' = attempts r /\ calls r' = calls r /\ closes r' = closes r /\
    trace r' = trace r.
Proof.
  intros HT. rewrite execute_unfold. cbv zeta.
  apply Z.leb_le in HT. rewrite HT.
  eexists. split; [reflexivity|]. simpl. auto.
Qed.

Lemma X10_nonpositive_timeout_witness :
  exists r',
    execute echo_server "echo" None None (connected_bridge 0 3, run0)
      = (Ok (Failure (timeout_message (exec_timeout (connected_bridge 0 3) None)) "echo"
               (server_info_of (connected_bridge 0 3))), (connected_bridge 0 3, r')) /\
    attempts r' = attempts run0 /\ calls r' = calls run0 /\ closes r' = closes run0 /\
    trace r' = trace run0.
Proof.
  apply (X10_nonpositive_timeout echo_server "echo" None None (connected_bridge 0 3) run0).
  vm_compute. discriminate.
Defined.

(** X11.  The tool calls a result stands for: a connection failure and an
    unknown tool are reported without any call sent, a success has sent
    exactly one, and so has an execution error on a bridge that holds the
    handle of its transport whenever it is healthy. *)
Theorem X11_calls_by_result (E : env) (tool_name : string)
    (arguments : option pydict) (timeout_opt : option Z) (s : bridge) (r : run) :
  let '(o, (_, r')) := execute E tool_name arguments timeout_opt (s, r) in
  exists res,
    o = Ok res /\
    (error_kind_of res = Some ConnectionFailed -> calls r' = calls r) /\
    (error_kind_of res = Some UnknownTool -> calls r' = calls r) /\
    (forall v n i, res = Success v n i -> calls r' = S (calls r)) /\
    (error_kind_of res = Some ExecutionError -> handle_inv s ->
     calls r' = S (calls r)).
Proof.
  destruct (execute_frame E tool_name arguments timeout_opt s r) as
    (x & s' & r' & He & _ & _ & _ & _ & _ & _ & _ & _ & Hx).
  rewrite He. eexists. split; [reflexivity|].
  rewrite error_kind_result_at.
  destruct x; simpl in *; repeat split; intros; try discriminate; try tauto.
Qed.

(** X12.  Every failed attempt is followed by a sleep of one second, so a
    connection failure is only ever reported when the effective timeout is
    longer than [reconnect_attempts] seconds; with a shorter one the call
    ends some other way, whatever the server does. *)
Theorem X12_connection_failure_needs_time (E : env) (tool_name : string)
    (arguments : option pydict) (timeout_opt : option Z) (s : bridge) (r : run) :
  (1 <= reconnect_attempts s)%Z ->
  (exec_timeout s timeout_opt <= reconnect_attempts s)%Z ->
  exists res st',
    execute E tool_name arguments timeout_opt (s, r) = (Ok res, st') /\
    error_kind_of res <> Some ConnectionFailed.
Proof.
  intros Hn HT.
  destruct (execute_frame E tool_name arguments timeout_opt s r) as
    (x & s' & r' & He & _ & _ & _ & _ & _ & _ & _ & _ & Hx).
  rewrite He. do 2 eexists. split; [reflexivity|].
  rewrite error_kind_result_at.
  destruct x; simpl; try discriminate.
  destruct Hx as (_ & _ & Hlt). lia.
Qed.

Lemma X12_connection_failure_needs_time_witness :
  exists res st',
    execute down_server "echo" None None (stdio_bridge 3 3, run0) = (Ok res, st') /\
    error_kind_of res <> Some ConnectionFailed.
Proof.
  apply (X12_connection_failure_needs_time down_server "echo" None None
           (stdio_bridge 3 3) run0); vm_compute; discriminate.
Defined.

(** X13.  A call on a healthy bridge that lists the tool and holds its
    handle, when the server answers within the timeout: no connect
    attempt, exactly one call sent; the result is the success with the
    value read from the answer and the bridge is untouched, or, when no
    value can be read, an execution error with the health flag lowered. *)
Theorem X13_healthy_call_in_time (E : env) (tool_name : string)
    (arguments : option pydict) (timeout_opt : option Z) (s : bridge) (r : run) :
  _connection_healthy s = true ->
  dict_mem (KStr tool_name) (_available_tools s) = true ->
  has_transport s = true ->
  (Z.of_nat (call_time E (is_stdio s) (calls r) tool_name (normalize arguments))
   < exec_timeout s timeout_opt)%Z ->
  exists res s' r',
    execute E tool_name arguments timeout_opt (s, r) = (Ok res, (s', r')) /\
    attempts r' = attempts r /\ calls r' = S (calls r) /\
    trace r' = (trace r ++ [EvCall tool_name (normalize arguments)])%list /\
    match call_value E (is_stdio s) (calls r) tool_name (normalize arguments) with
    | Some v => res = Success v tool_name (server_info_of s) /\ s' = s
    | None =>
        s' = set_connection_healthy false s /\
        exists e, res = Failure (execution_error_message e) tool_name (server_info_of s')
    end.
Proof.
  intros Hh Hmem Htr Hlt.
  rewrite execute_unfold. cbv zeta.
  set (T := exec_timeout s timeout_opt) in *.
  assert (HT : (T <=? 0)%Z = false) by (apply Z.leb_gt; lia).
  rewrite HT, execute_async_unfold.
  assert (He : _ensure_connection E (s, start_run T r) = (Ok true, (s, start_run T r))).
  { unfold _ensure_connection, bind, self; simpl. rewrite Hh. reflexivity. }
  rewrite He.
  unfold dispatch, bind, self, get_server_info, ret, try_except; simpl.
  rewrite Hmem; simpl.
  unfold has_transport in Htr. unfold call_time, call_value in *. unfold is_stdio in *.
  destruct (server_type s =? "stdio")%string eqn:Hst.
  - unfold _execute_stdio, bind, self, next_call; simpl.
    destruct (_session s); [|discriminate]. simpl.
    destruct (stdio_calls E (calls r) tool_name (normalize arguments))
      as [d e|d content]; simpl;
      (erewrite await_in_time by (simpl; eauto; lia)); simpl.
    + do 3 eexists. split; [reflexivity|]. simpl. repeat split. eauto.
    + destruct content as [|[text|cls] rest]; simpl;
        do 3 eexists; (split; [reflexivity|]); simpl; repeat split; eauto.
  - unfold _execute_http, bind, self, next_call, lift; simpl.
    destruct (_http_client s); [|discriminate]. simpl.
    destruct (http_calls E (calls r) tool_name (normalize arguments))
      as [d e|d data]; simpl;
      (erewrite await_in_time by (simpl; eauto; lia)); simpl.
    + do 3 eexists. split; [reflexivity|]. simpl. repeat split. eauto.
    + destruct (py_get data "content" (PList [PDict []])) as [e1|content]; simpl.
      { do 3 eexists. split; [reflexivity|]. simpl. repeat split. eauto. }
      destruct (py_item0 content) as [e2|first]; simpl.
      { do 3 eexists. split; [reflexivity|]. simpl. repeat split. eauto. }
      destruct (py_get first "text" (PDict [])) as [e3|v]; simpl;
        do 3 eexists; (split; [reflexivity|]); simpl; repeat split; eauto.
Qed.

Lemma X13_healthy_call_in_time_witness :
  exists res s' r',
    execute echo_server "echo" None None (connected_bridge 30 3, run0)
      = (Ok res, (s', r')) /\
    attempts r' = attempts run0 /\ calls r' = S (calls run0) /\
    trace r' = (trace run0 ++ [EvCall "echo" (normalize None)])%list /\
    match call_value echo_server (is_stdio (connected_bridge 30 3)) (calls run0)
            "echo" (normalize None) with
    | Some v => res = Success v "echo" (server_info_of (connected_bridge 30 3)) /\
                s' = connected_bridge 30 3
    | None =>
        s' = set_connection_healthy false (connected_bridge 30 3) /\
        exists e, res = Failure (execution_error_message e) "echo" (server_info_of s')
    end.
Proof.
  apply (X13_healthy_call_in_time echo_server "echo" None None
           (connected_bridge 30 3) run0); vm_compute; reflexivity.
Defined.

(** X14.  The value [_execute_http] reads from an answer that is a JSON
    object: without a [content] key it is the empty dict, with an empty
    [content] list the lookup of the first item raises IndexError, and with
    an object as first item it is that item's [text], or the empty dict when
    the item has none. *)
Theorem X14_execute_http_body (E : env) (tool_name : string) (arguments : pydict)
    (s : bridge) (r : run) (h d : nat) (body : pydict) :
  _http_client s = Some h ->
  http_calls E (calls r) tool_name arguments = HttpCallBody d (PDict body) ->
  in_time d r = true ->
  let o := fst (_execute_http E tool_name arguments (s, r)) in
  (dict_get "content" body = None -> o = Ok (PDict [])) /\
  (dict_get "content" body = Some (PList []) ->
   o = Raise (mk_exn IndexError "list index out of range")) /\
  (forall item rest,
     dict_get "content" body = Some (PList (PDict item :: rest)) ->
     o = Ok (dict_get_default "text" (PDict []) item)).
Proof.
  intros Hh Hcall Ht.
  unfold _execute_http, bind, self, next_call, lift; simpl.
  rewrite Hh; simpl. rewrite Hcall; simpl.
  rewrite await_char.
  change (in_time d _) with (in_time d r). rewrite Ht. simpl.
  unfold dict_get_default.
  repeat split.
  - intros ->. reflexivity.
  - intros ->. reflexivity.
  - intros item rest ->. reflexivity.
Qed.

Lemma X14_execute_http_body_witness :
  let o := fst (_execute_http bare_server "echo" [] (connected_http_bridge 30 3, run0)) in
  (dict_get "content" [] = None -> o = Ok (PDict [])) /\
  (dict_get "content" [] = Some (PList []) ->
   o = Raise (mk_exn IndexError "list index out of range")) /\
  (forall item rest,
     dict_get "content" [] = Some (PList (PDict item :: rest)) ->
     o = Ok (dict_get_default "text" (PDict []) item)).
Proof.
  apply (X14_execute_http_body bare_server "echo" [] (connected_http_bridge 30 3) run0
           0 0 []); vm_compute; reflexivity.
Defined.

(** X15.  A call on an unhealthy bridge with at least one attempt to make
    and a positive timeout starts with a connect attempt. *)
Theorem X15_unhealthy_call_connects_first (E : env) (tool_name : string)
    (arguments : option pydict) (timeout_opt : option Z) (s : bridge) (r : run) :
  _connection_healthy s = false ->
  (1 <= reconnect_attempts s)%Z ->
  (0 < exec_timeout s timeout_opt)%Z ->
  exists evs,
    trace (snd (snd (execute E tool_name arguments timeout_opt (s, r))))
    = (trace r ++ EvConnect (attempts r) :: evs)%list.
Proof.
  intros Hh Hn HT.
  destruct (execute_frame E tool_name arguments timeout_opt s r) as
    (x & s' & r' & He & _ & _ & _ & _ & _ & _ & _ & (evs & Htr & Hfirst) & _).
  rewrite He. simpl.
  destruct (Hfirst Hh) as [evs' ->]; [lia | exact HT |].
  exists evs'. exact Htr.
Qed.

Lemma X15_unhealthy_call_connects_first_witness :
  exists evs,
    trace (snd (snd (execute down_server "echo" None None (stdio_bridge 30 3, run0))))
    = (trace run0 ++ EvConnect (attempts run0) :: evs)%list.
Proof.
  apply (X15_unhealthy_call_connects_first down_server "echo" None None
           (stdio_bridge 30 3) run0); vm_compute; try reflexivity; discriminate.
Defined.

(** X16.  [close] is never cancelled and touches neither the handles, the
    catalogue nor the configuration; it asks for a shutdown exactly when a
    client handle is held.  When it returns the bridge is unhealthy; when
    the shutdown raises, the exception is the caller's and the bridge,
    health flag included, is as before. *)
Theorem X16_close_outcome (E : env) (s : bridge) (r : run) :
  exists o s' r',
    close E (s, r) = (o, (s', r')) /\
    same_config s s' /\
    _session s' = _session s /\ _http_client s' = _http_client s /\
    _available_tools s' = _available_tools s /\
    attempts r' = attempts r /\ calls r' = calls r /\
    closes r' = (match _http_client s with Some _ => S (closes r) | None => closes r end) /\
    match o with
    | Ok _ => _connection_healthy s' = false
    | Raise e =>
        s' = s /\ http_closes E (closes r) = Some e /\ _http_client s <> None
    | Cancelled => False
    end.
Proof.
  destruct (close_cases E s r) as [[Hc _] | (h & e & Hc & Hh & He)];
    rewrite Hc; do 3 eexists; (split; [reflexivity|]).
  - unfold closed_run. simpl. destruct (_http_client s); simpl; repeat split.
  - unfold closed_run. rewrite Hh. simpl. repeat split; auto. discriminate.
Qed.

(** X17.  [close] is not final: it keeps the catalogue, and the next call
    with an attempt to make and a positive timeout reconnects. *)
Theorem X17_close_then_execute_reconnects (E : env) (tool_name : string)
    (arguments : option pydict) (timeout_opt : option Z)
    (s : bridge) (r : run) (s1 : bridge) (r1 : run) :
  close E (s, r) = (Ok tt, (s1, r1)) ->
  (1 <= reconnect_attempts s)%Z ->
  (0 < exec_timeout s timeout_opt)%Z ->
  _available_tools s1 = _available_tools s /\
  exists evs,
    trace (snd (snd (execute E tool_name arguments timeout_opt (s1, r1))))
    = (trace r1 ++ EvConnect (attempts r) :: evs)%list.
Proof.
  intros Hc Hn HT.
  destruct (close_cases E s r) as [[Hc' _] | (h & e & Hc' & _)];
    rewrite Hc' in Hc; [|discriminate].
  inversion Hc; subst s1 r1. split; [reflexivity|].
  destruct (execute_frame E tool_name arguments timeout_opt
              (set_connection_healthy false s) (closed_run s r)) as
    (x & s' & r' & He & _ & _ & _ & _ & _ & _ & _ & (evs & Htr & Hfirst) & _).
  rewrite He. simpl.
  assert (Ha : attempts (closed_run s r) = attempts r).
  { unfold closed_run. destruct (_http_client s); reflexivity. }
  rewrite Ha in Hfirst.
  destruct Hfirst as [evs' ->]; [reflexivity | simpl; lia | exact HT |].
  exists evs'. exact Htr.
Qed.

Lemma X17_close_then_execute_reconnects_witness :
  _available_tools (set_connection_healthy false (connected_bridge 30 3))
  = _available_tools (connected_bridge 30 3) /\
  exists evs,
    trace (snd (snd (execute echo_server "echo" None None
                       (set_connection_healthy false (connected_bridge 30 3), run0))))
    = (trace run0 ++ EvConnect (attempts run0) :: evs)%list.
Proof.
  apply (X17_close_then_execute_reconnects echo_server "echo" None None
           (connected_bridge 30 3) run0); vm_compute; try reflexivity; discriminate.
Defined.

(** X18.  Once the fields are read, the rest of construction (the
    connection state, then [_validate_config]) returns exactly for the type
    stdio with the SDK present and a non-empty command, or the type http
    with httpx present and a non-empty URL; the timeout and the attempt
    count are not looked at.  The object it gives is unconnected: no handle,
    an empty catalogue, and the health flag down. *)
Theorem X18_validation_accepts (E : env) (type : string) (command : option string)
    (args : list string) (url : option string) (tmo attempts : Z) (s : bridge) :
  init_from_fields E type command args url tmo attempts = Ok s <->
  s = new_bridge type command args url tmo attempts /\
  ((type = "stdio" /\ MCP_STDIO_AVAILABLE E = true /\ falsy command = false) \/
   (type = "http" /\ MCP_HTTP_AVAILABLE E = true /\ falsy url = false)).
Proof.
  split; [apply init_cases|].
  intros [-> [(-> & Ha & Hc) | (-> & Ha & Hu)]];
    unfold init_from_fields, _validate_config, bind, self, raise, ret; simpl.
  - rewrite Ha, Hc. reflexivity.
  - rewrite Ha, Hu. reflexivity.
Qed.

(** X19.  Reading a bridge that was only constructed connects to nothing:
    the tool list is empty, and the server info reports a disconnected
    bridge with no tools and exactly one of command and URL, which is not
    empty. *)
Theorem X19_fresh_bridge_reads (E : env) (type : string) (command : option string)
    (args : list string) (url : option string) (tmo attempts : Z)
    (s : bridge) (r : run) :
  init_from_fields E type command args url tmo attempts = Ok s ->
  get_available_tools (s, r) = (Ok [], (s, r)) /\
  exists info,
    get_server_info (s, r) = (Ok info, (s, r)) /\
    info_type info = type /\ info_connected info = false /\
    info_available_tools_count info = 0 /\ info_timeout info = tmo /\
    ((exists c ch, command = Some (String c ch) /\
        info_command info = command /\ info_url info = None) \/
     (exists c ch, url = Some (String c ch) /\
        info_url info = url /\ info_command info = None)).
Proof.
  intros H. apply init_cases in H. destruct H as [-> H].
  split; [reflexivity|].
  eexists. split; [reflexivity|]. simpl.
  repeat split.
  destruct H as [(-> & _ & Hc) | (-> & _ & Hu)]; simpl.
  - left. destruct command as [[|c ch]|]; try discriminate. eauto.
  - right. destruct url as [[|c ch]|]; try discriminate. eauto.
Qed.

Lemma X19_fresh_bridge_reads_witness :
  get_available_tools (stdio_bridge 30 3, run0) = (Ok [], (stdio_bridge 30 3, run0)) /\
  exists info,
    get_server_info (stdio_bridge 30 3, run0) = (Ok info, (stdio_bridge 30 3, run0)) /\
    info_type info = "stdio" /\ info_connected info = false /\
    info_available_tools_count info = 0 /\ info_timeout info = 30%Z /\
    ((exists c ch, Some "echo-server" = Some (String c ch) /\
        info_command info = Some "echo-server" /\ info_url info = None) \/
     (exists c ch, @None string = Some (String c ch) /\
        info_url info = None /\ info_command info = None)).
Proof.
  apply (X19_fresh_bridge_reads echo_server "stdio" (Some "echo-server") [] None 30 3
           (stdio_bridge 30 3) run0).
  vm_compute. reflexivity.
Defined.

(** X20.  Through any sequence of [execute], [get_available_tools],
    [get_server_info] and [close] calls on a constructed bridge, the
    configuration stays, a healthy bridge holds the handle of its
    transport, the handle of the other transport is never created, and the
    connect attempts, tool calls and shutdowns are bounded by the calls
    made. *)
Theorem X20_reachable_states (E : env) (type : string) (command : option string)
    (args : list string) (url : option string) (tmo attempts0 : Z)
    (s0 : bridge) (ops : list op) :
  init_from_fields E type command args url tmo attempts0 = Ok s0 ->
  let '(s, r) := run_ops E ops (s0, run0) in
  same_config s0 s /\ handle_inv s /\ unused_handle s /\
  attempts r <= length (filter is_execute ops) * Z.to_nat attempts0 /\
  calls r <= length (filter is_execute ops) /\
  closes r <= length (filter is_close ops).
Proof.
  intros H. apply init_cases in H. destruct H as [-> H].
  pose proof (run_ops_inv E ops (new_bridge type command args url tmo attempts0) run0)
    as Hinv.
  destruct (run_ops E ops _) as [s r].
  destruct Hinv as (Hcfg & Hi & Hu & Ha & Hc & Hcl & _).
  - intros Hh. discriminate Hh.
  - unfold unused_handle. simpl. destruct (is_stdio _); reflexivity.
  - simpl in *. repeat split; try apply Hcfg; auto.
Qed.

Lemma X20_reachable_states_witness :
  let '(s, r) :=
    run_ops echo_server [OpExecute "echo" None None; OpClose; OpExecute "echo" None None]
      (stdio_bridge 30 3, run0) in
  same_config (stdio_bridge 30 3) s /\ handle_inv s /\ unused_handle s /\
  attempts r <= length (filter is_execute
                          [OpExecute "echo" None None; OpClose; OpExecute "echo" None None])
                * Z.to_nat 3 /\
  calls r <= length (filter is_execute
                       [OpExecute "echo" None None; OpClose; OpExecute "echo" None None]) /\
  closes r <= length (filter is_close
                        [OpExecute "echo" None None; OpClose; OpExecute "echo" None None]).
Proof.
  apply (X20_reachable_states echo_server "stdio" (Some "echo-server") [] None 30 3
           (stdio_bridge 30 3)
           [OpExecute "echo" None None; OpClose; OpExecute "echo" None None]).
  vm_compute. reflexivity.
Defined.

(** X21.  A constructed stdio bridge never holds an HTTP client, so however
    it has been used, [close] returns, asks for no shutdown, and only lowers
    the health flag. *)
Theorem X21_stdio_close_returns (E : env) (command : option string)
    (args : list string) (url : option string) (tmo attempts0 : Z)
    (s0 : bridge) (ops : list op) :
  init_from_fields E "stdio" command args url tmo attempts0 = Ok s0 ->
  let '(s, r) := run_ops E ops (s0, run0) in
  close E (s, r) = (Ok tt, (set_connection_healthy false s, r)) /\ closes r = 0.
Proof.
  intros H. apply init_cases in H. destruct H as [-> H].
  pose proof (run_ops_inv E ops (new_bridge "stdio" command args url tmo attempts0) run0)
    as Hinv.
  destruct (run_ops E ops _) as [s r].
  destruct Hinv as (Hcfg & Hi & Hu & Ha & Hc & Hcl & Hst).
  - intros Hh. discriminate Hh.
  - reflexivity.
  - specialize (Hst eq_refl). simpl in Hst. split; [|exact Hst].
    unfold unused_handle in Hu.
    rewrite (is_stdio_same _ _ Hcfg) in Hu. simpl in Hu.
    rewrite close_returns by (left; exact Hu).
    unfold closed_run. rewrite Hu. reflexivity.
Qed.

Lemma X21_stdio_close_returns_witness :
  let '(s, r) :=
    run_ops echo_server [OpExecute "echo" None None; OpClose]
      (stdio_bridge 30 3, run0) in
  close echo_server (s, r) = (Ok tt, (set_connection_healthy false s, r)) /\
  closes r = 0.
Proof.
  apply (X21_stdio_close_returns echo_server (Some "echo-server") [] None 30 3
           (stdio_bridge 30 3) [OpExecute "echo" None None; OpClose]).
  vm_compute. reflexivity.
Defined.

(** ** The constructor *)

(** X22.  The constructor returns a bridge exactly when the base class
    initialises, MCP_SERVER_TIMEOUT and MCP_RECONNECT_ATTEMPTS (30 and 3 when
    unset) are integer literals, and the lower-cased MCP_SERVER_TYPE (stdio
    when unset) is stdio with the SDK present and a non-empty command, or
    http with httpx present and a non-empty URL; the bridge then carries
    these values, the arguments split at white space, and no connection.
    What the base class raises comes out as it is; a timeout or an attempt
    count that is no literal raises ValueError whatever the rest of the
    configuration, missing libraries included. *)
Theorem X22_init_outcome (E : env) (P : interpreter) :
  let type := str_lower (getenv P "MCP_SERVER_TYPE" "stdio") in
  let command := environ P "MCP_SERVER_COMMAND" in
  let args := str_split (getenv P "MCP_SERVER_ARGS" EmptyString) in
  let url := environ P "MCP_SERVER_URL" in
  let tmo := parse_int (int_max_str_digits P) (getenv P "MCP_SERVER_TIMEOUT" "30") in
  let n := parse_int (int_max_str_digits P) (getenv P "MCP_RECONNECT_ATTEMPTS" "3") in
  (forall s,
     __init__ E P = Ok s <->
     base_tool_init P = None /\
     exists t k,
       tmo = Some t /\ n = Some k /\
       s = new_bridge type command args url t k /\
       ((type = "stdio" /\ MCP_STDIO_AVAILABLE E = true /\ falsy command = false) \/
        (type = "http" /\ MCP_HTTP_AVAILABLE E = true /\ falsy url = false))) /\
  (forall e, base_tool_init P = Some e -> __init__ E P = Raise e) /\
  (base_tool_init P = None -> tmo = None \/ n = None ->
   raises (__init__ E P) ValueError) /\
  __init__ E P <> Cancelled.
Proof.
  cbv zeta. rewrite init_unfold.
  destruct (base_tool_init P) as [e0|].
  { split; [|split; [|split]].
    - intros s. split; [discriminate | intros [H _]; discriminate].
    - intros e H. congruence.
    - discriminate.
    - discriminate. }
  destruct (parse_int _ (getenv P "MCP_SERVER_TIMEOUT" "30")) as [t|].
  2:{ split; [|split; [|split]].
      - intros s. split; [discriminate | intros (_ & t & k & H & _); discriminate].
      - discriminate.
      - intros _ _. eexists. split; reflexivity.
      - discriminate. }
  destruct (parse_int _ (getenv P "MCP_RECONNECT_ATTEMPTS" "3")) as [k|].
  2:{ split; [|split; [|split]].
      - intros s. split; [discriminate | intros (_ & t' & k & _ & H & _); discriminate].
      - discriminate.
      - intros _ _. eexists. split; reflexivity.
      - discriminate. }
  split; [|split; [|split]].
  - intros s. split.
    + intros H. apply init_cases in H as [-> H].
      split; [reflexivity|]. exists t, k. auto.
    + intros (_ & t' & k' & Ht & Hk & -> & H).
      inversion Ht; inversion Hk; subst.
      apply init_from_fields_accepts, H.
  - discriminate.
  - intros _ [H | H]; discriminate.
  - apply init_from_fields_never_cancelled.
Qed.

(** X23.  In a constructed bridge the type is stdio or http in lower case,
    and MCP_SERVER_TYPE spelled it up to the case of its ASCII letters; no
    argument is empty or has white space in it; and the bridge is one that
    [init_from_fields] returns. *)
Theorem X23_constructed_fields (E : env) (P : interpreter) (s : bridge) :
  __init__ E P = Ok s ->
  (server_type s = "stdio" \/ server_type s = "http") /\
  ascii_case_variant (getenv P "MCP_SERVER_TYPE" "stdio") (server_type s) /\
  Forall is_word (server_args s) /\
  exists type command args url tmo attempts,
    init_from_fields E type command args url tmo attempts = Ok s.
Proof.
  intros H. pose proof H as H0. rewrite init_unfold in H.
  destruct (base_tool_init P); [discriminate|].
  destruct (parse_int _ (getenv P "MCP_SERVER_TIMEOUT" "30")) as [t|]; [|discriminate].
  destruct (parse_int _ (getenv P "MCP_RECONNECT_ATTEMPTS" "3")) as [k|]; [|discriminate].
  pose proof H as Hf. apply init_cases in H as [-> Hty]. simpl.
  assert (Htype : str_lower (getenv P "MCP_SERVER_TYPE" "stdio") = "stdio" \/
                  str_lower (getenv P "MCP_SERVER_TYPE" "stdio") = "http") by tauto.
  split; [exact Htype|]. split; [|split].
  - apply lower_variant; [reflexivity|].
    destruct Htype as [-> | ->]; simpl; repeat constructor.
  - apply split_words_of.
  - eauto 10.
Qed.

Lemma X23_constructed_fields_witness :
  (server_type (new_bridge "stdio" (Some "python") ["server.py"; "--verbose"] None 10 3)
   = "stdio" \/
   server_type (new_bridge "stdio" (Some "python") ["server.py"; "--verbose"] None 10 3)
   = "http") /\
  ascii_case_variant (getenv capitals "MCP_SERVER_TYPE" "stdio")
    (server_type (new_bridge "stdio" (Some "python") ["server.py"; "--verbose"] None 10 3)) /\
  Forall is_word
    (server_args (new_bridge "stdio" (Some "python") ["server.py"; "--verbose"] None 10 3)) /\
  exists type command args url tmo attempts,
    init_from_fields echo_server type command args url tmo attempts
    = Ok (new_bridge "stdio" (Some "python") ["server.py"; "--verbose"] None 10 3).
Proof.
  apply (X23_constructed_fields echo_server capitals
           (new_bridge "stdio" (Some "python") ["server.py"; "--verbose"] None 10 3)).
  vm_compute. reflexivity.
Defined.

End Extras.
